(** * Family budget: monthly analytics and spending alerts

    A shallow embedding of the analytics part of [server/storage.ts]
    ([DatabaseStorage.getMonthlyBalance], [getCategoryExpenses],
    [getSpendingAlerts], [checkSpendingAlerts], [createTransaction]),
    of the tables of [shared/schema.ts] it reads, and of the analytics routes
    of [server/routes.ts].

    Conventions of the embedding:
    - a table is the list of its rows, a query is a function on that list;
    - the storage layer is embedded twice.  Modules [Storage] and [Routes]
      take amounts as exact rationals ([Q], results up to [Qeq]) and the
      [date] column as the integer the queries compare; they carry what
      rounding cannot disturb and what does not depend on how a date is
      written: which rows are listed and in what order, thresholds,
      monotonicity, the calendar.  Module [Stored] takes amounts as IEEE 754
      binary64 numbers, the sums of the database as a parameter, and the
      [date] column as the whole seconds the ORM writes for a [Date]; it
      carries what depends on the value of a sum, a quotient or a
      percentage, and on the rows a window selects;
    - time values are integers ([Z]), milliseconds since the epoch, as
      [Date.prototype.getTime] returns them, within the range a [Date] can
      hold (no TimeClip); the server's time zone is a fixed offset from UTC,
      so the changes of daylight saving time are not modelled;
    - the clock ([new Date()]) is an explicit argument;
    - SQL leaves the order of the rows of a grouped query to the engine: in
      [Stored] that order is a parameter of [getCategoryExpenses]. *)

From Stdlib Require Import ZArith QArith Qround Qabs List String Bool Lia Lqa
  Permutation SpecFloat.
Import ListNotations.
Open Scope Z_scope.

(** ** The parts of ECMAScript's [Date] the storage layer uses

    Names follow the abstract operations of the language specification
    (Day, TimeWithinDay, DayFromYear, MakeDay, MakeTime, MakeDate, LocalTime,
    UTC).  The local time zone is a fixed offset [LocalTZA] from UTC, in
    milliseconds; daylight saving time is taken as zero. *)
Module JSDate.

Definition msPerSecond : Z := 1000.
Definition msPerMinute : Z := 60000.
Definition msPerHour : Z := 3600000.
Definition msPerDay : Z := 86400000.

Definition Day (t : Z) : Z := t / msPerDay.
Definition TimeWithinDay (t : Z) : Z := t mod msPerDay.

Definition isLeapYear (y : Z) : bool :=
  ((y mod 4 =? 0) && negb (y mod 100 =? 0)) || (y mod 400 =? 0).

Definition DaysInYear (y : Z) : Z := if isLeapYear y then 366 else 365.

Definition DayFromYear (y : Z) : Z :=
  365 * (y - 1970) + (y - 1969) / 4 - (y - 1901) / 100 + (y - 1601) / 400.

(** The largest year whose first day is not after day [d]: an estimate from
    the mean length of a year, corrected by at most one year either way. *)
Definition YearFromDay (d : Z) : Z :=
  let y0 := 1970 + (400 * d) / 146097 in
  if DayFromYear (y0 + 1) <=? d then y0 + 1
  else if DayFromYear y0 <=? d then y0
  else y0 - 1.

Definition YearFromTime (t : Z) : Z := YearFromDay (Day t).

Definition InLeapYear (t : Z) : bool := isLeapYear (YearFromTime t).

Definition DayWithinYear (t : Z) : Z := Day t - DayFromYear (YearFromTime t).

(** Number of days of the year before month [m] (0 = January). *)
Definition daysBeforeMonth (leap : bool) (m : Z) : Z :=
  let l := if leap then 1 else 0 in
  match m with
  | 0 => 0
  | 1 => 31
  | 2 => 59 + l
  | 3 => 90 + l
  | 4 => 120 + l
  | 5 => 151 + l
  | 6 => 181 + l
  | 7 => 212 + l
  | 8 => 243 + l
  | 9 => 273 + l
  | 10 => 304 + l
  | 11 => 334 + l
  | _ => 365 + l
  end.

(** Length of month [m] (0 = January). *)
Definition daysInMonth (leap : bool) (m : Z) : Z :=
  match m with
  | 1 => if leap then 29 else 28
  | 3 | 5 | 8 | 10 => 30
  | _ => 31
  end.

(** The month (0 = January) of day [dwy] of a year. *)
Definition monthOfDay (leap : bool) (dwy : Z) : Z :=
  if dwy <? daysBeforeMonth leap 1 then 0
  else if dwy <? daysBeforeMonth leap 2 then 1
  else if dwy <? daysBeforeMonth leap 3 then 2
  else if dwy <? daysBeforeMonth leap 4 then 3
  else if dwy <? daysBeforeMonth leap 5 then 4
  else if dwy <? daysBeforeMonth leap 6 then 5
  else if dwy <? daysBeforeMonth leap 7 then 6
  else if dwy <? daysBeforeMonth leap 8 then 7
  else if dwy <? daysBeforeMonth leap 9 then 8
  else if dwy <? daysBeforeMonth leap 10 then 9
  else if dwy <? daysBeforeMonth leap 11 then 10
  else 11.

Definition MonthFromTime (t : Z) : Z :=
  monthOfDay (InLeapYear t) (DayWithinYear t).

Definition DateFromTime (t : Z) : Z :=
  DayWithinYear t - daysBeforeMonth (InLeapYear t) (MonthFromTime t) + 1.

Definition WeekDay (t : Z) : Z := (Day t + 4) mod 7.

Definition MakeTime (hour min sec ms : Z) : Z :=
  hour * msPerHour + min * msPerMinute + sec * msPerSecond + ms.

Definition MakeDay (year month date : Z) : Z :=
  let ym := year + month / 12 in
  let mn := month mod 12 in
  DayFromYear ym + daysBeforeMonth (isLeapYear ym) mn + date - 1.

Definition MakeDate (day time : Z) : Z := day * msPerDay + time.

Section Local.
Variable LocalTZA : Z.

Definition LocalTime (t : Z) : Z := t + LocalTZA.
Definition UTC (t : Z) : Z := t - LocalTZA.

(** [new Date(year, month, date, hours, minutes, seconds, ms).getTime()];
    a two-digit year counts from 1900. *)
Definition newDate (year month date hours minutes seconds ms : Z) : Z :=
  let yr := if (0 <=? year) && (year <=? 99) then 1900 + year else year in
  UTC (MakeDate (MakeDay yr month date) (MakeTime hours minutes seconds ms)).

Definition getFullYear (t : Z) : Z := YearFromTime (LocalTime t).
Definition getMonth (t : Z) : Z := MonthFromTime (LocalTime t).
Definition getDate (t : Z) : Z := DateFromTime (LocalTime t).
Definition getDay (t : Z) : Z := WeekDay (LocalTime t).

(** [d.setHours(hour, min, sec, ms)] followed by [d.getTime()]. *)
Definition setHours (t hour min sec ms : Z) : Z :=
  UTC (MakeDate (Day (LocalTime t)) (MakeTime hour min sec ms)).
End Local.

End JSDate.


(** ** Tables of [shared/schema.ts]

    One record per table, one field per column, under the column's name.
    [text] columns are strings, [real] columns are rationals, nullable
    columns are options.  A [Transaction.date] is the integer SQLite holds in
    column [date]; the rows of [Stored], further down, have the binary64
    amounts and the dates in seconds that the program writes. *)
Module Category.
Record t := mk {
  id : string;
  familyGroupId : string;
  userId : string;
  name : string;
  icon : string;
  color : string;
  type : string;
  createdAt : option Z
}.
End Category.

Module Transaction.
Record t := mk {
  id : string;
  familyGroupId : string;
  userId : string;
  categoryId : string;
  description : string;
  amount : Q;
  type : string;
  date : Z;
  isRecurring : bool;
  recurringDay : option Z;
  createdAt : option Z
}.
End Transaction.

Module SpendingAlert.
Record t := mk {
  id : string;
  familyGroupId : string;
  userId : string;
  categoryId : option string;
  name : string;
  limitAmount : Q;
  period : string;
  isActive : bool;
  createdAt : option Z
}.
End SpendingAlert.

(** [SpendingAlert & { category: Category | null }] *)
Module SpendingAlertWithCategory.
Record t := mk {
  alert : SpendingAlert.t;
  category : option Category.t
}.
End SpendingAlertWithCategory.

(** The database: the three tables the analytics read. *)
Record DB := mkDB {
  categories : list Category.t;
  transactions : list Transaction.t;
  spendingAlerts : list SpendingAlert.t
}.

(** ** The SQL the queries use *)
Module Sql.

(** [SUM(col)] over the selected rows; [NULL] when there is none. *)
Definition sum (vals : list Q) : option Q :=
  match vals with
  | [] => None
  | _ => Some (fold_left Qplus vals 0%Q)
  end.

Section GroupBy.
Context {K : Type} (eqb : K -> K -> bool).

Fixpoint addTo (k : K) (v : Q) (groups : list (K * Q)) : list (K * Q) :=
  match groups with
  | [] => [(k, v)]
  | (k', s) :: rest =>
      if eqb k' k then (k', (s + v)%Q) :: rest
      else (k', s) :: addTo k v rest
  end.

(** [SELECT key, SUM(val) ... GROUP BY key]: one row per key, keys in the
    order of their first row. *)
Definition groupSum (rows : list (K * Q)) : list (K * Q) :=
  fold_left (fun groups r => addTo (fst r) (snd r) groups) rows [].
End GroupBy.

(** [a INNER JOIN b ON on a b] *)
Definition innerJoin {A B : Type} (on : A -> B -> bool)
    (l : list A) (r : list B) : list (A * B) :=
  flat_map (fun a => map (fun b => (a, b)) (filter (on a) r)) l.

(** [a LEFT JOIN b ON on a b] *)
Definition leftJoin {A B : Type} (on : A -> B -> bool)
    (l : list A) (r : list B) : list (A * option B) :=
  flat_map (fun a =>
    match filter (on a) r with
    | [] => [(a, None)]
    | bs => map (fun b => (a, Some b)) bs
    end) l.

(** Order of a nullable integer column: [NULL] sorts below every value. *)
Definition leNull (a b : option Z) : bool :=
  match a, b with
  | None, _ => true
  | Some _, None => false
  | Some x, Some y => x <=? y
  end.

Section OrderBy.
Context {A : Type} (key : A -> option Z).

Fixpoint insertDesc (x : A) (l : list A) : list A :=
  match l with
  | [] => [x]
  | y :: rest =>
      if leNull (key y) (key x) then x :: y :: rest
      else y :: insertDesc x rest
  end.

(** [ORDER BY key DESC] *)
Definition orderByDesc (l : list A) : list A :=
  fold_right insertDesc [] l.
End OrderBy.

End Sql.

(** ** JavaScript helpers *)

(** [Math.round]: the nearest integer, halves towards plus infinity. *)
Definition Math_round (x : Q) : Z := Qfloor (x + (1 # 2))%Q.

Definition Qgtb (x y : Q) : bool := negb (Qle_bool x y).

(** [Number(x || 0)] for the nullable string a [sum(...)] column yields. *)
Definition numberOr0 (x : option Q) : Q :=
  match x with Some q => q | None => 0%Q end.

(** Truthiness of a nullable string: [null] and the empty string are falsy. *)
Definition truthy (s : option string) : bool :=
  match s with
  | Some s' => negb (String.eqb s' "")
  | None => false
  end.

(** ** Results of the analytics *)
Module MonthlyBalance.
Record t := mk { income : Q; expenses : Q; balance : Q }.
End MonthlyBalance.

Module CategoryExpense.
Record t := mk {
  categoryId : string;
  categoryName : string;
  total : Q;
  percentage : Z
}.
End CategoryExpense.

Module AlertStatus.
Record t := mk {
  alert : SpendingAlertWithCategory.t;
  currentSpending : Q;
  percentageUsed : Q
}.
End AlertStatus.

(** ** [DatabaseStorage] of [server/storage.ts] *)
Module Storage.

Definition pairEqb (a b : string * string) : bool :=
  String.eqb (fst a) (fst b) && String.eqb (snd a) (snd b).

Section WithTimeZone.
Variable LocalTZA : Z.

(** The [where] clause of [getMonthlyBalance]. *)
Definition monthlyBalanceWhere (userId : string) (startDate endDate : Z)
    (t : Transaction.t) : bool :=
  String.eqb (Transaction.userId t) userId
  && (startDate <=? Transaction.date t)
  && (Transaction.date t <=? endDate).

Definition getMonthlyBalance (db : DB) (userId : string) (year month : Z)
    : MonthlyBalance.t :=
  let startDate := JSDate.newDate LocalTZA year (month - 1) 1 0 0 0 0 in
  let endDate := JSDate.newDate LocalTZA year month 0 23 59 59 0 in
  let results :=
    Sql.groupSum String.eqb
      (map (fun t => (Transaction.type t, Transaction.amount t))
         (filter (monthlyBalanceWhere userId startDate endDate)
            (transactions db))) in
  let income :=
    numberOr0 (option_map snd
      (find (fun r => String.eqb (fst r) "income") results)) in
  let expenses :=
    numberOr0 (option_map snd
      (find (fun r => String.eqb (fst r) "expense") results)) in
  MonthlyBalance.mk income expenses (income - expenses)%Q.

(** [transactions INNER JOIN categories ON transactions.category_id =
    categories.id] *)
Definition transactionsWithCategory (db : DB)
    : list (Transaction.t * Category.t) :=
  Sql.innerJoin
    (fun t c => String.eqb (Transaction.categoryId t) (Category.id c))
    (transactions db) (categories db).

(** The [where] clause of [getCategoryExpenses]. *)
Definition categoryExpensesWhere (userId : string) (startDate endDate : Z)
    (t : Transaction.t) : bool :=
  String.eqb (Transaction.userId t) userId
  && String.eqb (Transaction.type t) "expense"
  && (startDate <=? Transaction.date t)
  && (Transaction.date t <=? endDate).

(** The rows of the grouped query of [getCategoryExpenses]:
    [((categoryId, categoryName), total)]. *)
Definition categoryExpensesRows (db : DB) (userId : string)
    (year month : Z) : list ((string * string) * Q) :=
  let startDate := JSDate.newDate LocalTZA year (month - 1) 1 0 0 0 0 in
  let endDate := JSDate.newDate LocalTZA year month 0 23 59 59 0 in
  Sql.groupSum pairEqb
    (map (fun tc => ((Category.id (snd tc), Category.name (snd tc)),
                     Transaction.amount (fst tc)))
       (filter (fun tc =>
                  categoryExpensesWhere userId startDate endDate (fst tc))
          (transactionsWithCategory db))).

Definition getCategoryExpenses (db : DB) (userId : string) (year month : Z)
    : list CategoryExpense.t :=
  let results := categoryExpensesRows db userId year month in
  let totalExpenses :=
    fold_left (fun sum item => (sum + snd item)%Q) results 0%Q in
  map (fun item =>
         CategoryExpense.mk (fst (fst item)) (snd (fst item)) (snd item)
           (if Qgtb totalExpenses 0
            then Math_round ((snd item / totalExpenses) * 100)%Q
            else 0))
      results.

Definition getSpendingAlerts (db : DB) (familyGroupId : string)
    : list SpendingAlertWithCategory.t :=
  Sql.orderByDesc
    (fun r => SpendingAlert.createdAt (SpendingAlertWithCategory.alert r))
    (map (fun ac => SpendingAlertWithCategory.mk (fst ac) (snd ac))
       (filter (fun ac =>
                  String.eqb (SpendingAlert.familyGroupId (fst ac))
                             familyGroupId)
          (Sql.leftJoin
             (fun a c =>
                match SpendingAlert.categoryId a with
                | Some cid => String.eqb cid (Category.id c)
                | None => false
                end)
             (spendingAlerts db) (categories db)))).

(** The [switch (alert.period)] of [checkSpendingAlerts]:
    [startDate.getTime()] for the clock reading [now]. *)
Definition periodStart (period : string) (now : Z) : Z :=
  if String.eqb period "daily" then
    JSDate.newDate LocalTZA (JSDate.getFullYear LocalTZA now)
      (JSDate.getMonth LocalTZA now) (JSDate.getDate LocalTZA now) 0 0 0 0
  else if String.eqb period "weekly" then
    let dayOfWeek := JSDate.getDay LocalTZA now in
    let startDate := now - dayOfWeek * 24 * 60 * 60 * 1000 in
    JSDate.setHours LocalTZA startDate 0 0 0 0
  else
    JSDate.newDate LocalTZA (JSDate.getFullYear LocalTZA now)
      (JSDate.getMonth LocalTZA now) 1 0 0 0 0.

(** The [whereClause] array of [checkSpendingAlerts], joined by [and]. *)
Definition alertWhere (familyGroupId : string)
    (alert : SpendingAlertWithCategory.t) (startDate now : Z)
    (t : Transaction.t) : bool :=
  let a := SpendingAlertWithCategory.alert alert in
  String.eqb (Transaction.familyGroupId t) familyGroupId
  && String.eqb (Transaction.type t) "expense"
  && (startDate <=? Transaction.date t)
  && (Transaction.date t <=? now)
  && (if truthy (SpendingAlert.categoryId a)
      then match SpendingAlert.categoryId a with
           | Some cid => String.eqb (Transaction.categoryId t) cid
           | None => false
           end
      else true).

(** One turn of the loop of [checkSpendingAlerts], for the clock reading
    [now]. *)
Definition checkAlert (db : DB) (familyGroupId : string) (now : Z)
    (alert : SpendingAlertWithCategory.t) : AlertStatus.t :=
  let a := SpendingAlertWithCategory.alert alert in
  let startDate := periodStart (SpendingAlert.period a) now in
  let result :=
    Sql.sum (map Transaction.amount
      (filter (alertWhere familyGroupId alert startDate now)
         (transactions db))) in
  let currentSpending := numberOr0 result in
  let limitAmount := SpendingAlert.limitAmount a in
  let percentageUsed :=
    if Qgtb limitAmount 0
    then ((currentSpending / limitAmount) * 100)%Q
    else 0%Q in
  AlertStatus.mk alert currentSpending percentageUsed.

(** The loop: turn [i] reads the clock as [clock i]. *)
Fixpoint checkLoop (db : DB) (familyGroupId : string) (clock : nat -> Z)
    (i : nat) (alerts : list SpendingAlertWithCategory.t)
    : list AlertStatus.t :=
  match alerts with
  | [] => []
  | alert :: rest =>
      checkAlert db familyGroupId (clock i) alert
      :: checkLoop db familyGroupId clock (S i) rest
  end.

Definition checkSpendingAlerts (db : DB) (familyGroupId : string)
    (clock : nat -> Z) : list AlertStatus.t :=
  let alerts := getSpendingAlerts db familyGroupId in
  checkLoop db familyGroupId clock 0
    (filter (fun a =>
               SpendingAlert.isActive (SpendingAlertWithCategory.alert a))
       alerts).
End WithTimeZone.

End Storage.

(** ** The analytics routes of [server/routes.ts]

    [req.user] carries the caller's identifier and family group; a path
    parameter [parseInt] turns into [NaN] is [None]. *)
Module Routes.

Record User := mkUser { id : string; familyGroupId : string }.

Inductive Response (A : Type) : Type :=
| Json (status : Z) (body : A)
| Message (status : Z) (message : string).
Arguments Json {A} status body.
Arguments Message {A} status message.

Section WithTimeZone.
Variable LocalTZA : Z.

(** [GET /api/analytics/monthly/:year/:month] *)
Definition analyticsMonthly (db : DB) (user : User) (year month : option Z)
    : Response MonthlyBalance.t :=
  match year, month with
  | Some y, Some m =>
      if (m <? 1) || (m >? 12) then Message 400 "Invalid year or month"
      else Json 200
             (Storage.getMonthlyBalance LocalTZA db (familyGroupId user) y m)
  | _, _ => Message 400 "Invalid year or month"
  end.

(** [GET /api/analytics/categories/:year/:month] *)
Definition analyticsCategories (db : DB) (user : User)
    (year month : option Z) : Response (list CategoryExpense.t) :=
  match year, month with
  | Some y, Some m =>
      if (m <? 1) || (m >? 12) then Message 400 "Invalid year or month"
      else Json 200
             (Storage.getCategoryExpenses LocalTZA db (familyGroupId user)
                y m)
  | _, _ => Message 400 "Invalid year or month"
  end.

(** [GET /api/spending-alerts/check] *)
Definition spendingAlertsCheck (db : DB) (user : User) (clock : nat -> Z)
    : Response (list AlertStatus.t) :=
  Json 200
    (Storage.checkSpendingAlerts LocalTZA db (familyGroupId user) clock).
End WithTimeZone.

End Routes.

(** ** Vocabulary of the statements *)

(** The sum of a list of amounts. *)
Definition sumQ (l : list Q) : Q := fold_right Qplus 0%Q l.

(** The sum of a list of integers. *)
Definition sumZ (l : list Z) : Z := fold_right Z.add 0 l.

(** The amounts of the transactions that satisfy [p], added up. *)
Definition sumWhere (p : Transaction.t -> bool) (rows : list Transaction.t)
    : Q :=
  sumQ (map Transaction.amount (filter p rows)).

(** [date] lies in the closed interval from [a] to [b]. *)
Definition inInterval (a b : Z) (t : Transaction.t) : bool :=
  (a <=? Transaction.date t) && (Transaction.date t <=? b).

(** The database with table [transactions] replaced. *)
Definition withTransactions (db : DB) (rows : list Transaction.t) : DB :=
  mkDB (categories db) rows (spendingAlerts db).

(** Primary key of table [categories]: no two rows share an [id]. *)
Definition categoriesKeyed (db : DB) : Prop :=
  NoDup (map Category.id (categories db)).

(** ** A sample ledger

    One family group ["g1"] with one member ["u1"], in a time zone three
    hours behind UTC.  March 2024 runs from 1709262000000 to 1711940399000
    there; [now] is Wednesday 13 March 2024, 15:30 local time, and the Sunday
    before it began at 1710039600000. *)
Module Sample.

Definition tz : Z := -10800000.
Definition now : Z := 1710354600000.

Definition category (id name : string) : Category.t :=
  Category.mk id "g1" "u1" name "fa-tag" "#1976D2" "expense" (Some 1700000000).

Definition tx (id group user cat kind : string) (amount : Q) (date : Z)
    : Transaction.t :=
  Transaction.mk id group user cat "" amount kind date false None None.

Definition alert (id group : string) (cat : option string) (limit : Q)
    (period : string) (active : bool) (created : Z) : SpendingAlert.t :=
  SpendingAlert.mk id group "u1" cat id limit period active (Some created).

Definition db : DB :=
  mkDB
    [ category "cat-a" "Food"; category "cat-b" "Transport";
      category "cat-s" "Salary" ]
    [ tx "t1" "g1" "u1" "cat-a" "expense" 60 1710158400000;
      tx "t2" "g1" "u1" "cat-b" "expense" 40 1709262000000;
      tx "t3" "g1" "u1" "cat-s" "income" 500 1711940399000;
      tx "t4" "g1" "u1" "cat-a" "expense" 999 1712000000000;
      tx "t5" "g1" "u1" "cat-a" "expense" 25 1710036000000;
      tx "t6" "g2" "u2" "cat-a" "expense" 7 1710158400000 ]
    [ alert "a1" "g1" None 100 "weekly" true 1700000100;
      alert "a2" "g1" (Some "cat-a"%string) 50 "monthly" true 1700000200;
      alert "a3" "g1" None 10 "daily" false 1700000300;
      alert "a4" "g2" None 10 "monthly" true 1700000400 ].


(** A ledger whose only transaction is an expense of amount 0. *)
Definition zeroLedger : DB :=
  withTransactions db [ tx "t0" "g1" "u1" "cat-a" "expense" 0 1710158400000 ].

Definition user : Routes.User := Routes.mkUser "u1" "g1".

(** The scenario of the specification: 60 spent in category A and 40 in
    category B in March 2024, no income. *)
Definition marchLedger : DB :=
  mkDB
    [ category "cat-a" "A"; category "cat-b" "B" ]
    [ tx "m1" "g1" "u1" "cat-a" "expense" 60 1710158400000;
      tx "m2" "g1" "u1" "cat-b" "expense" 40 1710036000000 ]
    [].

(** The scenario of the specification: a monthly alert with a limit of 200
    and no category, 250 spent so far this month. *)
Definition overspentLedger : DB :=
  mkDB
    [ category "cat-a" "A"; category "cat-b" "B" ]
    [ tx "o1" "g1" "u1" "cat-a" "expense" 200 1710158400000;
      tx "o2" "g1" "u1" "cat-b" "expense" 50 1710036000000 ]
    [ alert "o" "g1" None 200 "monthly" true 1700000100 ].

End Sample.

(** ** The list queries of [server/storage.ts] *)

From Stdlib Require Import Sorted.

(** [Transaction & { category: Category }] *)
Module TransactionWithCategory.
Record t := mk {
  transaction : Transaction.t;
  category : Category.t
}.
End TransactionWithCategory.

(** Ascending order, with the order of a nullable column as in [Sql]. *)
Module SqlOrder.

Section OrderByAsc.
Context {A : Type} (key : A -> option Z).

Fixpoint insertAsc (x : A) (l : list A) : list A :=
  match l with
  | [] => [x]
  | y :: rest =>
      if Sql.leNull (key x) (key y) then x :: y :: rest
      else y :: insertAsc x rest
  end.

(** [ORDER BY key] *)
Definition orderByAsc (l : list A) : list A :=
  fold_right insertAsc [] l.
End OrderByAsc.

End SqlOrder.

(** [a] may stand before [b] in descending order of [key]. *)
Definition descending {A : Type} (key : A -> option Z) (a b : A) : Prop :=
  Sql.leNull (key b) (key a) = true.

(** [a] may stand before [b] in ascending order of [key]. *)
Definition ascending {A : Type} (key : A -> option Z) (a b : A) : Prop :=
  Sql.leNull (key a) (key b) = true.

(** [getCategories] and [getTransactions] *)
Module Queries.

Definition getCategories (db : DB) (familyGroupId : string)
    : list Category.t :=
  SqlOrder.orderByAsc Category.createdAt
    (filter (fun c => String.eqb (Category.familyGroupId c) familyGroupId)
       (categories db)).

Definition getTransactions (db : DB) (familyGroupId : string)
    : list TransactionWithCategory.t :=
  Sql.orderByDesc
    (fun r => Some (Transaction.date (TransactionWithCategory.transaction r)))
    (map (fun tc => TransactionWithCategory.mk (fst tc) (snd tc))
       (filter (fun tc =>
                  String.eqb (Transaction.familyGroupId (fst tc))
                             familyGroupId)
          (Storage.transactionsWithCategory db))).

End Queries.

(** ** What the views compute from the answers

    [client/src/components]: the alert cards of [spending-alerts-view.tsx],
    the goal cards of [savings-goals-view.tsx], the relative dates of
    [dashboard-view.tsx] and the filter of [transactions-view.tsx].  A date
    the server sent is the instant [new Date(...)] reads from it, in
    milliseconds. *)
Module Views.

(** [getAlertColor] *)
Definition getAlertColor (percentage : Q) : string :=
  if Qle_bool 100 percentage then "destructive"
  else if Qle_bool 80 percentage then "warning"
  else if Qle_bool 60 percentage then "yellow"
  else "default".

(** The value of the progress bar of an alert: [Math.min(percentage, 100)]. *)
Definition alertProgress (percentage : Q) : Q :=
  if Qle_bool percentage 100 then percentage else 100%Q.

(** [getAlertStatus] *)
Definition getAlertStatus (alertsStatus : list AlertStatus.t)
    (alertId : string) : option AlertStatus.t :=
  find (fun status =>
          String.eqb
            (SpendingAlert.id
               (SpendingAlertWithCategory.alert (AlertStatus.alert status)))
            alertId)
    alertsStatus.

(** The line under the bar of an alert card. *)
Inductive AlertLine : Type :=
| Exceeded (by_ : Q)
| Remaining (left : Q).

(** The [percentage] of the card of [alert]:
    [status?.percentageUsed || 0]. *)
Definition cardPercentage (alertsStatus : list AlertStatus.t)
    (alert : SpendingAlertWithCategory.t) : Q :=
  match getAlertStatus alertsStatus
          (SpendingAlert.id (SpendingAlertWithCategory.alert alert)) with
  | Some status => AlertStatus.percentageUsed status
  | None => 0%Q
  end.

(** Its [currentSpending]: [status?.currentSpending || 0]. *)
Definition cardSpending (alertsStatus : list AlertStatus.t)
    (alert : SpendingAlertWithCategory.t) : Q :=
  match getAlertStatus alertsStatus
          (SpendingAlert.id (SpendingAlertWithCategory.alert alert)) with
  | Some status => AlertStatus.currentSpending status
  | None => 0%Q
  end.

Definition alertLine (alertsStatus : list AlertStatus.t)
    (alert : SpendingAlertWithCategory.t) : AlertLine :=
  let percentage := cardPercentage alertsStatus alert in
  let currentSpending := cardSpending alertsStatus alert in
  let limitAmount :=
    SpendingAlert.limitAmount (SpendingAlertWithCategory.alert alert) in
  if Qle_bool 100 percentage
  then Exceeded (currentSpending - limitAmount)%Q
  else Remaining (limitAmount - currentSpending)%Q.

(** [Math.ceil(a / b)] for integers [a] and a positive [b]. *)
Definition ceilDiv (a b : Z) : Z := - ((- a) / b).

(** [getDaysRemaining]; [None] is a goal without a target date. *)
Definition getDaysRemaining (now : Z) (targetDate : option Z) : option Z :=
  match targetDate with
  | None => None
  | Some target => Some (ceilDiv (target - now) (1000 * 60 * 60 * 24))
  end.

(** The label of the badge of a goal with a target date. *)
Inductive DaysLabel : Type :=
| Dias (n : Z)
| Vencida.

Definition daysLabel (daysRemaining : Z) : DaysLabel :=
  if 0 <? daysRemaining then Dias daysRemaining else Vencida.

(** [formatRelativeDate]; [Formatted date] is the date printed by
    [format(date, "dd 'de' MMM")]. *)
Inductive RelativeDate : Type :=
| Hoje
| Ontem
| DiasAtras (n : Z)
| Formatted (date : Z).

Definition formatRelativeDate (now date : Z) : RelativeDate :=
  let diffInDays := (now - date) / (1000 * 60 * 60 * 24) in
  if diffInDays =? 0 then Hoje
  else if diffInDays =? 1 then Ontem
  else if diffInDays <=? 7 then DiasAtras diffInDays
  else Formatted date.

(** The callback of [filteredTransactions], for a transaction of the given
    [type] and [date]. *)
Definition keepTransaction (LocalTZA : Z) (filter : string) (now : Z)
    (type : string) (date : Z) : bool :=
  if String.eqb filter "all" then true
  else if String.eqb filter "income" then String.eqb type "income"
  else if String.eqb filter "expense" then String.eqb type "expense"
  else if String.eqb filter "month" then
    let currentMonth := JSDate.getMonth LocalTZA now in
    let transactionMonth := JSDate.getMonth LocalTZA date in
    currentMonth =? transactionMonth
  else true.

End Views.

(** ** More sample data *)
Module SampleMore.

(** The sample ledger with its rows in another order. *)
Definition shuffled : DB :=
  mkDB (categories Sample.db) (rev (transactions Sample.db))
    (spendingAlerts Sample.db).

(** Noon of 11 March 2023, three hours behind UTC. *)
Definition lastYear : Z := 1678546800000.

(** The alert of the overspent ledger as [getSpendingAlerts] lists it, and
    the statuses of the check at the sample clock reading. *)
Definition overspentAlert : SpendingAlertWithCategory.t :=
  SpendingAlertWithCategory.mk
    (Sample.alert "o" "g1" None 200 "monthly" true 1700000100) None.

Definition overspentStatuses : list AlertStatus.t :=
  Storage.checkSpendingAlerts Sample.tz Sample.overspentLedger "g1"
    (fun _ => Sample.now).

(** The daily and the weekly alert of the sample ledger, as
    [getSpendingAlerts] lists them. *)
Definition dailyAlert : SpendingAlertWithCategory.t :=
  SpendingAlertWithCategory.mk
    (Sample.alert "a3" "g1" None 10 "daily" false 1700000300) None.

Definition weeklyAlert : SpendingAlertWithCategory.t :=
  SpendingAlertWithCategory.mk
    (Sample.alert "a1" "g1" None 100 "weekly" true 1700000100) None.

End SampleMore.

(** * The program on the values the database holds

    The embedding above takes amounts as exact rationals and the [date]
    column as an instant in milliseconds.  The program itself computes with
    IEEE 754 binary64 numbers, and the ORM writes a [Date] into an
    [integer(..., { mode: 'timestamp' })] column as whole seconds.  Module
    [Stored] embeds the same functions on those values.  Facts that rounding
    cannot disturb (order, ranges, which rows are listed) are proved on the
    first embedding; what depends on the value of a sum or a quotient, or on
    what is stored for a date, is proved on this one. *)

(** ** Binary64 numbers

    The operations are those of [SpecFloat], the specification of the
    floating-point numbers of the prover, at precision 53: every result is
    rounded to the nearest representable number, ties to the even one. *)
Module Binary64.

Definition prec : Z := 53.
Definition emax : Z := 1024.

Definition double : Type := spec_float.

Definition add : double -> double -> double := SFadd prec emax.
Definition sub : double -> double -> double := SFsub prec emax.
Definition mul : double -> double -> double := SFmul prec emax.
Definition div : double -> double -> double := SFdiv prec emax.

(** [x < y]; false when either is [NaN]. *)
Definition ltb : double -> double -> bool := SFltb.

Definition zero : double := S754_zero false.

(** The number an integer literal denotes. *)
Definition ofZ (z : Z) : double := binary_normalize prec emax z 0 false.

(** The number the decimal literal [digits / 10 ^ places] denotes, for
    [digits] below [2 ^ 53] and at most 22 places, where both operands of the
    quotient are exact. *)
Definition decimal (digits : Z) (places : nat) : double :=
  div (ofZ digits) (ofZ (10 ^ Z.of_nat places)).

(** The rational a finite number stands for. *)
Definition exact (x : double) : option Q :=
  match x with
  | S754_zero _ => Some 0%Q
  | S754_finite s m e =>
      let n := if s then Zneg m else Zpos m in
      Some (if 0 <=? e then inject_Z (n * 2 ^ e)
            else (n # Z.to_pos (2 ^ (- e))))
  | S754_infinity _ | S754_nan => None
  end.

(** The sum of the rationals the numbers of a list stand for. *)
Fixpoint exactSum (l : list double) : option Q :=
  match l with
  | [] => Some 0%Q
  | x :: rest =>
      match exact x, exactSum rest with
      | Some q, Some s => Some (q + s)%Q
      | _, _ => None
      end
  end.

(** The number that stands for an integer of at most 53 bits, its digits
    moved up to fill the 53 places; [negative] is the sign given to zero.  (A
    wider integer, which the rounding below never produces from a number of
    53 bits, is kept with exponent 0.) *)
Definition ofInteger (negative : bool) (z : Z) : double :=
  let normal (s : bool) (p : positive) : double :=
    let k := 53 - Z.pos (digits2_pos p) in
    if 0 <? k then S754_finite s (Z.to_pos (Z.shiftl (Z.pos p) k)) (- k)
    else S754_finite s p 0 in
  match z with
  | Z0 => S754_zero negative
  | Zpos p => normal false p
  | Zneg p => normal true p
  end.

(** [Math.round]: the integer nearest to [x], a half going up; [NaN] and the
    infinities are returned as they are, and so is a number of exponent 0 or
    more, which is an integer already.  A negative [x] that rounds to zero
    gives [-0]. *)
Definition Math_round (x : double) : double :=
  match x with
  | S754_finite s m e =>
      if 0 <=? e then x
      else
        let n := if s then Zneg m else Zpos m in
        ofInteger s (Qfloor ((n # Z.to_pos (2 ^ (- e))) + (1 # 2)))
  | _ => x
  end.

(** [Number(String(x))]: a number survives the round trip through its
    decimal string, except that [-0] prints as ["0"]. *)
Definition fromText (x : double) : double :=
  match x with
  | S754_zero _ => zero
  | _ => x
  end.

(** Whether a number is finite, and the rational it stands for (0 when it
    is not finite). *)
Definition finite (x : double) : bool :=
  match exact x with Some _ => true | None => false end.

Definition value (x : double) : Q :=
  match exact x with Some q => q | None => 0%Q end.

(** Summation by successive additions, from 0. *)
Definition sumSeq (vals : list double) : double := fold_left add vals zero.

(** Compensated summation (Kahan, Babuska, Neumaier), the way recent
    versions of SQLite add floating-point values: next to the running sum,
    the error of each addition is added up apart, and joined to the sum at
    the end unless it has overflowed. *)
Definition abs : double -> double := SFabs.

Definition compensatedStep (acc : double * double) (r : double)
    : double * double :=
  let s := fst acc in
  let t := add s r in
  (t, add (snd acc)
        (if ltb (abs r) (abs s) then add (sub s t) r
         else add (sub r t) s)).

Definition sumCompensated (vals : list double) : double :=
  let acc := fold_left compensatedStep vals (zero, zero) in
  match exact (snd acc) with
  | Some _ => add (fst acc) (snd acc)
  | None => fst acc
  end.

End Binary64.

(** ** The timestamp columns of the ORM

    A column declared [integer(name, { mode: 'timestamp' })] holds whole
    seconds: the ORM writes [Math.floor(value.getTime() / 1000)] for a [Date]
    and reads back [new Date(value * 1000)]. *)
Module Drizzle.

Definition timestampToDriver (value : Z) : Z := value / 1000.

Definition timestampFromDriver (value : Z) : Z := value * 1000.

End Drizzle.

Module Stored.

(** *** Rows *)
Module Transaction.
Record t := mk {
  id : string;
  familyGroupId : string;
  userId : string;
  categoryId : string;
  description : string;
  amount : Binary64.double;
  type : string;
  date : Z;
  isRecurring : bool;
  recurringDay : option Z;
  createdAt : option Z
}.
End Transaction.

(** [InsertTransaction]: what the caller of [createTransaction] hands over;
    [date] is a [Date], in milliseconds. *)
Module InsertTransaction.
Record t := mk {
  categoryId : string;
  description : string;
  amount : Binary64.double;
  type : string;
  date : Z;
  isRecurring : option bool;
  recurringDay : option Z
}.
End InsertTransaction.

Module SpendingAlert.
Record t := mk {
  id : string;
  familyGroupId : string;
  userId : string;
  categoryId : option string;
  name : string;
  limitAmount : Binary64.double;
  period : string;
  isActive : bool;
  createdAt : option Z
}.
End SpendingAlert.

Module SpendingAlertWithCategory.
Record t := mk {
  alert : SpendingAlert.t;
  category : option Category.t
}.
End SpendingAlertWithCategory.

Record DB := mkDB {
  categories : list Category.t;
  transactions : list Transaction.t;
  spendingAlerts : list SpendingAlert.t
}.

(** *** Results *)
Module MonthlyBalance.
Record t := mk {
  income : Binary64.double;
  expenses : Binary64.double;
  balance : Binary64.double
}.
End MonthlyBalance.

Module CategoryExpense.
Record t := mk {
  categoryId : string;
  categoryName : string;
  total : Binary64.double;
  percentage : Binary64.double
}.
End CategoryExpense.

Module AlertStatus.
Record t := mk {
  alert : SpendingAlertWithCategory.t;
  currentSpending : Binary64.double;
  percentageUsed : Binary64.double
}.
End AlertStatus.

(** *** The aggregates of the database

    [sum(transactions.amount)] is computed by the database engine, not by
    the program: [SUM] stands for the function of the engine from the values
    of the selected rows, in the order of the scan, to their sum.  Nothing is
    assumed of it; the examples take [Binary64.sumSeq] and
    [Binary64.sumCompensated]. *)
Module Engine.

Section Aggregates.
Variable SUM : list Binary64.double -> Binary64.double.

(** [SUM(col)] over the selected rows; [NULL] when there is none. *)
Definition sum (vals : list Binary64.double) : option Binary64.double :=
  match vals with
  | [] => None
  | _ => Some (SUM vals)
  end.

Context {K : Type} (eqb : K -> K -> bool).

Fixpoint addRow (k : K) (v : Binary64.double)
    (groups : list (K * list Binary64.double))
    : list (K * list Binary64.double) :=
  match groups with
  | [] => [(k, [v])]
  | (k', vs) :: rest =>
      if eqb k' k then (k', vs ++ [v]) :: rest
      else (k', vs) :: addRow k v rest
  end.

(** [GROUP BY key]: the values of each key in the order of the scan, keys in
    the order of their first row. *)
Definition groupBy (rows : list (K * Binary64.double))
    : list (K * list Binary64.double) :=
  fold_left (fun groups r => addRow (fst r) (snd r) groups) rows [].

(** [SELECT key, SUM(val) ... GROUP BY key] *)
Definition groupSum (rows : list (K * Binary64.double))
    : list (K * Binary64.double) :=
  map (fun g => (fst g, SUM (snd g))) (groupBy rows).
End Aggregates.

(** SQL leaves the order of the rows of a grouped query without [ORDER BY]
    to the engine.  [inScanOrder] is the order [groupBy] builds, each group
    at the place of its first row; the reports below take the order as a
    parameter. *)
Definition inScanOrder {A : Type} (groups : list A) : list A := groups.

End Engine.

(** [Number(total || 0)] for the nullable string a [sum(...)] column yields:
    the string of a number is never empty, so it is falsy only when
    [null]. *)
Definition numberOr0 (total : option Binary64.double) : Binary64.double :=
  match total with
  | Some x => Binary64.fromText x
  | None => Binary64.zero
  end.

(** *** [DatabaseStorage] *)
Module Storage.

(** The row [createTransaction] writes: [newId] is the [crypto.randomUUID()]
    of the [id] column and [now] the [new Date()] of [createdAt]; both
    timestamps go through the ORM. *)
Definition insertedRow (newId : string) (now : Z)
    (familyGroupId userId : string) (transaction : InsertTransaction.t)
    : Transaction.t :=
  let isRecurring :=
    match InsertTransaction.isRecurring transaction with
    | Some b => b
    | None => false
    end in
  Transaction.mk newId familyGroupId userId
    (InsertTransaction.categoryId transaction)
    (InsertTransaction.description transaction)
    (InsertTransaction.amount transaction)
    (InsertTransaction.type transaction)
    (Drizzle.timestampToDriver (InsertTransaction.date transaction))
    isRecurring
    (if isRecurring then InsertTransaction.recurringDay transaction
     else None)
    (Some (Drizzle.timestampToDriver now)).

(** [createTransaction]: the ledger with the row appended, and the row.  The
    checks of the engine on the row (keys, references) are not modelled. *)
Definition createTransaction (db : DB) (newId : string) (now : Z)
    (familyGroupId userId : string) (transaction : InsertTransaction.t)
    : DB * Transaction.t :=
  let row := insertedRow newId now familyGroupId userId transaction in
  (mkDB (categories db) (transactions db ++ [row]) (spendingAlerts db), row).

(** The [where] clause of [getMonthlyBalance]: the column is compared with
    the two [getTime()] values as they are. *)
Definition monthlyBalanceWhere (userId : string) (startDate endDate : Z)
    (t : Transaction.t) : bool :=
  String.eqb (Transaction.userId t) userId
  && (startDate <=? Transaction.date t)
  && (Transaction.date t <=? endDate).

(** The [where] clause of [getCategoryExpenses]. *)
Definition categoryExpensesWhere (userId : string) (startDate endDate : Z)
    (t : Transaction.t) : bool :=
  String.eqb (Transaction.userId t) userId
  && String.eqb (Transaction.type t) "expense"
  && (startDate <=? Transaction.date t)
  && (Transaction.date t <=? endDate).

(** [transactions INNER JOIN categories ON transactions.category_id =
    categories.id] *)
Definition transactionsWithCategory (db : DB)
    : list (Transaction.t * Category.t) :=
  Sql.innerJoin
    (fun t c => String.eqb (Transaction.categoryId t) (Category.id c))
    (transactions db) (categories db).

(** The [whereClause] array of [checkSpendingAlerts], joined by [and]. *)
Definition alertWhere (familyGroupId : string)
    (alert : SpendingAlertWithCategory.t) (startDate now : Z)
    (t : Transaction.t) : bool :=
  let a := SpendingAlertWithCategory.alert alert in
  String.eqb (Transaction.familyGroupId t) familyGroupId
  && String.eqb (Transaction.type t) "expense"
  && (startDate <=? Transaction.date t)
  && (Transaction.date t <=? now)
  && (if truthy (SpendingAlert.categoryId a)
      then match SpendingAlert.categoryId a with
           | Some cid => String.eqb (Transaction.categoryId t) cid
           | None => false
           end
      else true).

Definition getSpendingAlerts (db : DB) (familyGroupId : string)
    : list SpendingAlertWithCategory.t :=
  Sql.orderByDesc
    (fun r => SpendingAlert.createdAt (SpendingAlertWithCategory.alert r))
    (map (fun ac => SpendingAlertWithCategory.mk (fst ac) (snd ac))
       (filter (fun ac =>
                  String.eqb (SpendingAlert.familyGroupId (fst ac))
                             familyGroupId)
          (Sql.leftJoin
             (fun a c =>
                match SpendingAlert.categoryId a with
                | Some cid => String.eqb cid (Category.id c)
                | None => false
                end)
             (spendingAlerts db) (categories db)))).

Section WithEngine.
Variable SUM : list Binary64.double -> Binary64.double.
Variable LocalTZA : Z.

(** The order in which the engine returns the groups of
    [getCategoryExpenses]. *)
Variable ORDER : list ((string * string) * Binary64.double)
                 -> list ((string * string) * Binary64.double).

Definition getMonthlyBalance (db : DB) (userId : string) (year month : Z)
    : MonthlyBalance.t :=
  let startDate := JSDate.newDate LocalTZA year (month - 1) 1 0 0 0 0 in
  let endDate := JSDate.newDate LocalTZA year month 0 23 59 59 0 in
  let results :=
    Engine.groupSum SUM String.eqb
      (map (fun t => (Transaction.type t, Transaction.amount t))
         (filter (monthlyBalanceWhere userId startDate endDate)
            (transactions db))) in
  let income :=
    numberOr0 (option_map snd
      (find (fun r => String.eqb (fst r) "income") results)) in
  let expenses :=
    numberOr0 (option_map snd
      (find (fun r => String.eqb (fst r) "expense") results)) in
  MonthlyBalance.mk income expenses (Binary64.sub income expenses).

(** The rows the query of [getCategoryExpenses] selects, before they are
    grouped: [((categories.id, categories.name), transactions.amount)]. *)
Definition categoryExpensesSelected (db : DB) (userId : string)
    (year month : Z) : list ((string * string) * Binary64.double) :=
  let startDate := JSDate.newDate LocalTZA year (month - 1) 1 0 0 0 0 in
  let endDate := JSDate.newDate LocalTZA year month 0 23 59 59 0 in
  map (fun tc => ((Category.id (snd tc), Category.name (snd tc)),
                  Transaction.amount (fst tc)))
    (filter (fun tc =>
               categoryExpensesWhere userId startDate endDate (fst tc))
       (transactionsWithCategory db)).

(** The rows of the grouped query of [getCategoryExpenses]:
    [((categoryId, categoryName), total)]. *)
Definition categoryExpensesRows (db : DB) (userId : string)
    (year month : Z) : list ((string * string) * Binary64.double) :=
  ORDER
    (Engine.groupSum SUM Storage.pairEqb
       (categoryExpensesSelected db userId year month)).

Definition getCategoryExpenses (db : DB) (userId : string) (year month : Z)
    : list CategoryExpense.t :=
  let results := categoryExpensesRows db userId year month in
  let totalExpenses :=
    fold_left (fun sum item =>
                 Binary64.add sum (Binary64.fromText (snd item)))
      results Binary64.zero in
  map (fun item =>
         CategoryExpense.mk (fst (fst item)) (snd (fst item))
           (Binary64.fromText (snd item))
           (if Binary64.ltb Binary64.zero totalExpenses
            then Binary64.Math_round
                   (Binary64.mul
                      (Binary64.div (Binary64.fromText (snd item))
                         totalExpenses)
                      (Binary64.ofZ 100))
            else Binary64.zero))
      results.

(** One turn of the loop of [checkSpendingAlerts], for the clock reading
    [now]. *)
Definition checkAlert (db : DB) (familyGroupId : string) (now : Z)
    (alert : SpendingAlertWithCategory.t) : AlertStatus.t :=
  let a := SpendingAlertWithCategory.alert alert in
  let startDate := Storage.periodStart LocalTZA (SpendingAlert.period a) now in
  let result :=
    Engine.sum SUM (map Transaction.amount
      (filter (alertWhere familyGroupId alert startDate now)
         (transactions db))) in
  let currentSpending := numberOr0 result in
  let limitAmount := SpendingAlert.limitAmount a in
  let percentageUsed :=
    if Binary64.ltb Binary64.zero limitAmount
    then Binary64.mul (Binary64.div currentSpending limitAmount)
           (Binary64.ofZ 100)
    else Binary64.zero in
  AlertStatus.mk alert currentSpending percentageUsed.

(** The loop: turn [i] reads the clock as [clock i]. *)
Fixpoint checkLoop (db : DB) (familyGroupId : string) (clock : nat -> Z)
    (i : nat) (alerts : list SpendingAlertWithCategory.t)
    : list AlertStatus.t :=
  match alerts with
  | [] => []
  | alert :: rest =>
      checkAlert db familyGroupId (clock i) alert
      :: checkLoop db familyGroupId clock (S i) rest
  end.

Definition checkSpendingAlerts (db : DB) (familyGroupId : string)
    (clock : nat -> Z) : list AlertStatus.t :=
  let alerts := getSpendingAlerts db familyGroupId in
  checkLoop db familyGroupId clock 0
    (filter (fun a =>
               SpendingAlert.isActive (SpendingAlertWithCategory.alert a))
       alerts).
End WithEngine.

End Storage.

End Stored.

(** ** Sample ledgers on stored values

    The family group, member, categories and time zone of [Sample]. *)
Module SampleStored.

(** An expense and an income as [createTransaction] receives them. *)
Definition spend (cat : string) (amount : Binary64.double) (date : Z)
    : Stored.InsertTransaction.t :=
  Stored.InsertTransaction.mk cat "" amount "expense" date None None.

Definition earn (cat : string) (amount : Binary64.double) (date : Z)
    : Stored.InsertTransaction.t :=
  Stored.InsertTransaction.mk cat "" amount "income" date None None.

Definition alert (id : string) (cat : option string)
    (limit : Binary64.double) (period : string) (active : bool) (created : Z)
    : Stored.SpendingAlert.t :=
  Stored.SpendingAlert.mk id "g1" "u1" cat id limit period active
    (Some created).

(** Member ["u1"] of group ["g1"] records the transactions, one after the
    other, at the sample clock reading. *)
Fixpoint record (db : Stored.DB) (n : nat)
    (l : list Stored.InsertTransaction.t) : Stored.DB :=
  match l with
  | [] => db
  | transaction :: rest =>
      record
        (fst (Stored.Storage.createTransaction db
                (String.append "t" (String (Ascii.ascii_of_nat (48 + n)) ""))
                Sample.now "g1" "u1" transaction))
        (S n) rest
  end.

(** The categories of the sample ledger, a weekly alert without category and
    a monthly alert on ["cat-a"], no transaction. *)
Definition empty : Stored.DB :=
  Stored.mkDB (categories Sample.db) []
    [ alert "a1" None (Binary64.ofZ 100) "weekly" true 1700000100;
      alert "a2" (Some "cat-a"%string) (Binary64.ofZ 50) "monthly" true
        1700000200 ].

(** The weekly alert as [getSpendingAlerts] lists it. *)
Definition weekly : Stored.SpendingAlertWithCategory.t :=
  Stored.SpendingAlertWithCategory.mk
    (alert "a1" None (Binary64.ofZ 100) "weekly" true 1700000100) None.

(** Noon UTC of Monday 11 March 2024, two days before the sample clock
    reading. *)
Definition monday : Z := 1710158400000.

(** An expense of 60 on that Monday. *)
Definition march : Stored.DB :=
  record empty 1 [ spend "cat-a" (Binary64.ofZ 60) monday ].

(** The date whose stored value is the number of milliseconds of that
    Monday: a day of the year 56162. *)
Definition farAhead : Z := monday * 1000.

(** A ledger with one monthly alert without category, of the given limit,
    and the given expenses, all with the stored date of that Monday. *)
Definition spent (limit : Binary64.double)
    (expenses : list (string * Binary64.double)) : Stored.DB :=
  record
    (Stored.mkDB (categories Sample.db) []
       [ alert "a" None limit "monthly" true 1700000100 ])
    1 (map (fun e => spend (fst e) (snd e) farAhead) expenses).

(** 7 spent of a limit of 25. *)
Definition sevenOf25 : Stored.DB :=
  spent (Binary64.ofZ 25) [ ("cat-a"%string, Binary64.ofZ 7) ].

(** 100 and 50 spent of a limit of 100. *)
Definition overspent : Stored.DB :=
  spent (Binary64.ofZ 100)
    [ ("cat-a"%string, Binary64.ofZ 100);
      ("cat-b"%string, Binary64.ofZ 50) ].

(** A time zone three hours ahead of UTC, and 2 January 1970, 03:00 there.
    January 1970 is the one month whose own transactions the month reports
    select in such a zone: the window opens before the epoch, and the
    seconds stored for a date of that month lie in it. *)
Definition east : Z := 10800000.
Definition january2 : Z := 172800000.

(** The given expenses of ["u1"], all dated 2 January 1970. *)
Definition expensesOf (expenses : list (string * Binary64.double))
    : Stored.DB :=
  record (Stored.mkDB (categories Sample.db) [] []) 1
    (map (fun e => spend (fst e) (snd e) january2) expenses).

(** 23 spent on food and 17 on transport. *)
Definition shares : Stored.DB :=
  expensesOf [ ("cat-a"%string, Binary64.ofZ 23);
               ("cat-b"%string, Binary64.ofZ 17) ].

(** One expense, of amount 0. *)
Definition nothing : Stored.DB :=
  expensesOf [ ("cat-a"%string, Binary64.zero) ].

(** 0.1 spent on food, 0.1 and 1 on transport. *)
Definition tenths : Stored.DB :=
  expensesOf [ ("cat-a"%string, Binary64.decimal 1 1);
               ("cat-b"%string, Binary64.decimal 1 1);
               ("cat-b"%string, Binary64.ofZ 1) ].

(** The two ways of adding of the examples. *)
Definition engines : list (list Binary64.double -> Binary64.double) :=
  [ Binary64.sumSeq; Binary64.sumCompensated ].

(** Three entries that all but cancel. *)
Definition cancelling : Stored.DB :=
  expensesOf [ ("cat-a"%string, Binary64.ofZ (10 ^ 16));
               ("cat-b"%string, Binary64.ofZ 3);
               ("cat-s"%string, Binary64.ofZ (- 10 ^ 16)) ].

(** Whether every row of a ledger names a stored category and has a [date]
    that the ORM reads back as an instant of January 1970 in the zone
    [east]. *)
Definition inJanuary (db : Stored.DB) : bool :=
  forallb
    (fun t =>
       existsb
         (fun c => String.eqb (Stored.Transaction.categoryId t)
                     (Category.id c))
         (Stored.categories db)
       && (JSDate.newDate east 1970 0 1 0 0 0 0
           <=? Drizzle.timestampFromDriver (Stored.Transaction.date t))
       && (Drizzle.timestampFromDriver (Stored.Transaction.date t)
           <=? JSDate.newDate east 1970 1 0 23 59 59 0))
    (Stored.transactions db).

End SampleStored.
(** * Properties *)

(** ** Sums of rationals *)

Lemma fold_left_Qplus (l : list Q) (a : Q) :
  (fold_left Qplus l a == a + sumQ l)%Q.
Proof.
  revert a. induction l as [|x l IH]; intro a; simpl.
  - ring.
  - rewrite IH. ring.
Qed.

Lemma numberOr0_sum (l : list Q) : (numberOr0 (Sql.sum l) == sumQ l)%Q.
Proof.
  destruct l as [|x l]; [reflexivity|].
  unfold Sql.sum, numberOr0. rewrite fold_left_Qplus. ring.
Qed.

(** ** Lists *)

Lemma filter_map_comm {A B : Type} (f : A -> B) (p : B -> bool) (l : list A) :
  filter p (map f l) = map f (filter (fun a => p (f a)) l).
Proof.
  induction l as [|a l IH]; simpl; [reflexivity|].
  destruct (p (f a)); simpl; now rewrite IH.
Qed.

Lemma filter_filter {A : Type} (p q : A -> bool) (l : list A) :
  filter p (filter q l) = filter (fun a => q a && p a) l.
Proof.
  induction l as [|a l IH]; simpl; [reflexivity|].
  destruct (q a); simpl; [destruct (p a)|]; now rewrite IH.
Qed.

Lemma filter_none {A : Type} (p : A -> bool) (l : list A) :
  (forall a, In a l -> p a = false) -> filter p l = [].
Proof.
  induction l as [|a l IH]; intro H; simpl; [reflexivity|].
  rewrite (H a (or_introl eq_refl)). apply IH. intros b Hb. apply H. now right.
Qed.

(** ** Grouped sums *)
Section GroupSumFacts.
Context {K : Type} (eqb : K -> K -> bool).
Hypothesis eqb_eq : forall a b, eqb a b = true <-> a = b.


Let step (groups : list (K * Q)) (r : K * Q) : list (K * Q) :=
  Sql.addTo eqb (fst r) (snd r) groups.









Lemma addTo_keys (k k0 : K) (v : Q) (g : list (K * Q)) :
  In k0 (map fst (Sql.addTo eqb k v g)) <-> k0 = k \/ In k0 (map fst g).
Proof.
  induction g as [|[k' s] g IH]; simpl.
  - intuition.
  - destruct (eqb k' k) eqn:E; simpl.
    + apply eqb_eq in E. subst k'. intuition.
    + rewrite IH. intuition.
Qed.

Lemma fold_addTo_keys (k0 : K) (rows g : list (K * Q)) :
  In k0 (map fst (fold_left step rows g))
  <-> In k0 (map fst g) \/ In k0 (map fst rows).
Proof.
  revert g. induction rows as [|[k v] rows IH]; intro g; simpl.
  - intuition.
  - rewrite IH. unfold step. simpl. rewrite addTo_keys. intuition.
Qed.

(** A key has a group exactly when some row carries it. *)
Lemma groupSum_keys (k0 : K) (rows : list (K * Q)) :
  In k0 (map fst (Sql.groupSum eqb rows)) <-> In k0 (map fst rows).
Proof.
  unfold Sql.groupSum. fold step. rewrite fold_addTo_keys. simpl. intuition.
Qed.

End GroupSumFacts.

(** ** The calendar *)
Section Calendar.
Import JSDate.

Lemma DayFromYear_succ (y : Z) :
  DayFromYear (y + 1) = DayFromYear y + DaysInYear y.
Proof.
  unfold DayFromYear, DaysInYear, isLeapYear.
  destruct (y mod 4 =? 0) eqn:E4; destruct (y mod 100 =? 0) eqn:E100;
    destruct (y mod 400 =? 0) eqn:E400; cbn [andb orb negb];
    rewrite ?Z.eqb_eq, ?Z.eqb_neq in *;
    Z.to_euclidean_division_equations; lia.
Qed.

Lemma DayFromYear_mono (y y' : Z) :
  y <= y' -> DayFromYear y <= DayFromYear y'.
Proof.
  intro H. unfold DayFromYear. Z.to_euclidean_division_equations; lia.
Qed.

(** [YearFromDay d] is the year day [d] falls in. *)
Lemma YearFromDay_spec (d : Z) :
  DayFromYear (YearFromDay d) <= d < DayFromYear (YearFromDay d + 1).
Proof.
  unfold YearFromDay.
  set (y0 := 1970 + 400 * d / 146097).
  destruct (DayFromYear (y0 + 1) <=? d) eqn:E1;
    [|destruct (DayFromYear y0 <=? d) eqn:E0];
    rewrite ?Z.leb_le, ?Z.leb_gt in *.
  - split; [lia|]. subst y0. unfold DayFromYear in *.
    Z.to_euclidean_division_equations; lia.
  - lia.
  - replace (y0 - 1 + 1) with y0 by lia. split; [|lia].
    subst y0. unfold DayFromYear in *.
    Z.to_euclidean_division_equations; lia.
Qed.

Lemma YearFromDay_unique (y d : Z) :
  DayFromYear y <= d < DayFromYear (y + 1) -> YearFromDay d = y.
Proof.
  intro H. pose proof (YearFromDay_spec d) as S.
  destruct (Z.lt_trichotomy (YearFromDay d) y) as [L|[E|G]]; [|exact E|].
  - pose proof (DayFromYear_mono (YearFromDay d + 1) y ltac:(lia)). lia.
  - pose proof (DayFromYear_mono (y + 1) (YearFromDay d) ltac:(lia)). lia.
Qed.

Lemma Day_MakeDate (day time : Z) :
  0 <= time < msPerDay -> Day (MakeDate day time) = day.
Proof.
  intro H. unfold Day, MakeDate, msPerDay in *.
  Z.to_euclidean_division_equations; lia.
Qed.

Lemma TimeWithinDay_MakeDate (day time : Z) :
  0 <= time < msPerDay -> TimeWithinDay (MakeDate day time) = time.
Proof.
  intro H. unfold TimeWithinDay, MakeDate, msPerDay in *.
  Z.to_euclidean_division_equations; lia.
Qed.

Lemma daysBeforeMonth_next (leap : bool) (m : Z) :
  0 <= m <= 11 ->
  daysBeforeMonth leap (m + 1) = daysBeforeMonth leap m + daysInMonth leap m.
Proof.
  intro H.
  assert (m = 0 \/ m = 1 \/ m = 2 \/ m = 3 \/ m = 4 \/ m = 5 \/ m = 6
          \/ m = 7 \/ m = 8 \/ m = 9 \/ m = 10 \/ m = 11) as C by lia.
  repeat (destruct C as [->|C]); try subst m; destruct leap; reflexivity.
Qed.

Lemma daysBeforeMonth_year (y : Z) :
  daysBeforeMonth (isLeapYear y) 12 = DaysInYear y.
Proof. unfold DaysInYear. destruct (isLeapYear y); reflexivity. Qed.

Lemma daysInMonth_pos (leap : bool) (m : Z) : 28 <= daysInMonth leap m <= 31.
Proof.
  unfold daysInMonth.
  destruct m as [|p|p]; try lia.
  destruct leap; repeat (destruct p as [p|p|]; try lia).
Qed.

Lemma month_cases (m : Z) :
  0 <= m <= 11 ->
  m = 0 \/ m = 1 \/ m = 2 \/ m = 3 \/ m = 4 \/ m = 5 \/ m = 6
  \/ m = 7 \/ m = 8 \/ m = 9 \/ m = 10 \/ m = 11.
Proof. lia. Qed.

Ltac month_table :=
  cbv beta iota zeta delta [daysBeforeMonth daysInMonth monthOfDay].

Lemma dayWithinYear_bound (leap : bool) (m date : Z) :
  0 <= m <= 11 ->
  1 <= date <= daysInMonth leap m ->
  0 <= daysBeforeMonth leap m + date - 1 < daysBeforeMonth leap 12.
Proof.
  intros Hm Hd. destruct (month_cases m Hm) as [C|C]; revert Hd;
    repeat (destruct C as [C|C]); subst m; destruct leap; month_table; lia.
Qed.

Lemma monthOfDay_spec (leap : bool) (m date : Z) :
  0 <= m <= 11 ->
  1 <= date <= daysInMonth leap m ->
  monthOfDay leap (daysBeforeMonth leap m + date - 1) = m.
Proof.
  intros Hm Hd. destruct (month_cases m Hm) as [C|C]; revert Hd;
    repeat (destruct C as [C|C]); subst m; destruct leap; month_table;
    intro Hd;
    repeat match goal with
           | |- context [?a <? ?b] => destruct (Z.ltb_spec a b); try lia
           end; reflexivity.
Qed.

(** Day [date] of month [m] of year [y], at [time] into the day, reads
    back as that year, month and date. *)
Lemma calendar_of_day (y m date time : Z) :
  0 <= m <= 11 ->
  1 <= date <= daysInMonth (isLeapYear y) m ->
  0 <= time < msPerDay ->
  let t := MakeDate (MakeDay y m date) time in
  YearFromTime t = y /\ MonthFromTime t = m /\ DateFromTime t = date
  /\ TimeWithinDay t = time.
Proof.
  intros Hm Hd Ht t.
  assert (Day t = DayFromYear y + daysBeforeMonth (isLeapYear y) m + date - 1)
    as HD.
  { subst t. rewrite Day_MakeDate by exact Ht. unfold MakeDay.
    rewrite (Z.div_small m 12), (Z.mod_small m 12) by lia.
    now rewrite Z.add_0_r. }
  pose proof (dayWithinYear_bound _ _ _ Hm Hd) as HB.
  assert (YearFromTime t = y) as HY.
  { unfold YearFromTime. apply YearFromDay_unique. rewrite HD.
    rewrite DayFromYear_succ, <- daysBeforeMonth_year. lia. }
  assert (DayWithinYear t = daysBeforeMonth (isLeapYear y) m + date - 1)
    as HW by (unfold DayWithinYear; rewrite HY, HD; lia).
  assert (MonthFromTime t = m) as HM.
  { unfold MonthFromTime, InLeapYear. rewrite HY, HW.
    now apply monthOfDay_spec. }
  repeat split; try assumption.
  - unfold DateFromTime, InLeapYear. rewrite HM, HY, HW. lia.
  - subst t. now apply TimeWithinDay_MakeDate.
Qed.

(** Day 0 of the month after [m] is the last day of month [m]: the
    constructor call [new Date(year, month, 0, ...)] of the month reports. *)
Lemma MakeDay_zero (y month : Z) :
  1 <= month <= 12 ->
  MakeDay y month 0
  = MakeDay y (month - 1) (daysInMonth (isLeapYear y) (month - 1)).
Proof.
  intro H. unfold MakeDay.
  rewrite (Z.div_small (month - 1) 12), (Z.mod_small (month - 1) 12) by lia.
  replace (y + 0) with y by lia.
  destruct (Z.eq_dec month 12) as [->|N].
  - change (12 / 12) with 1. change (12 mod 12) with 0.
    change (12 - 1) with 11.
    rewrite DayFromYear_succ. unfold DaysInYear.
    destruct (isLeapYear y); destruct (isLeapYear (y + 1));
      cbv beta iota zeta delta [daysBeforeMonth daysInMonth]; lia.
  - rewrite (Z.div_small month 12), (Z.mod_small month 12) by lia.
    replace (y + 0) with y by lia.
    replace month with (month - 1 + 1) at 1 by lia.
    rewrite daysBeforeMonth_next by lia. lia.
Qed.
End Calendar.

(** ** The sample ledger is well formed *)

Lemma sample_keyed : categoriesKeyed Sample.db.
Proof.
  unfold categoriesKeyed. simpl.
  repeat constructor; simpl; intuition discriminate.
Defined.

(** ** Monthly balance *)


(** ** Joins and ordering *)

Lemma in_innerJoin {A B : Type} (on : A -> B -> bool) (l : list A)
    (r : list B) (a : A) (b : B) :
  In (a, b) (Sql.innerJoin on l r) <-> In a l /\ In b r /\ on a b = true.
Proof.
  unfold Sql.innerJoin. rewrite in_flat_map. split.
  - intros [a' [Ha Hin]]. apply in_map_iff in Hin.
    destruct Hin as [b' [E Hb]]. inversion E; subst.
    apply filter_In in Hb. tauto.
  - intros [Ha [Hb Hon]]. exists a. split; [exact Ha|].
    apply in_map_iff. exists b. split; [reflexivity|].
    apply filter_In. tauto.
Qed.

(** When every left row has exactly one partner, the join keeps the left
    rows as they are. *)
Lemma innerJoin_unique {A B : Type} (on : A -> B -> bool) (l : list A)
    (r : list B) :
  (forall a, In a l -> exists b, filter (on a) r = [b]) ->
  map fst (Sql.innerJoin on l r) = l.
Proof.
  unfold Sql.innerJoin. induction l as [|a l IH]; intro H.
  - reflexivity.
  - cbn [flat_map]. rewrite map_app, IH by (intros; apply H; now right).
    destruct (H a (or_introl eq_refl)) as [b ->]. reflexivity.
Qed.

Lemma leftJoin_fst {A B : Type} (on : A -> B -> bool) (l : list A)
    (r : list B) :
  (forall a, In a l -> (List.length (filter (on a) r) <= 1)%nat) ->
  map fst (Sql.leftJoin on l r) = l.
Proof.
  unfold Sql.leftJoin. induction l as [|a l IH]; intro H.
  - reflexivity.
  - cbn [flat_map]. rewrite map_app, IH by (intros; apply H; now right).
    pose proof (H a (or_introl eq_refl)) as Hlen.
    destruct (filter (on a) r) as [|b [|b' bs]]; simpl in *;
      [reflexivity|reflexivity|lia].
Qed.

Lemma keyed_filter (cats : list Category.t) (cid : string) :
  NoDup (map Category.id cats) ->
  (List.length (filter (fun c => String.eqb cid (Category.id c)) cats)
   <= 1)%nat.
Proof.
  induction cats as [|c cats IH]; intro ND; simpl; [lia|].
  inversion ND as [|x xs Hnotin ND']; subst.
  destruct (String.eqb cid (Category.id c)) eqn:E; [|now apply IH].
  apply String.eqb_eq in E. subst cid. simpl.
  rewrite filter_none; [simpl; lia|].
  intros c' Hc'. apply String.eqb_neq. intro Heq. apply Hnotin.
  rewrite Heq. now apply in_map.
Qed.

Lemma keyed_filter_in (cats : list Category.t) (cid : string) :
  NoDup (map Category.id cats) ->
  In cid (map Category.id cats) ->
  exists c, filter (fun c => String.eqb cid (Category.id c)) cats = [c].
Proof.
  intros ND Hin. pose proof (keyed_filter cats cid ND) as Hlen.
  apply in_map_iff in Hin. destruct Hin as [c [E Hc]].
  assert (In c (filter (fun c => String.eqb cid (Category.id c)) cats)) as Hf.
  { apply filter_In. split; [exact Hc|]. apply String.eqb_eq. now symmetry. }
  destruct (filter (fun c => String.eqb cid (Category.id c)) cats)
    as [|c1 [|c2 cs]]; simpl in *; [tauto| |lia].
  now exists c1.
Qed.

Lemma insertDesc_perm {A : Type} (key : A -> option Z) (x : A) (l : list A) :
  Permutation (Sql.insertDesc key x l) (x :: l).
Proof.
  induction l as [|y l IH]; simpl; [apply Permutation_refl|].
  destruct (Sql.leNull (key y) (key x)); [apply Permutation_refl|].
  apply perm_trans with (y :: x :: l); [now apply perm_skip|apply perm_swap].
Qed.

(** [ORDER BY] only rearranges the rows. *)
Lemma orderByDesc_perm {A : Type} (key : A -> option Z) (l : list A) :
  Permutation (Sql.orderByDesc key l) l.
Proof.
  unfold Sql.orderByDesc. induction l as [|x l IH]; simpl.
  - apply Permutation_refl.
  - apply perm_trans with (x :: fold_right (Sql.insertDesc key) [] l).
    + apply insertDesc_perm.
    + now apply perm_skip.
Qed.

Lemma Permutation_filter_compat {A : Type} (p : A -> bool) (l l' : list A) :
  Permutation l l' -> Permutation (filter p l) (filter p l').
Proof.
  induction 1 as [|x l l' H IH|x y l|l l' l'' H1 IH1 H2 IH2]; simpl.
  - apply Permutation_refl.
  - destruct (p x); [now apply perm_skip|exact IH].
  - destruct (p x), (p y); try apply Permutation_refl. apply perm_swap.
  - now apply perm_trans with (filter p l').
Qed.

(** ** Spending alerts *)
Section AlertFacts.
Variable LocalTZA : Z.

Lemma checkLoop_alerts (db : DB) (fg : string) (clock : nat -> Z) (i : nat)
    (l : list SpendingAlertWithCategory.t) :
  map AlertStatus.alert (Storage.checkLoop LocalTZA db fg clock i l) = l.
Proof.
  revert i. induction l as [|a l IH]; intro i; simpl; [reflexivity|].
  now rewrite IH.
Qed.

Lemma in_checkLoop (db : DB) (fg : string) (clock : nat -> Z) (i : nat)
    (l : list SpendingAlertWithCategory.t) (r : AlertStatus.t) :
  In r (Storage.checkLoop LocalTZA db fg clock i l) ->
  exists j a, In a l /\ r = Storage.checkAlert LocalTZA db fg (clock j) a.
Proof.
  revert i. induction l as [|a l IH]; intro i; simpl; [tauto|].
  intros [E|H].
  - exists i, a. split; [now left|now symmetry].
  - destruct (IH _ H) as [j [a' [Ha E]]]. exists j, a'.
    split; [now right|exact E].
Qed.

(** The alerts [getSpendingAlerts] returns are the alerts of the family
    group, each once. *)
Lemma getSpendingAlerts_perm (db : DB) (fg : string) :
  categoriesKeyed db ->
  Permutation
    (map SpendingAlertWithCategory.alert
       (Storage.getSpendingAlerts db fg))
    (filter (fun a => String.eqb (SpendingAlert.familyGroupId a) fg)
       (spendingAlerts db)).
Proof.
  intro ND. unfold Storage.getSpendingAlerts.
  eapply perm_trans; [apply Permutation_map, orderByDesc_perm|].
  rewrite map_map. cbn [SpendingAlertWithCategory.alert].
  rewrite <- (filter_map_comm fst
    (fun a => String.eqb (SpendingAlert.familyGroupId a) fg)).
  rewrite leftJoin_fst; [apply Permutation_refl|].
  intros a _. destruct (SpendingAlert.categoryId a) as [cid|].
  - now apply keyed_filter.
  - rewrite filter_none; [simpl; lia|reflexivity].
Qed.

Lemma in_checkSpendingAlerts (db : DB) (fg : string) (clock : nat -> Z)
    (r : AlertStatus.t) :
  In r (Storage.checkSpendingAlerts LocalTZA db fg clock) ->
  exists j a,
    In a (Storage.getSpendingAlerts db fg)
    /\ SpendingAlert.isActive (SpendingAlertWithCategory.alert a) = true
    /\ r = Storage.checkAlert LocalTZA db fg (clock j) a.
Proof.
  unfold Storage.checkSpendingAlerts. intro H.
  apply in_checkLoop in H. destruct H as [j [a [Ha E]]].
  apply filter_In in Ha. exists j, a. tauto.
Qed.
End AlertFacts.

Lemma Qgtb_true (x y : Q) : Qgtb x y = true <-> (y < x)%Q.
Proof.
  unfold Qgtb. rewrite negb_true_iff. split.
  - intro H. apply Qnot_le_lt. intro L. apply Qle_bool_iff in L. congruence.
  - intro H. destruct (Qle_bool x y) eqn:E; [|reflexivity].
    apply Qle_bool_iff in E. exfalso. now apply (Qlt_not_le y x).
Qed.

(** C4: with [categories] keyed by [id], [checkSpendingAlerts] returns one
    entry for each active alert of the scope and nothing else: the alerts of
    its entries are, up to order, the rows of [spendingAlerts] that belong to
    the scope and have [isActive] set, so no entry belongs to an inactive
    alert. *)
Theorem checkSpendingAlerts_active_only (LocalTZA : Z) (db : DB)
    (scope : string) (clock : nat -> Z) :
  categoriesKeyed db ->
  let alertOf r := SpendingAlertWithCategory.alert (AlertStatus.alert r) in
  Permutation
    (map alertOf (Storage.checkSpendingAlerts LocalTZA db scope clock))
    (filter (fun a => String.eqb (SpendingAlert.familyGroupId a) scope
                      && SpendingAlert.isActive a)
       (spendingAlerts db))
  /\ (forall r, In r (Storage.checkSpendingAlerts LocalTZA db scope clock) ->
      SpendingAlert.isActive (alertOf r) = true
      /\ SpendingAlert.familyGroupId (alertOf r) = scope
      /\ In (alertOf r) (spendingAlerts db)).
Proof.
  intros ND alertOf.
  assert (Permutation
    (map alertOf (Storage.checkSpendingAlerts LocalTZA db scope clock))
    (filter (fun a => String.eqb (SpendingAlert.familyGroupId a) scope
                      && SpendingAlert.isActive a)
       (spendingAlerts db))) as P.
  { unfold Storage.checkSpendingAlerts, alertOf.
    rewrite <- map_map, checkLoop_alerts.
    rewrite <- (filter_map_comm SpendingAlertWithCategory.alert
                  SpendingAlert.isActive).
    rewrite <- filter_filter.
    apply Permutation_filter_compat, getSpendingAlerts_perm, ND. }
  split; [exact P|].
  intros r Hr.
  assert (In (alertOf r)
    (filter (fun a => String.eqb (SpendingAlert.familyGroupId a) scope
                      && SpendingAlert.isActive a)
       (spendingAlerts db))) as Hin.
  { eapply Permutation_in; [exact P|]. now apply in_map. }
  apply filter_In in Hin. destruct Hin as [Hin Hb].
  apply andb_true_iff in Hb. destruct Hb as [Hg Ha].
  apply String.eqb_eq in Hg. tauto.
Qed.

Lemma checkSpendingAlerts_active_only_witness :
  map (fun r => SpendingAlert.id
                  (SpendingAlertWithCategory.alert (AlertStatus.alert r)))
    (Storage.checkSpendingAlerts Sample.tz Sample.db "g1"
       (fun _ => Sample.now))
  = ["a2"; "a1"]%string
  /\ Permutation
       (map (fun r => SpendingAlertWithCategory.alert (AlertStatus.alert r))
          (Storage.checkSpendingAlerts Sample.tz Sample.db "g1"
             (fun _ => Sample.now)))
       (filter (fun a => String.eqb (SpendingAlert.familyGroupId a) "g1"
                         && SpendingAlert.isActive a)
          (spendingAlerts Sample.db)).
Proof.
  split; [reflexivity|].
  exact (proj1 (checkSpendingAlerts_active_only Sample.tz Sample.db "g1"
                  (fun _ => Sample.now) sample_keyed)).
Defined.

Lemma sumWhere_ext (p q : Transaction.t -> bool) (rows : list Transaction.t) :
  (forall t, p t = q t) -> sumWhere p rows = sumWhere q rows.
Proof. intro H. unfold sumWhere. now rewrite (filter_ext p q H). Qed.

Lemma in_leftJoin {A B : Type} (on : A -> B -> bool) (l : list A)
    (r : list B) (a : A) (ob : option B) :
  In (a, ob) (Sql.leftJoin on l r) -> In a l.
Proof.
  unfold Sql.leftJoin. rewrite in_flat_map. intros [a' [Ha Hin]].
  destruct (filter (on a') r) as [|b bs].
  - destruct Hin as [E|[]]. inversion E. now subst.
  - apply in_map_iff in Hin. destruct Hin as [b' [E _]]. inversion E.
    now subst.
Qed.





(** ** Reporting windows *)
Section Windows.
Import JSDate.
Variable LocalTZA : Z.

Lemma newDate_LocalTime (year month date hours minutes seconds ms : Z) :
  year < 0 \/ 99 < year ->
  LocalTime LocalTZA
    (newDate LocalTZA year month date hours minutes seconds ms)
  = MakeDate (MakeDay year month date) (MakeTime hours minutes seconds ms).
Proof.
  intro H. unfold newDate, LocalTime, UTC.
  replace ((0 <=? year) && (year <=? 99)) with false; [lia|].
  symmetry. apply andb_false_iff. rewrite Z.leb_gt, Z.leb_gt. lia.
Qed.

(** The window of the month reports opens with the first millisecond of
    the first day of the month, local time. *)
Lemma month_window_start (year month : Z) :
  year < 0 \/ 99 < year -> 1 <= month <= 12 ->
  let startDate := newDate LocalTZA year (month - 1) 1 0 0 0 0 in
  getFullYear LocalTZA startDate = year
  /\ getMonth LocalTZA startDate = month - 1
  /\ getDate LocalTZA startDate = 1
  /\ TimeWithinDay (LocalTime LocalTZA startDate) = 0.
Proof.
  intros Hy Hm startDate.
  unfold getFullYear, getMonth, getDate. subst startDate.
  rewrite newDate_LocalTime by exact Hy.
  apply (calendar_of_day year (month - 1) 1 (MakeTime 0 0 0 0)).
  - lia.
  - pose proof (daysInMonth_pos (isLeapYear year) (month - 1)). lia.
  - unfold msPerDay. cbn. lia.
Qed.

(** It closes at 23:59:59 of the last day of the month. *)
Lemma month_window_end (year month : Z) :
  year < 0 \/ 99 < year -> 1 <= month <= 12 ->
  let endDate := newDate LocalTZA year month 0 23 59 59 0 in
  getFullYear LocalTZA endDate = year
  /\ getMonth LocalTZA endDate = month - 1
  /\ getDate LocalTZA endDate = daysInMonth (isLeapYear year) (month - 1)
  /\ TimeWithinDay (LocalTime LocalTZA endDate) = MakeTime 23 59 59 0.
Proof.
  intros Hy Hm endDate.
  unfold getFullYear, getMonth, getDate. subst endDate.
  rewrite newDate_LocalTime by exact Hy.
  rewrite MakeDay_zero by exact Hm.
  apply (calendar_of_day year (month - 1)
           (daysInMonth (isLeapYear year) (month - 1))
           (MakeTime 23 59 59 0)).
  - lia.
  - pose proof (daysInMonth_pos (isLeapYear year) (month - 1)). lia.
  - unfold msPerDay. cbn. lia.
Qed.

Lemma month_window_length (year month : Z) :
  year < 0 \/ 99 < year -> 1 <= month <= 12 ->
  newDate LocalTZA year month 0 23 59 59 0
  = newDate LocalTZA year (month - 1) 1 0 0 0 0
    + daysInMonth (isLeapYear year) (month - 1) * msPerDay - 1000.
Proof.
  intros Hy Hm.
  pose proof (newDate_LocalTime year month 0 23 59 59 0 Hy) as E.
  pose proof (newDate_LocalTime year (month - 1) 1 0 0 0 0 Hy) as S.
  rewrite MakeDay_zero in E by exact Hm.
  unfold LocalTime, MakeDate, MakeDay, MakeTime, msPerDay, msPerHour,
    msPerMinute, msPerSecond in *.
  lia.
Qed.

(** The window of a weekly alert opens at midnight, local time, of the
    Sunday that is at most six days before [now]. *)
Lemma weekly_start (now : Z) :
  let startDate :=
    setHours LocalTZA (now - getDay LocalTZA now * 24 * 60 * 60 * 1000)
      0 0 0 0 in
  getDay LocalTZA startDate = 0
  /\ TimeWithinDay (LocalTime LocalTZA startDate) = 0
  /\ startDate <= now < startDate + 7 * msPerDay
  /\ Day (LocalTime LocalTZA startDate)
     = Day (LocalTime LocalTZA now) - getDay LocalTZA now.
Proof.
  intro startDate. subst startDate.
  unfold getDay, WeekDay, setHours, LocalTime, UTC, MakeDate, MakeTime,
    TimeWithinDay, Day, msPerDay, msPerHour, msPerMinute, msPerSecond.
  repeat split; Z.to_euclidean_division_equations; lia.
Qed.
End Windows.

Lemma innerJoin_filter_left {A B : Type} (on : A -> B -> bool)
    (q : A -> bool) (l : list A) (r : list B) :
  Sql.innerJoin on (filter q l) r
  = filter (fun ab => q (fst ab)) (Sql.innerJoin on l r).
Proof.
  unfold Sql.innerJoin. induction l as [|a l IH]; [reflexivity|].
  cbn [flat_map]. rewrite filter_app. cbn [filter].
  destruct (q a) eqn:E; cbn [flat_map]; rewrite IH.
  - f_equal. symmetry. apply forallb_filter_id, forallb_forall.
    intros [a' b] Hin. apply in_map_iff in Hin.
    destruct Hin as [b' [Eq _]]. inversion Eq. now subst.
  - rewrite (filter_none (fun ab => q (fst ab))
               (map (fun b => (a, b)) (filter (on a) r))); [reflexivity|].
    intros [a' b] Hin. apply in_map_iff in Hin.
    destruct Hin as [b' [Eq _]]. inversion Eq. now subst.
Qed.

Lemma pairEqb_eq (a b : string * string) :
  Storage.pairEqb a b = true <-> a = b.
Proof.
  destruct a as [a1 a2], b as [b1 b2]. unfold Storage.pairEqb. cbn [fst snd].
  rewrite andb_true_iff, !String.eqb_eq. split.
  - intros [-> ->]. reflexivity.
  - intro E. inversion E. tauto.
Qed.

Lemma sumWhere_filter (p q : Transaction.t -> bool)
    (rows : list Transaction.t) :
  sumWhere p (filter q rows) = sumWhere (fun t => q t && p t) rows.
Proof. unfold sumWhere. now rewrite filter_filter. Qed.

(** ** Totals per category *)
Section GroupSumEntries.
Context {K : Type} (eqb : K -> K -> bool).
Hypothesis eqb_eq : forall a b, eqb a b = true <-> a = b.

Lemma addTo_NoDup (k : K) (v : Q) (g : list (K * Q)) :
  NoDup (map fst g) -> NoDup (map fst (Sql.addTo eqb k v g)).
Proof.
  induction g as [|[k' s] g IH]; intro ND; simpl.
  - constructor; [intros []|constructor].
  - inversion ND as [|x xs Hnotin ND']; subst.
    destruct (eqb k' k) eqn:E; simpl; [now constructor|].
    constructor; [|now apply IH].
    intro Hin. apply (addTo_keys eqb eqb_eq) in Hin.
    destruct Hin as [->|Hin]; [|contradiction].
    rewrite (proj2 (eqb_eq k k) eq_refl) in E. discriminate.
Qed.

Lemma groupSum_NoDup (rows : list (K * Q)) :
  NoDup (map fst (Sql.groupSum eqb rows)).
Proof.
  unfold Sql.groupSum.
  assert (forall g, NoDup (map fst g) ->
            NoDup (map fst (fold_left
              (fun groups r => Sql.addTo eqb (fst r) (snd r) groups)
              rows g))) as H.
  { induction rows as [|r rows IH]; intros g ND; simpl; [exact ND|].
    apply IH. now apply addTo_NoDup. }
  apply H. constructor.
Qed.


End GroupSumEntries.

Lemma keyed_inj (cats : list Category.t) (c c' : Category.t) :
  NoDup (map Category.id cats) -> In c cats -> In c' cats ->
  Category.id c = Category.id c' -> c = c'.
Proof.
  induction cats as [|x cats IH]; intros ND Hc Hc' E; [destruct Hc|].
  inversion ND as [|y ys Hnotin ND']; subst.
  destruct Hc as [->|Hc], Hc' as [->|Hc'].
  - reflexivity.
  - exfalso. apply Hnotin. rewrite E. now apply in_map.
  - exfalso. apply Hnotin. rewrite <- E. now apply in_map.
  - now apply IH.
Qed.

(** ** Percentages *)

(** [Math.round] moves a number by at most one half. *)
Lemma Math_round_bounds (x : Q) :
  (x - (1 # 2) < inject_Z (Math_round x))%Q
  /\ (inject_Z (Math_round x) <= x + (1 # 2))%Q.
Proof.
  unfold Math_round. split.
  - pose proof (Qlt_floor (x + (1 # 2))) as H.
    rewrite inject_Z_plus in H. change (inject_Z 1) with 1%Q in H. lra.
  - apply Qfloor_le.
Qed.

Lemma sumQ_shares (T : Q) (xs : list Q) :
  ~ (T == 0)%Q ->
  (sumQ (map (fun x => x / T * 100) xs) == sumQ xs / T * 100)%Q.
Proof.
  intro H. induction xs as [|x xs IH]; cbn.
  - field. exact H.
  - fold (sumQ (map (fun x => x / T * 100)%Q xs)). fold (sumQ xs).
    rewrite IH. field. exact H.
Qed.


(** The shares of a positive total add up to 100. *)
Lemma shares_sum (T : Q) (xs : list Q) :
  (0 < T)%Q -> (sumQ xs == T)%Q ->
  (sumQ (map (fun x => x / T * 100) xs) == 100)%Q.
Proof.
  intros H E. rewrite sumQ_shares, E by lra. field. lra.
Qed.

(** ** The scope the analytics filter on *)

(** Whatever the ledger, a caller whose family group is no row's [userId]
    gets an all-zero month report from the route. *)
Lemma analyticsMonthly_zero (LocalTZA : Z) (db : DB) (user : Routes.User)
    (year month : Z) :
  1 <= month <= 12 ->
  (forall t, In t (transactions db) ->
     Transaction.userId t <> Routes.familyGroupId user) ->
  Routes.analyticsMonthly LocalTZA db user (Some year) (Some month)
  = Routes.Json 200 (MonthlyBalance.mk 0 0 0).
Proof.
  intros Hm H. unfold Routes.analyticsMonthly.
  replace ((month <? 1) || (month >? 12)) with false.
  - unfold Storage.getMonthlyBalance. rewrite filter_none; [reflexivity|].
    intros t Ht. unfold Storage.monthlyBalanceWhere.
    rewrite (proj2 (String.eqb_neq _ _) (H t Ht)). reflexivity.
  - symmetry. apply orb_false_iff. rewrite Z.gtb_ltb, !Z.ltb_ge. lia.
Qed.

(** C9 does not hold of the code: the analytics routes hand the caller's
    family group to [getMonthlyBalance] and [getCategoryExpenses], which
    compare it with column [userId].  On the sample ledger the expense
    ["t1"] belongs to family group ["g1"] and lies in March 2024, yet the
    month report of a member of ["g1"] is all zero and lists no category,
    while [checkSpendingAlerts], which compares the family group with
    column [familyGroupId], counts the transaction. *)
Theorem analytics_scope_mismatch :
  let t := Sample.tx "t1" "g1" "u1" "cat-a" "expense" 60 1710158400000 in
  let startDate := JSDate.newDate Sample.tz 2024 (3 - 1) 1 0 0 0 0 in
  let endDate := JSDate.newDate Sample.tz 2024 3 0 23 59 59 0 in
  In t (transactions Sample.db)
  /\ Transaction.familyGroupId t = Routes.familyGroupId Sample.user
  /\ inInterval startDate endDate t = true
  /\ Routes.analyticsMonthly Sample.tz Sample.db Sample.user
       (Some 2024) (Some 3)
     = Routes.Json 200 (MonthlyBalance.mk 0 0 0)
  /\ Routes.analyticsCategories Sample.tz Sample.db Sample.user
       (Some 2024) (Some 3)
     = Routes.Json 200 []
  /\ (exists body,
        Routes.spendingAlertsCheck Sample.tz Sample.db Sample.user
          (fun _ => Sample.now) = Routes.Json 200 body
        /\ map (fun r => (SpendingAlert.id
                            (SpendingAlertWithCategory.alert
                               (AlertStatus.alert r)),
                          AlertStatus.currentSpending r)) body
           = [("a2"%string, 85%Q); ("a1"%string, 60%Q)]).
Proof.
  cbv zeta. split; [left; reflexivity|]. split; [reflexivity|].
  split; [reflexivity|]. split; [reflexivity|]. split; [reflexivity|].
  eexists. split; reflexivity.
Qed.

(** * Further properties *)

(** ** The calendar, read backwards *)
Section CalendarInverse.
Import JSDate.

Lemma monthOfDay_range (leap : bool) (dwy : Z) :
  0 <= dwy < daysBeforeMonth leap 12 ->
  0 <= monthOfDay leap dwy <= 11
  /\ daysBeforeMonth leap (monthOfDay leap dwy) <= dwy
     < daysBeforeMonth leap (monthOfDay leap dwy + 1).
Proof.
  intro H. unfold monthOfDay. revert H.
  destruct leap; cbv beta iota zeta delta [daysBeforeMonth];
    intro H;
    repeat match goal with
           | |- context [?a <? ?b] => destruct (Z.ltb_spec a b)
           end;
    cbv beta iota zeta delta [daysBeforeMonth Z.add Pos.add Pos.succ];
    lia.
Qed.

Lemma isLeapYear_days (y : Z) :
  daysBeforeMonth (isLeapYear y) 12 = DayFromYear (y + 1) - DayFromYear y.
Proof. rewrite DayFromYear_succ, daysBeforeMonth_year. lia. Qed.

(** Year, month and date of an instant give back its day. *)
Lemma calendar_of_time (t : Z) :
  0 <= MonthFromTime t <= 11
  /\ 1 <= DateFromTime t <= daysInMonth (InLeapYear t) (MonthFromTime t)
  /\ MakeDay (YearFromTime t) (MonthFromTime t) (DateFromTime t) = Day t.
Proof.
  pose proof (YearFromDay_spec (Day t)) as HY.
  fold (YearFromTime t) in HY.
  assert (0 <= DayWithinYear t < daysBeforeMonth (InLeapYear t) 12) as HW.
  { unfold DayWithinYear, InLeapYear. rewrite isLeapYear_days. lia. }
  destruct (monthOfDay_range _ _ HW) as [Hm [Hlo Hhi]].
  fold (MonthFromTime t) in Hm, Hlo, Hhi.
  rewrite daysBeforeMonth_next in Hhi by exact Hm.
  split; [exact Hm|]. split.
  - unfold DateFromTime. lia.
  - unfold MakeDay, DateFromTime.
    rewrite (Z.div_small (MonthFromTime t) 12),
      (Z.mod_small (MonthFromTime t) 12) by lia.
    replace (YearFromTime t + 0) with (YearFromTime t) by lia.
    fold (InLeapYear t). unfold DayWithinYear. lia.
Qed.

Lemma MakeDate_Day (t : Z) : MakeDate (Day t) (TimeWithinDay t) = t.
Proof.
  unfold MakeDate, Day, TimeWithinDay, msPerDay.
  Z.to_euclidean_division_equations; lia.
Qed.

Lemma TimeWithinDay_bound (t : Z) : 0 <= TimeWithinDay t < msPerDay.
Proof.
  unfold TimeWithinDay, msPerDay. Z.to_euclidean_division_equations; lia.
Qed.
End CalendarInverse.

(** ** The windows of daily and monthly alerts *)
Section AlertWindows.
Import JSDate.
Variable LocalTZA : Z.

Lemma periodStart_daily_local (now : Z) :
  getFullYear LocalTZA now < 0 \/ 99 < getFullYear LocalTZA now ->
  LocalTime LocalTZA (Storage.periodStart LocalTZA "daily" now)
  = MakeDate (Day (LocalTime LocalTZA now)) 0.
Proof.
  intro Hy. unfold Storage.periodStart.
  rewrite String.eqb_refl.
  rewrite newDate_LocalTime by exact Hy.
  unfold getFullYear, getMonth, getDate.
  destruct (calendar_of_time (LocalTime LocalTZA now)) as [_ [_ ->]].
  reflexivity.
Qed.

Lemma periodStart_monthly_local (period : string) (now : Z) :
  period <> "daily"%string -> period <> "weekly"%string ->
  getFullYear LocalTZA now < 0 \/ 99 < getFullYear LocalTZA now ->
  LocalTime LocalTZA (Storage.periodStart LocalTZA period now)
  = MakeDate
      (MakeDay (getFullYear LocalTZA now) (getMonth LocalTZA now) 1) 0.
Proof.
  intros Hd Hw Hy. unfold Storage.periodStart.
  rewrite (proj2 (String.eqb_neq _ _) Hd), (proj2 (String.eqb_neq _ _) Hw).
  now rewrite newDate_LocalTime by exact Hy.
Qed.
End AlertWindows.

Lemma local_midnight (LocalTZA now s : Z) :
  JSDate.LocalTime LocalTZA s
  = JSDate.MakeDate (JSDate.Day (JSDate.LocalTime LocalTZA now)) 0 ->
  JSDate.getFullYear LocalTZA s = JSDate.getFullYear LocalTZA now
  /\ JSDate.getMonth LocalTZA s = JSDate.getMonth LocalTZA now
  /\ JSDate.getDate LocalTZA s = JSDate.getDate LocalTZA now
  /\ JSDate.TimeWithinDay (JSDate.LocalTime LocalTZA s) = 0
  /\ s <= now < s + JSDate.msPerDay.
Proof.
  intro E.
  assert (0 <= 0 < JSDate.msPerDay) as H0 by (unfold JSDate.msPerDay; lia).
  assert (JSDate.Day (JSDate.LocalTime LocalTZA s)
          = JSDate.Day (JSDate.LocalTime LocalTZA now)) as ED.
  { rewrite E. now apply Day_MakeDate. }
  unfold JSDate.getFullYear, JSDate.getMonth, JSDate.getDate,
    JSDate.DateFromTime, JSDate.MonthFromTime, JSDate.InLeapYear,
    JSDate.DayWithinYear, JSDate.YearFromTime.
  rewrite ED.
  split; [reflexivity|]. split; [reflexivity|]. split; [reflexivity|].
  split.
  - rewrite E. now apply TimeWithinDay_MakeDate.
  - pose proof (MakeDate_Day (JSDate.LocalTime LocalTZA now)) as R.
    pose proof (TimeWithinDay_bound (JSDate.LocalTime LocalTZA now)) as B.
    revert E R B. generalize (JSDate.Day (JSDate.LocalTime LocalTZA now)).
    generalize (JSDate.TimeWithinDay (JSDate.LocalTime LocalTZA now)).
    unfold JSDate.LocalTime, JSDate.MakeDate, JSDate.msPerDay.
    intros; lia.
Qed.

(** X1: for an instant whose local year is not one of 0..99, the window of a
    daily alert opens at 00:00:00.000, local time, of the day of [now]: the
    start has the year, month and date of [now], nothing into the day, and
    lies less than one day before [now]. *)
Theorem daily_window (LocalTZA now : Z) :
  JSDate.getFullYear LocalTZA now < 0 \/ 99 < JSDate.getFullYear LocalTZA now ->
  let startDate := Storage.periodStart LocalTZA "daily" now in
  JSDate.getFullYear LocalTZA startDate = JSDate.getFullYear LocalTZA now
  /\ JSDate.getMonth LocalTZA startDate = JSDate.getMonth LocalTZA now
  /\ JSDate.getDate LocalTZA startDate = JSDate.getDate LocalTZA now
  /\ JSDate.TimeWithinDay (JSDate.LocalTime LocalTZA startDate) = 0
  /\ startDate <= now < startDate + JSDate.msPerDay.
Proof.
  intro Hy. cbv zeta. apply local_midnight.
  now apply periodStart_daily_local.
Qed.

Lemma daily_window_witness :
  Storage.periodStart Sample.tz "daily" Sample.now = 1710298800000
  /\ JSDate.getDate Sample.tz (Storage.periodStart Sample.tz "daily" Sample.now)
     = JSDate.getDate Sample.tz Sample.now
  /\ JSDate.getDate Sample.tz Sample.now = 13.
Proof.
  split; [reflexivity|]. split; [|reflexivity].
  exact (proj1 (proj2 (proj2
           (daily_window Sample.tz Sample.now
              (or_intror (eq_refl : 99 < JSDate.getFullYear Sample.tz Sample.now)))))).
Defined.

Lemma local_month_start (LocalTZA now s : Z) :
  JSDate.LocalTime LocalTZA s
  = JSDate.MakeDate
      (JSDate.MakeDay (JSDate.getFullYear LocalTZA now)
         (JSDate.getMonth LocalTZA now) 1) 0 ->
  JSDate.getFullYear LocalTZA s = JSDate.getFullYear LocalTZA now
  /\ JSDate.getMonth LocalTZA s = JSDate.getMonth LocalTZA now
  /\ JSDate.getDate LocalTZA s = 1
  /\ JSDate.TimeWithinDay (JSDate.LocalTime LocalTZA s) = 0
  /\ s <= now.
Proof.
  intro E.
  destruct (calendar_of_time (JSDate.LocalTime LocalTZA now))
    as [Hm [Hdate HD]].
  fold (JSDate.getMonth LocalTZA now) in Hm, Hdate, HD.
  fold (JSDate.getFullYear LocalTZA now) in HD.
  fold (JSDate.getDate LocalTZA now) in Hdate, HD.
  set (y := JSDate.getFullYear LocalTZA now) in *.
  set (m := JSDate.getMonth LocalTZA now) in *.
  assert (1 <= 1 <= JSDate.daysInMonth (JSDate.isLeapYear y) m) as H1.
  { pose proof (daysInMonth_pos (JSDate.isLeapYear y) m). lia. }
  assert (0 <= 0 < JSDate.msPerDay) as H0 by (unfold JSDate.msPerDay; lia).
  destruct (calendar_of_day y m 1 0 Hm H1 H0) as [CY [CM [CD CT]]].
  rewrite <- E in CY, CM, CD, CT.
  split; [exact CY|]. split; [exact CM|]. split; [exact CD|].
  split; [exact CT|].
  pose proof (MakeDate_Day (JSDate.LocalTime LocalTZA now)) as R.
  pose proof (TimeWithinDay_bound (JSDate.LocalTime LocalTZA now)) as B.
  rewrite <- HD in R.
  assert (JSDate.MakeDay y m (JSDate.getDate LocalTZA now)
          = JSDate.MakeDay y m 1 + (JSDate.getDate LocalTZA now - 1)) as EM
    by (unfold JSDate.MakeDay; lia).
  rewrite EM in R. clear EM HD CY CM CD CT.
  revert E R B Hdate. generalize (JSDate.MakeDay y m 1).
  generalize (JSDate.TimeWithinDay (JSDate.LocalTime LocalTZA now)).
  generalize (JSDate.getDate LocalTZA now).
  unfold JSDate.LocalTime, JSDate.MakeDate, JSDate.msPerDay.
  intros; nia.
Qed.

(** X2: for an instant whose local year is not one of 0..99, the window of a
    monthly alert, and of an alert whose period is any text other than
    "daily" and "weekly", opens at 00:00:00.000, local time, of day 1 of the
    month of [now], which is not after [now]. *)
Theorem monthly_window (LocalTZA now : Z) (period : string) :
  period <> "daily"%string -> period <> "weekly"%string ->
  JSDate.getFullYear LocalTZA now < 0 \/ 99 < JSDate.getFullYear LocalTZA now ->
  let startDate := Storage.periodStart LocalTZA period now in
  startDate = Storage.periodStart LocalTZA "monthly" now
  /\ JSDate.getFullYear LocalTZA startDate = JSDate.getFullYear LocalTZA now
  /\ JSDate.getMonth LocalTZA startDate = JSDate.getMonth LocalTZA now
  /\ JSDate.getDate LocalTZA startDate = 1
  /\ JSDate.TimeWithinDay (JSDate.LocalTime LocalTZA startDate) = 0
  /\ startDate <= now.
Proof.
  intros Hd Hw Hy. cbv zeta. split.
  - unfold Storage.periodStart.
    rewrite (proj2 (String.eqb_neq _ _) Hd), (proj2 (String.eqb_neq _ _) Hw).
    rewrite (proj2 (String.eqb_neq "monthly" "daily") ltac:(discriminate)).
    rewrite (proj2 (String.eqb_neq "monthly" "weekly") ltac:(discriminate)).
    reflexivity.
  - apply local_month_start. now apply periodStart_monthly_local.
Qed.

Lemma monthly_window_witness :
  Storage.periodStart Sample.tz "yearly" Sample.now = 1709262000000
  /\ JSDate.getDate Sample.tz
       (Storage.periodStart Sample.tz "yearly" Sample.now) = 1.
Proof.
  split; [reflexivity|].
  exact (proj1 (proj2 (proj2 (proj2
           (monthly_window Sample.tz Sample.now "yearly"
              ltac:(discriminate) ltac:(discriminate)
              (or_intror (eq_refl : 99 < JSDate.getFullYear Sample.tz Sample.now))))))).
Defined.

(** ** The month window against the calendar month *)

Lemma in_month_iff (LocalTZA year month t : Z) :
  year < 0 \/ 99 < year -> 1 <= month <= 12 ->
  let startDate := JSDate.newDate LocalTZA year (month - 1) 1 0 0 0 0 in
  let endDate := JSDate.newDate LocalTZA year month 0 23 59 59 0 in
  (JSDate.getFullYear LocalTZA t = year
   /\ JSDate.getMonth LocalTZA t = month - 1)
  <-> startDate <= t < endDate + 1000.
Proof.
  intros Hy Hm startDate endDate.
  assert (endDate = startDate
            + JSDate.daysInMonth (JSDate.isLeapYear year) (month - 1)
              * JSDate.msPerDay - 1000) as EL
    by (apply month_window_length; assumption).
  pose proof (newDate_LocalTime LocalTZA year (month - 1) 1 0 0 0 0 Hy) as ES.
  fold startDate in ES. clearbody startDate endDate. subst endDate.
  set (L := JSDate.LocalTime LocalTZA t).
  set (dim := JSDate.daysInMonth (JSDate.isLeapYear year) (month - 1)) in *.
  set (d1 := JSDate.MakeDay year (month - 1) 1) in *.
  pose proof (daysInMonth_pos (JSDate.isLeapYear year) (month - 1)) as Hdim.
  fold dim in Hdim.
  pose proof (MakeDate_Day L) as R.
  pose proof (TimeWithinDay_bound L) as B.
  assert (forall date, JSDate.MakeDay year (month - 1) date = d1 + (date - 1))
    as EM by (intro; unfold d1, JSDate.MakeDay; lia).
  assert (startDate = d1 * JSDate.msPerDay - LocalTZA) as ES'.
  { revert ES. unfold JSDate.LocalTime, JSDate.MakeDate, JSDate.MakeTime.
    lia. }
  assert (d1 <= JSDate.Day L < d1 + dim
          <-> startDate <= t
              < startDate + dim * JSDate.msPerDay - 1000 + 1000) as RNG.
  { assert (JSDate.Day L * JSDate.msPerDay + JSDate.TimeWithinDay L
            = t + LocalTZA) as R' by exact R.
    clear R. subst startDate. revert R' B.
    generalize (JSDate.Day L). generalize (JSDate.TimeWithinDay L).
    unfold JSDate.msPerDay. intros; lia. }
  rewrite <- RNG. unfold JSDate.getFullYear, JSDate.getMonth. fold L.
  split.
  - intros [EY EMo].
    destruct (calendar_of_time L) as [_ [Hdate HD]].
    unfold JSDate.InLeapYear in Hdate. rewrite EY, EMo in Hdate, HD.
    fold dim in Hdate. rewrite EM in HD. lia.
  - intro Hr.
    assert (1 <= JSDate.Day L - d1 + 1 <= dim) as Hdate by lia.
    destruct (calendar_of_day year (month - 1) (JSDate.Day L - d1 + 1)
                (JSDate.TimeWithinDay L) ltac:(lia) Hdate B)
      as [CY [CM _]].
    rewrite EM in CY, CM.
    replace (d1 + (JSDate.Day L - d1 + 1 - 1)) with (JSDate.Day L)
      in CY, CM by lia.
    rewrite R in CY, CM. tauto.
Qed.

(** X3: for years from 1900 on, the instants of a calendar month, local
    time, are those from the month's [startDate] to 999 milliseconds after
    its [endDate]; a transaction dated in those last 999 milliseconds
    belongs to the month and lies outside the window of every month report. *)
Theorem month_window_gap (LocalTZA year month : Z) :
  1900 <= year -> 1 <= month <= 12 ->
  let startDate := JSDate.newDate LocalTZA year (month - 1) 1 0 0 0 0 in
  let endDate := JSDate.newDate LocalTZA year month 0 23 59 59 0 in
  (forall t,
     (JSDate.getFullYear LocalTZA t = year
      /\ JSDate.getMonth LocalTZA t = month - 1)
     <-> startDate <= t <= endDate + 999)
  /\ (forall (t : Transaction.t) (year' month' : Z),
        endDate < Transaction.date t <= endDate + 999 ->
        1900 <= year' -> 1 <= month' <= 12 ->
        inInterval (JSDate.newDate LocalTZA year' (month' - 1) 1 0 0 0 0)
          (JSDate.newDate LocalTZA year' month' 0 23 59 59 0) t
        = false).
Proof.
  intros Hy Hm startDate endDate.
  assert (forall t,
     (JSDate.getFullYear LocalTZA t = year
      /\ JSDate.getMonth LocalTZA t = month - 1)
     <-> startDate <= t <= endDate + 999) as A.
  { intro t.
    rewrite (in_month_iff LocalTZA year month t ltac:(lia) Hm).
    fold startDate. fold endDate. lia. }
  split; [exact A|].
  intros t year' month' Hgap Hy' Hm'.
  destruct (inInterval _ _ t) eqn:E; [|reflexivity]. exfalso.
  unfold inInterval in E. apply andb_true_iff in E.
  rewrite !Z.leb_le in E.
  assert (JSDate.getFullYear LocalTZA (Transaction.date t) = year'
          /\ JSDate.getMonth LocalTZA (Transaction.date t) = month' - 1)
    as [EY' EM'].
  { apply (in_month_iff LocalTZA year' month' _ ltac:(lia) Hm'). lia. }
  assert (JSDate.getFullYear LocalTZA (Transaction.date t) = year
          /\ JSDate.getMonth LocalTZA (Transaction.date t) = month - 1)
    as [EY EM].
  { apply A.
    pose proof (month_window_length LocalTZA year month ltac:(lia) Hm) as EL.
    fold startDate in EL. fold endDate in EL.
    pose proof (daysInMonth_pos (JSDate.isLeapYear year) (month - 1)).
    unfold JSDate.msPerDay in EL. lia. }
  assert (year' = year) as Ey by congruence.
  assert (month' = month) as Em by lia.
  rewrite Ey, Em in E. unfold endDate in Hgap. lia.
Qed.

Lemma month_window_gap_witness :
  JSDate.getMonth Sample.tz 1711940399500 = 3 - 1
  /\ inInterval (JSDate.newDate Sample.tz 2024 (3 - 1) 1 0 0 0 0)
       (JSDate.newDate Sample.tz 2024 3 0 23 59 59 0)
       (Sample.tx "t7" "g1" "u1" "cat-a" "expense" 10 1711940399500)
     = false
  /\ inInterval (JSDate.newDate Sample.tz 2024 (4 - 1) 1 0 0 0 0)
       (JSDate.newDate Sample.tz 2024 4 0 23 59 59 0)
       (Sample.tx "t7" "g1" "u1" "cat-a" "expense" 10 1711940399500)
     = false.
Proof.
  destruct (month_window_gap Sample.tz 2024 3 ltac:(lia) ltac:(lia))
    as [A G].
  split; [exact (proj2 (proj2 (A 1711940399500)
                   ltac:(vm_compute; split; discriminate)))|].
  split.
  - apply (G _ 2024 3); [vm_compute; split; [reflexivity|discriminate]
                        |lia|lia].
  - apply (G _ 2024 4); [vm_compute; split; [reflexivity|discriminate]
                        |lia|lia].
Defined.

(** ** Sums of rationals under rearrangement *)

Lemma sumQ_perm (l l' : list Q) :
  Permutation l l' -> (sumQ l == sumQ l')%Q.
Proof.
  unfold sumQ.
  induction 1 as [|x l l' H IH|x y l|l l' l'' H1 IH1 H2 IH2];
    cbn [fold_right].
  - reflexivity.
  - now rewrite IH.
  - ring.
  - now rewrite IH1.
Qed.

Lemma sumQ_app (l1 l2 : list Q) : (sumQ (l1 ++ l2) == sumQ l1 + sumQ l2)%Q.
Proof.
  unfold sumQ. induction l1 as [|x l1 IH]; cbn [fold_right app].
  - ring.
  - rewrite IH. ring.
Qed.

(** ** Ranges *)

Lemma sumQ_nonneg (l : list Q) :
  (forall x, In x l -> (0 <= x)%Q) -> (0 <= sumQ l)%Q.
Proof.
  unfold sumQ. induction l as [|x l IH]; intro H; cbn [fold_right].
  - lra.
  - pose proof (H x (or_introl eq_refl)).
    pose proof (IH (fun y Hy => H y (or_intror Hy))). lra.
Qed.

Lemma sumQ_filter_le {A : Type} (f : A -> Q) (p : A -> bool) (l : list A) :
  (forall x, In x l -> (0 <= f x)%Q) ->
  (sumQ (map f (filter p l)) <= sumQ (map f l))%Q.
Proof.
  unfold sumQ. induction l as [|x l IH]; intro H; cbn [filter map fold_right].
  - lra.
  - pose proof (H x (or_introl eq_refl)).
    pose proof (IH (fun y Hy => H y (or_intror Hy))).
    destruct (p x); cbn [map fold_right]; lra.
Qed.

Lemma sumWhere_nonneg (p : Transaction.t -> bool) (l : list Transaction.t) :
  (forall t, In t l -> (0 <= Transaction.amount t)%Q) ->
  (0 <= sumWhere p l)%Q.
Proof.
  intro H. unfold sumWhere. apply sumQ_nonneg. intros x Hx.
  apply in_map_iff in Hx. destruct Hx as [t [<- Ht]].
  apply filter_In in Ht. now apply H.
Qed.

Lemma Math_round_le (x y : Q) :
  (x <= y)%Q -> Math_round x <= Math_round y.
Proof.
  intro H. unfold Math_round. apply Qfloor_resp_le. lra.
Qed.



(** The amounts that enter the grouped query of [getCategoryExpenses] are
    amounts of stored transactions. *)
Lemma categoryExpenses_values (db : DB) (scope : string)
    (startDate endDate : Z) (kv : (string * string) * Q) :
  In kv
    (map (fun tc => ((Category.id (snd tc), Category.name (snd tc)),
                     Transaction.amount (fst tc)))
       (filter (fun tc =>
                  Storage.categoryExpensesWhere scope startDate endDate
                    (fst tc))
          (Storage.transactionsWithCategory db))) ->
  exists t c, In t (transactions db) /\ In c (categories db)
              /\ Transaction.categoryId t = Category.id c
              /\ kv = ((Category.id c, Category.name c), Transaction.amount t).
Proof.
  intro H. apply in_map_iff in H. destruct H as [[t c] [<- H]].
  apply filter_In in H. destruct H as [H _].
  apply in_innerJoin in H. destruct H as [Ht [Hc E]].
  apply String.eqb_eq in E. exists t, c. cbn [fst snd]. tauto.
Qed.



(** X9: within one result of [getCategoryExpenses], a category with a larger
    total never has a smaller percentage. *)
Theorem getCategoryExpenses_monotone (LocalTZA : Z) (db : DB)
    (scope : string) (year month : Z) (e1 e2 : CategoryExpense.t) :
  In e1 (Storage.getCategoryExpenses LocalTZA db scope year month) ->
  In e2 (Storage.getCategoryExpenses LocalTZA db scope year month) ->
  (CategoryExpense.total e1 <= CategoryExpense.total e2)%Q ->
  CategoryExpense.percentage e1 <= CategoryExpense.percentage e2.
Proof.
  unfold Storage.getCategoryExpenses. cbv zeta.
  set (rows := Storage.categoryExpensesRows LocalTZA db scope year month).
  set (T := fold_left _ rows 0%Q).
  intros H1 H2 L.
  apply in_map_iff in H1. destruct H1 as [[k1 s1] [<- _]].
  apply in_map_iff in H2. destruct H2 as [[k2 s2] [<- _]].
  cbn [CategoryExpense.total CategoryExpense.percentage fst snd] in *.
  destruct (Qgtb T 0) eqn:G; [|lia].
  apply Qgtb_true in G. apply Math_round_le.
  apply Qmult_le_compat_r; [|lra].
  unfold Qdiv. apply Qmult_le_compat_r; [exact L|].
  apply Qlt_le_weak, Qinv_lt_0_compat, G.
Qed.

Lemma getCategoryExpenses_monotone_witness :
  Storage.getCategoryExpenses Sample.tz Sample.db "u1" 2024 3
  = [ CategoryExpense.mk "cat-a" "Food" 85 68;
      CategoryExpense.mk "cat-b" "Transport" 40 32 ]
  /\ 32 <= 68.
Proof.
  split; [reflexivity|].
  refine (getCategoryExpenses_monotone Sample.tz Sample.db "u1" 2024 3
            (CategoryExpense.mk "cat-b" "Transport" 40 32)
            (CategoryExpense.mk "cat-a" "Food" 85 68)
            (or_intror (or_introl eq_refl)) (or_introl eq_refl) _).
  cbn. lra.
Defined.

(** A list without duplicates keeps none under a function that is
    one-to-one on its elements. *)
Lemma NoDup_map_on {K K' : Type} (g : K -> K') (keys : list K) :
  NoDup keys ->
  (forall k k', In k keys -> In k' keys -> g k = g k' -> k = k') ->
  NoDup (map g keys).
Proof.
  induction 1 as [|k keys Hnotin ND IH]; intro Hinj; cbn [map];
    [constructor|].
  apply NoDup_cons.
  - intro Hin. apply in_map_iff in Hin. destruct Hin as [k' [E Hk']].
    assert (k' = k) as -> by (apply Hinj; [now right|now left|exact E]).
    contradiction.
  - apply IH. intros a b Ha Hb. apply Hinj; now right.
Qed.

(** X10: with [categories] keyed by [id], [getCategoryExpenses] lists every
    category at most once. *)
Theorem getCategoryExpenses_distinct (LocalTZA : Z) (db : DB)
    (scope : string) (year month : Z) :
  categoriesKeyed db ->
  NoDup (map CategoryExpense.categoryId
           (Storage.getCategoryExpenses LocalTZA db scope year month)).
Proof.
  intro ND. unfold Storage.getCategoryExpenses. cbv zeta. rewrite map_map.
  cbn [CategoryExpense.categoryId].
  unfold Storage.categoryExpensesRows. cbv zeta.
  set (kv := map _ (filter _ (Storage.transactionsWithCategory db))).
  rewrite <- (map_map fst fst).
  apply NoDup_map_on;
    [apply (groupSum_NoDup Storage.pairEqb pairEqb_eq)|].
  intros k k' Hk Hk' E.
  apply (proj1 (groupSum_keys Storage.pairEqb pairEqb_eq _ _)) in Hk, Hk'.
  apply in_map_iff in Hk. destruct Hk as [x [<- Hx]].
  apply in_map_iff in Hk'. destruct Hk' as [x' [<- Hx']].
  apply categoryExpenses_values in Hx, Hx'.
  destruct Hx as [t [c [_ [Hc [_ ->]]]]].
  destruct Hx' as [t' [c' [_ [Hc' [_ ->]]]]].
  cbn [fst] in *.
  now rewrite (keyed_inj (categories db) c c' ND Hc Hc' E).
Qed.

Lemma getCategoryExpenses_distinct_witness :
  NoDup (map CategoryExpense.categoryId
           (Storage.getCategoryExpenses Sample.tz Sample.db "u1" 2024 3)).
Proof.
  apply getCategoryExpenses_distinct.
  unfold categoriesKeyed. cbn.
  repeat constructor; cbn; intuition discriminate.
Defined.

(** ** Order of the listings *)

Lemma leNull_total (a b : option Z) :
  Sql.leNull a b = false -> Sql.leNull b a = true.
Proof.
  destruct a as [x|], b as [y|]; cbn; try congruence.
  rewrite Z.leb_gt, Z.leb_le. lia.
Qed.

Lemma leNull_trans (a b c : option Z) :
  Sql.leNull a b = true -> Sql.leNull b c = true -> Sql.leNull a c = true.
Proof.
  destruct a as [x|], b as [y|], c as [z|]; cbn; try congruence.
  rewrite !Z.leb_le. lia.
Qed.

Lemma StronglySorted_weaken {A : Type} (P Q : A -> A -> Prop) (l : list A) :
  (forall a b, P a b -> Q a b) -> StronglySorted P l -> StronglySorted Q l.
Proof.
  intros H. induction 1 as [|a l S IH F]; constructor.
  - exact IH.
  - revert F. apply Forall_impl. intro b. apply H.
Qed.

Lemma StronglySorted_filter {A : Type} (P : A -> A -> Prop) (p : A -> bool)
    (l : list A) :
  StronglySorted P l -> StronglySorted P (filter p l).
Proof.
  induction 1 as [|a l S IH F]; cbn [filter]; [constructor|].
  destruct (p a); [|exact IH]. constructor; [exact IH|].
  rewrite Forall_forall in *. intros x Hx. apply filter_In in Hx.
  now apply F.
Qed.

Lemma StronglySorted_map {A B : Type} (f : A -> B) (P : B -> B -> Prop)
    (l : list A) :
  StronglySorted (fun a b => P (f a) (f b)) l -> StronglySorted P (map f l).
Proof.
  induction 1 as [|a l S IH F]; cbn [map]; constructor.
  - exact IH.
  - rewrite Forall_forall in *. intros y Hy. apply in_map_iff in Hy.
    destruct Hy as [x [<- Hx]]. now apply F.
Qed.

Section OrderFacts.
Context {A : Type} (key : A -> option Z).

Lemma insertDesc_sorted (x : A) (l : list A) :
  StronglySorted (descending key) l ->
  StronglySorted (descending key) (Sql.insertDesc key x l).
Proof.
  induction 1 as [|y l S IH F]; cbn [Sql.insertDesc].
  - repeat constructor.
  - destruct (Sql.leNull (key y) (key x)) eqn:E.
    + constructor; [now constructor|]. constructor; [exact E|].
      revert F. apply Forall_impl. intros z Hz. unfold descending in *.
      now apply leNull_trans with (key y).
    + constructor; [exact IH|].
      rewrite Forall_forall in *. intros z Hz.
      apply (Permutation_in _ (insertDesc_perm key x l)) in Hz.
      destruct Hz as [<-|Hz]; [|now apply F].
      now apply leNull_total.
Qed.

Lemma orderByDesc_sorted (l : list A) :
  StronglySorted (descending key) (Sql.orderByDesc key l).
Proof.
  unfold Sql.orderByDesc. induction l as [|x l IH]; cbn [fold_right].
  - constructor.
  - now apply insertDesc_sorted.
Qed.

Lemma insertAsc_perm (x : A) (l : list A) :
  Permutation (SqlOrder.insertAsc key x l) (x :: l).
Proof.
  induction l as [|y l IH]; cbn [SqlOrder.insertAsc];
    [apply Permutation_refl|].
  destruct (Sql.leNull (key x) (key y)); [apply Permutation_refl|].
  apply perm_trans with (y :: x :: l); [now apply perm_skip|apply perm_swap].
Qed.

Lemma orderByAsc_perm (l : list A) :
  Permutation (SqlOrder.orderByAsc key l) l.
Proof.
  unfold SqlOrder.orderByAsc. induction l as [|x l IH]; cbn [fold_right].
  - apply Permutation_refl.
  - apply perm_trans with (x :: fold_right (SqlOrder.insertAsc key) [] l).
    + apply insertAsc_perm.
    + now apply perm_skip.
Qed.

Lemma insertAsc_sorted (x : A) (l : list A) :
  StronglySorted (ascending key) l ->
  StronglySorted (ascending key) (SqlOrder.insertAsc key x l).
Proof.
  induction 1 as [|y l S IH F]; cbn [SqlOrder.insertAsc].
  - repeat constructor.
  - destruct (Sql.leNull (key x) (key y)) eqn:E.
    + constructor; [now constructor|]. constructor; [exact E|].
      revert F. apply Forall_impl. intros z Hz. unfold ascending in *.
      now apply leNull_trans with (key y).
    + constructor; [exact IH|].
      rewrite Forall_forall in *. intros z Hz.
      apply (Permutation_in _ (insertAsc_perm x l)) in Hz.
      destruct Hz as [<-|Hz]; [|now apply F].
      now apply leNull_total.
Qed.

Lemma orderByAsc_sorted (l : list A) :
  StronglySorted (ascending key) (SqlOrder.orderByAsc key l).
Proof.
  unfold SqlOrder.orderByAsc. induction l as [|x l IH]; cbn [fold_right].
  - constructor.
  - now apply insertAsc_sorted.
Qed.
End OrderFacts.

(** A row of a left join carries a right row that matches, or none when no
    right row matches. *)
Lemma leftJoin_match {A B : Type} (on : A -> B -> bool) (l : list A)
    (r : list B) (a : A) (ob : option B) :
  In (a, ob) (Sql.leftJoin on l r) ->
  match ob with
  | Some b => In b r /\ on a b = true
  | None => forall b, In b r -> on a b = false
  end.
Proof.
  unfold Sql.leftJoin. rewrite in_flat_map. intros [a' [Ha Hin]].
  destruct (filter (on a') r) as [|b bs] eqn:F.
  - destruct Hin as [E|[]]. inversion E; subst.
    intros b Hb. destruct (on a b) eqn:O; [|reflexivity].
    assert (In b (filter (on a) r)) as Hf by (apply filter_In; tauto).
    rewrite F in Hf. destruct Hf.
  - apply in_map_iff in Hin. destruct Hin as [b' [E Hb']].
    inversion E; subst. rewrite <- F in Hb'. apply filter_In in Hb'. exact Hb'.
Qed.

(** X11: [getSpendingAlerts] lists alerts of the group only, later
    [createdAt] first (among the alerts that have one), and each with its
    own category: the category attached is a stored category whose [id] is
    the alert's [categoryId], and none is attached only when no stored
    category has that [id]. *)
Theorem getSpendingAlerts_listing (db : DB) (familyGroupId : string) :
  let alerts := Storage.getSpendingAlerts db familyGroupId in
  StronglySorted
    (fun a b =>
       forall x y,
         SpendingAlert.createdAt (SpendingAlertWithCategory.alert a) = Some x ->
         SpendingAlert.createdAt (SpendingAlertWithCategory.alert b) = Some y ->
         y <= x)
    alerts
  /\ forall a, In a alerts ->
       In (SpendingAlertWithCategory.alert a) (spendingAlerts db)
       /\ SpendingAlert.familyGroupId (SpendingAlertWithCategory.alert a)
          = familyGroupId
       /\ match SpendingAlertWithCategory.category a with
          | Some c =>
              In c (categories db)
              /\ SpendingAlert.categoryId (SpendingAlertWithCategory.alert a)
                 = Some (Category.id c)
          | None =>
              forall c, In c (categories db) ->
                SpendingAlert.categoryId (SpendingAlertWithCategory.alert a)
                <> Some (Category.id c)
          end.
Proof.
  intro alerts. split.
  - unfold alerts, Storage.getSpendingAlerts.
    eapply StronglySorted_weaken; [|apply orderByDesc_sorted].
    intros a b H x y Ea Eb. unfold descending in H. cbv beta in H.
    rewrite Ea, Eb in H. cbn in H. now apply Z.leb_le.
  - intros a Hin. unfold alerts, Storage.getSpendingAlerts in Hin.
    apply (Permutation_in _ (orderByDesc_perm _ _)) in Hin.
    apply in_map_iff in Hin. destruct Hin as [[sa oc] [<- Hin]].
    apply filter_In in Hin. destruct Hin as [Hin Hfg].
    cbn [fst snd SpendingAlertWithCategory.alert
         SpendingAlertWithCategory.category] in *.
    apply String.eqb_eq in Hfg.
    split; [exact (in_leftJoin _ _ _ _ _ Hin)|]. split; [exact Hfg|].
    apply leftJoin_match in Hin. destruct oc as [c|].
    + destruct Hin as [Hc Hon]. split; [exact Hc|].
      destruct (SpendingAlert.categoryId sa) as [cid|]; [|discriminate].
      apply String.eqb_eq in Hon. now subst.
    + intros c Hc E. specialize (Hin c Hc). rewrite E in Hin.
      now rewrite String.eqb_refl in Hin.
Qed.

(** X12: [checkSpendingAlerts] reports on the active alerts in the order of
    [getSpendingAlerts]: later [createdAt] first. *)
Theorem checkSpendingAlerts_order (LocalTZA : Z) (db : DB)
    (familyGroupId : string) (clock : nat -> Z) :
  map AlertStatus.alert
    (Storage.checkSpendingAlerts LocalTZA db familyGroupId clock)
  = filter (fun a =>
              SpendingAlert.isActive (SpendingAlertWithCategory.alert a))
      (Storage.getSpendingAlerts db familyGroupId)
  /\ StronglySorted
       (fun r s =>
          forall x y,
            SpendingAlert.createdAt
              (SpendingAlertWithCategory.alert (AlertStatus.alert r))
            = Some x ->
            SpendingAlert.createdAt
              (SpendingAlertWithCategory.alert (AlertStatus.alert s))
            = Some y ->
            y <= x)
       (Storage.checkSpendingAlerts LocalTZA db familyGroupId clock).
Proof.
  assert (map AlertStatus.alert
            (Storage.checkSpendingAlerts LocalTZA db familyGroupId clock)
          = filter (fun a =>
                      SpendingAlert.isActive
                        (SpendingAlertWithCategory.alert a))
              (Storage.getSpendingAlerts db familyGroupId)) as E
    by (unfold Storage.checkSpendingAlerts; apply checkLoop_alerts).
  split; [exact E|].
  set (R := fun a b : SpendingAlertWithCategory.t =>
              forall x y,
                SpendingAlert.createdAt (SpendingAlertWithCategory.alert a)
                = Some x ->
                SpendingAlert.createdAt (SpendingAlertWithCategory.alert b)
                = Some y ->
                y <= x).
  assert (StronglySorted R
            (map AlertStatus.alert
               (Storage.checkSpendingAlerts LocalTZA db familyGroupId clock)))
    as S.
  { rewrite E. apply StronglySorted_filter.
    unfold Storage.getSpendingAlerts.
    eapply StronglySorted_weaken; [|apply orderByDesc_sorted].
    intros a b H x y Ea Eb. unfold descending in H. cbv beta in H.
    rewrite Ea, Eb in H. cbn in H. now apply Z.leb_le. }
  clear E. revert S.
  generalize (Storage.checkSpendingAlerts LocalTZA db familyGroupId clock).
  induction l as [|r l IH]; intro S; [constructor|].
  cbn [map] in S. apply StronglySorted_inv in S. destruct S as [S F].
  constructor; [now apply IH|].
  rewrite Forall_forall in *. intros s Hs. apply (F (AlertStatus.alert s)).
  now apply in_map.
Qed.

(** X13: [getTransactions] lists exactly the transactions of the group that
    have a stored category, each with that category, latest [date] first.  A
    transaction whose [categoryId] names no stored category is left out. *)
Theorem getTransactions_listing (db : DB) (familyGroupId : string) :
  let rows := Queries.getTransactions db familyGroupId in
  StronglySorted
    (fun r s =>
       Transaction.date (TransactionWithCategory.transaction s)
       <= Transaction.date (TransactionWithCategory.transaction r))
    rows
  /\ (forall t c,
        In (TransactionWithCategory.mk t c) rows
        <-> In t (transactions db) /\ In c (categories db)
            /\ Transaction.familyGroupId t = familyGroupId
            /\ Transaction.categoryId t = Category.id c)
  /\ (forall t,
        In t (transactions db) ->
        ~ In (Transaction.categoryId t) (map Category.id (categories db)) ->
        ~ In t (map TransactionWithCategory.transaction rows)).
Proof.
  intro rows.
  assert (forall t c,
            In (TransactionWithCategory.mk t c) rows
            <-> In t (transactions db) /\ In c (categories db)
                /\ Transaction.familyGroupId t = familyGroupId
                /\ Transaction.categoryId t = Category.id c) as M.
  { intros t c. unfold rows, Queries.getTransactions. split.
    - intro H. apply (Permutation_in _ (orderByDesc_perm _ _)) in H.
      apply in_map_iff in H. destruct H as [[t' c'] [E H]].
      cbn [fst snd] in E. inversion E; subst t' c'.
      apply filter_In in H. destruct H as [H Hfg]. cbn [fst] in Hfg.
      apply in_innerJoin in H. destruct H as [Ht [Hc Hon]].
      apply String.eqb_eq in Hfg, Hon. tauto.
    - intros [Ht [Hc [Hfg Hon]]].
      apply (Permutation_in _ (Permutation_sym (orderByDesc_perm _ _))).
      apply in_map_iff. exists (t, c). split; [reflexivity|].
      apply filter_In. cbn [fst]. split.
      + apply in_innerJoin. rewrite String.eqb_eq. tauto.
      + now apply String.eqb_eq. }
  split; [|split; [exact M|]].
  - unfold rows, Queries.getTransactions.
    eapply StronglySorted_weaken; [|apply orderByDesc_sorted].
    intros a b H. unfold descending in H. cbn in H. now apply Z.leb_le.
  - intros t Ht Hno Hin. apply in_map_iff in Hin.
    destruct Hin as [[t' c] [E Hin]]. cbn in E. subst t'.
    apply M in Hin. destruct Hin as [_ [Hc [_ Hon]]].
    apply Hno. rewrite Hon. now apply in_map.
Qed.

(** X14: with [categories] keyed by [id] and every transaction of the group
    naming a stored category, [getTransactions] lists each transaction of
    the group exactly once. *)
Theorem getTransactions_complete (db : DB) (familyGroupId : string) :
  categoriesKeyed db ->
  (forall t, In t (transactions db) ->
     Transaction.familyGroupId t = familyGroupId ->
     In (Transaction.categoryId t) (map Category.id (categories db))) ->
  Permutation
    (map TransactionWithCategory.transaction
       (Queries.getTransactions db familyGroupId))
    (filter (fun t => String.eqb (Transaction.familyGroupId t) familyGroupId)
       (transactions db)).
Proof.
  intros ND FK. unfold Queries.getTransactions.
  eapply perm_trans;
    [apply Permutation_map, orderByDesc_perm|].
  rewrite map_map. cbn [TransactionWithCategory.transaction].
  unfold Storage.transactionsWithCategory.
  rewrite <- (innerJoin_filter_left
                (fun t c => String.eqb (Transaction.categoryId t)
                              (Category.id c))
                (fun t => String.eqb (Transaction.familyGroupId t)
                            familyGroupId)).
  rewrite innerJoin_unique; [apply Permutation_refl|].
  intros t Ht. apply filter_In in Ht. destruct Ht as [Ht Hfg].
  apply String.eqb_eq in Hfg.
  apply keyed_filter_in; [exact ND|now apply FK].
Qed.

Lemma getTransactions_complete_witness :
  Permutation
    (map TransactionWithCategory.transaction
       (Queries.getTransactions Sample.db "g1"))
    (filter (fun t => String.eqb (Transaction.familyGroupId t) "g1")
       (transactions Sample.db)).
Proof.
  apply getTransactions_complete.
  - unfold categoriesKeyed. cbn.
    repeat constructor; cbn; intuition discriminate.
  - intros t Ht _. cbn in Ht.
    repeat (destruct Ht as [<-|Ht]; [cbn; tauto|]). destruct Ht.
Defined.

(** X15: [getCategories] lists each category of the group exactly once and
    no other, earlier [createdAt] first (among the categories that have
    one). *)
Theorem getCategories_listing (db : DB) (familyGroupId : string) :
  let rows := Queries.getCategories db familyGroupId in
  Permutation rows
    (filter (fun c => String.eqb (Category.familyGroupId c) familyGroupId)
       (categories db))
  /\ StronglySorted
       (fun a b =>
          forall x y,
            Category.createdAt a = Some x -> Category.createdAt b = Some y ->
            x <= y)
       rows.
Proof.
  intro rows. split.
  - apply orderByAsc_perm.
  - unfold rows, Queries.getCategories.
    eapply StronglySorted_weaken; [|apply orderByAsc_sorted].
    intros a b H x y Ea Eb. unfold ascending in H.
    rewrite Ea, Eb in H. cbn in H. now apply Z.leb_le.
Qed.

(** ** The alert cards of the client *)

(** Rows keyed by [key] stay keyed when some are filtered out. *)
Lemma keyed_rows_filter {R : Type} (key : R -> string) (keep : R -> bool)
    (rows : list R) :
  NoDup (map key rows) -> NoDup (map key (filter keep rows)).
Proof.
  intro ND. induction rows as [|r rows IH]; cbn [filter map];
    [constructor|].
  cbn [map] in ND. apply NoDup_cons_iff in ND. destruct ND as [Hnotin ND].
  destruct (keep r); [|now apply IH]. cbn [map].
  apply NoDup_cons; [|now apply IH].
  intro Hin. apply Hnotin. apply in_map_iff in Hin.
  destruct Hin as [z [E Hz]]. apply filter_In in Hz.
  rewrite <- E. apply in_map. tauto.
Qed.

(** Two rows of a keyed list with the same key are the same row. *)
Lemma keyed_rows_eq {R : Type} (key : R -> string) (rows : list R)
    (r r' : R) :
  NoDup (map key rows) -> In r rows -> In r' rows -> key r = key r' ->
  r = r'.
Proof.
  induction rows as [|z rows IH]; intros ND Hr Hr' E; [destruct Hr|].
  cbn [map] in ND. apply NoDup_cons_iff in ND. destruct ND as [Hnotin ND].
  destruct Hr as [->|Hr], Hr' as [->|Hr'].
  - reflexivity.
  - exfalso. apply Hnotin. rewrite E. now apply in_map.
  - exfalso. apply Hnotin. rewrite <- E. now apply in_map.
  - now apply IH.
Qed.

(** With alerts keyed by [id], so are the alerts [getSpendingAlerts]
    lists. *)
Lemma getSpendingAlerts_keyed (db : DB) (fg : string) :
  categoriesKeyed db ->
  NoDup (map SpendingAlert.id (spendingAlerts db)) ->
  NoDup (map (fun a => SpendingAlert.id (SpendingAlertWithCategory.alert a))
           (Storage.getSpendingAlerts db fg)).
Proof.
  intros NC NA.
  rewrite <- (map_map SpendingAlertWithCategory.alert SpendingAlert.id).
  apply (Permutation_NoDup
           (Permutation_sym
              (Permutation_map SpendingAlert.id
                 (getSpendingAlerts_perm db fg NC)))).
  now apply keyed_rows_filter.
Qed.

Section AlertCards.
Variable LocalTZA : Z.
Variables (db : DB) (fg : string) (clock : nat -> Z).

Lemma find_checkLoop_some (a : SpendingAlertWithCategory.t)
    (l : list SpendingAlertWithCategory.t) (i : nat) :
  NoDup (map (fun a => SpendingAlert.id (SpendingAlertWithCategory.alert a))
           l) ->
  In a l ->
  exists j,
    Views.getAlertStatus (Storage.checkLoop LocalTZA db fg clock i l)
      (SpendingAlert.id (SpendingAlertWithCategory.alert a))
    = Some (Storage.checkAlert LocalTZA db fg (clock j) a).
Proof.
  unfold Views.getAlertStatus.
  revert i. induction l as [|b l IH]; intros i ND Hin; [destruct Hin|].
  cbn [map] in ND. inversion ND as [|w ws Hnotin ND']; subst.
  cbn [Storage.checkLoop find].
  change (AlertStatus.alert (Storage.checkAlert LocalTZA db fg (clock i) b))
    with b.
  destruct Hin as [->|Hin].
  - exists i. now rewrite String.eqb_refl.
  - destruct (String.eqb
                (SpendingAlert.id (SpendingAlertWithCategory.alert b))
                (SpendingAlert.id (SpendingAlertWithCategory.alert a)))
      eqn:E.
    + apply String.eqb_eq in E. exfalso. apply Hnotin. rewrite E.
      now apply (in_map
                   (fun a => SpendingAlert.id
                               (SpendingAlertWithCategory.alert a))).
    + now apply IH.
Qed.

Lemma find_checkLoop_none (a : SpendingAlertWithCategory.t)
    (l : list SpendingAlertWithCategory.t) (i : nat) :
  (forall b, In b l ->
     SpendingAlert.id (SpendingAlertWithCategory.alert b)
     <> SpendingAlert.id (SpendingAlertWithCategory.alert a)) ->
  Views.getAlertStatus (Storage.checkLoop LocalTZA db fg clock i l)
    (SpendingAlert.id (SpendingAlertWithCategory.alert a))
  = None.
Proof.
  unfold Views.getAlertStatus.
  revert i. induction l as [|b l IH]; intros i H; [reflexivity|].
  cbn [Storage.checkLoop find].
  change (AlertStatus.alert (Storage.checkAlert LocalTZA db fg (clock i) b))
    with b.
  rewrite (proj2 (String.eqb_neq _ _) (H b (or_introl eq_refl))).
  apply IH. intros c Hc. apply H. now right.
Qed.

(** The status the card of a listed alert finds among the statuses of the
    check. *)
Lemma getAlertStatus_listed (a : SpendingAlertWithCategory.t) :
  categoriesKeyed db ->
  NoDup (map SpendingAlert.id (spendingAlerts db)) ->
  In a (Storage.getSpendingAlerts db fg) ->
  let statuses := Storage.checkSpendingAlerts LocalTZA db fg clock in
  let id := SpendingAlert.id (SpendingAlertWithCategory.alert a) in
  if SpendingAlert.isActive (SpendingAlertWithCategory.alert a)
  then exists j,
         Views.getAlertStatus statuses id
         = Some (Storage.checkAlert LocalTZA db fg (clock j) a)
  else Views.getAlertStatus statuses id = None.
Proof.
  intros NC NA Hin statuses id.
  pose proof (getSpendingAlerts_keyed db fg NC NA) as ND.
  unfold statuses, id, Storage.checkSpendingAlerts.
  destruct (SpendingAlert.isActive (SpendingAlertWithCategory.alert a))
    eqn:Act.
  - apply find_checkLoop_some.
    + now apply keyed_rows_filter.
    + apply filter_In. tauto.
  - apply find_checkLoop_none. intros b Hb E.
    apply filter_In in Hb. destruct Hb as [Hb Actb].
    assert (b = a) as ->
      by exact (keyed_rows_eq _ _ b a ND Hb Hin E).
    congruence.
Qed.
End AlertCards.

Lemma percentage_reached (spent limit : Q) :
  (0 < limit)%Q ->
  Qle_bool 100 (spent / limit * 100) = true <-> (limit <= spent)%Q.
Proof.
  intro H. rewrite Qle_bool_iff.
  assert (spent == spent / limit * limit)%Q as E by (field; lra).
  split; intro L.
  - assert (1 <= spent / limit)%Q as L1 by lra.
    rewrite E.
    apply (Qmult_le_compat_r 1 (spent / limit) limit) in L1; lra.
  - assert (1 <= spent / limit)%Q as L1
      by (apply Qle_shift_div_l; [exact H|lra]).
    lra.
Qed.

(** X16: the card the client draws for a listed alert, from the statuses of
    [checkSpendingAlerts] on the same ledger, with alerts and categories
    keyed by [id].  For an active alert with a positive limit the card shows
    the spending of the check and reads "limit exceeded by spending - limit"
    exactly when the spending has reached the limit, "limit - spending left"
    otherwise.  An active alert whose limit is not positive never reads
    "exceeded", whatever was spent.  An inactive alert, on which the check
    does not report, shows a spending of 0 and the whole limit as left. *)
Theorem alert_card (LocalTZA : Z) (db : DB) (familyGroupId : string)
    (clock : nat -> Z) (a : SpendingAlertWithCategory.t) :
  categoriesKeyed db ->
  NoDup (map SpendingAlert.id (spendingAlerts db)) ->
  In a (Storage.getSpendingAlerts db familyGroupId) ->
  let statuses :=
    Storage.checkSpendingAlerts LocalTZA db familyGroupId clock in
  let limit := SpendingAlert.limitAmount (SpendingAlertWithCategory.alert a) in
  let spent := Views.cardSpending statuses a in
  if SpendingAlert.isActive (SpendingAlertWithCategory.alert a) then
    (exists j,
       spent
       = AlertStatus.currentSpending
           (Storage.checkAlert LocalTZA db familyGroupId (clock j) a))
    /\ if Qgtb limit 0 then
         match Views.alertLine statuses a with
         | Views.Exceeded x => (limit <= spent)%Q /\ x = (spent - limit)%Q
         | Views.Remaining x => (spent < limit)%Q /\ x = (limit - spent)%Q
         end
       else Views.alertLine statuses a = Views.Remaining (limit - spent)
  else
    spent = 0%Q
    /\ Views.cardPercentage statuses a = 0%Q
    /\ Views.alertLine statuses a = Views.Remaining (limit - 0).
Proof.
  intros NC NA Hin statuses limit spent.
  pose proof (getAlertStatus_listed LocalTZA db familyGroupId clock a
                NC NA Hin) as F.
  cbv zeta in F. fold statuses in F.
  unfold spent, Views.alertLine, Views.cardSpending, Views.cardPercentage.
  fold limit.
  destruct (SpendingAlert.isActive (SpendingAlertWithCategory.alert a)).
  - destruct F as [j ->]. split; [now exists j|].
    unfold Storage.checkAlert.
    cbn [AlertStatus.currentSpending AlertStatus.percentageUsed].
    fold limit. set (cs := numberOr0 _).
    destruct (Qgtb limit 0) eqn:G.
    + apply Qgtb_true in G.
      destruct (Qle_bool 100 (cs / limit * 100)) eqn:E.
      * split; [|reflexivity]. now apply percentage_reached.
      * split; [|reflexivity]. apply Qnot_le_lt. intro L.
        apply (percentage_reached cs limit G) in L. congruence.
    + reflexivity.
  - rewrite F. repeat split.
Qed.

Lemma alert_card_witness :
  match Views.alertLine SampleMore.overspentStatuses
          SampleMore.overspentAlert with
  | Views.Exceeded x =>
      (200 <= Views.cardSpending SampleMore.overspentStatuses
                SampleMore.overspentAlert)%Q
      /\ x = (Views.cardSpending SampleMore.overspentStatuses
                SampleMore.overspentAlert - 200)%Q
  | Views.Remaining x =>
      (Views.cardSpending SampleMore.overspentStatuses
         SampleMore.overspentAlert < 200)%Q
      /\ x = (200 - Views.cardSpending SampleMore.overspentStatuses
                      SampleMore.overspentAlert)%Q
  end.
Proof.
  assert (categoriesKeyed Sample.overspentLedger) as NC
    by (unfold categoriesKeyed; cbn;
        repeat constructor; cbn; intuition discriminate).
  assert (NoDup (map SpendingAlert.id
                   (spendingAlerts Sample.overspentLedger))) as NA
    by (cbn; repeat constructor; cbn; intuition discriminate).
  pose proof (alert_card Sample.tz Sample.overspentLedger "g1"
                (fun _ => Sample.now) SampleMore.overspentAlert NC NA
                (or_introl eq_refl)) as H.
  vm_compute in H. vm_compute. exact (proj2 H).
Defined.

(** ** Dates in the client *)

(** X17: the badge of a savings goal with a target date.  The number of days
    [getDaysRemaining] returns is the least whole number of days that
    reaches the target from now, and the badge reads "Vencida" exactly when
    the target is not after now; a target less than a day ahead reads
    "1 dias". *)
Theorem getDaysRemaining_label (now target : Z) :
  exists n,
    Views.getDaysRemaining now (Some target) = Some n
    /\ (n - 1) * JSDate.msPerDay < target - now <= n * JSDate.msPerDay
    /\ (Views.daysLabel n = Views.Vencida <-> target <= now)
    /\ (Views.daysLabel n = Views.Dias 1
        <-> 0 < target - now <= JSDate.msPerDay).
Proof.
  exists (Views.ceilDiv (target - now) (1000 * 60 * 60 * 24)).
  split; [reflexivity|].
  set (n := Views.ceilDiv (target - now) (1000 * 60 * 60 * 24)).
  assert ((n - 1) * JSDate.msPerDay < target - now <= n * JSDate.msPerDay)
    as B.
  { unfold n, Views.ceilDiv, JSDate.msPerDay.
    change (1000 * 60 * 60 * 24) with 86400000.
    Z.to_euclidean_division_equations; lia. }
  split; [exact B|]. unfold Views.daysLabel, JSDate.msPerDay in *.
  destruct (0 <? n) eqn:E.
  - apply Z.ltb_lt in E. split; split; intro H.
    + discriminate.
    + exfalso. lia.
    + inversion H. lia.
    + f_equal. lia.
  - apply Z.ltb_ge in E. split; split; intro H.
    + lia.
    + reflexivity.
    + discriminate.
    + exfalso. lia.
Qed.

(** X18: [formatRelativeDate] goes by elapsed time, not by calendar day:
    'Hoje' exactly when the date is at most now and less than 24 hours back,
    'Ontem' exactly when it is 24 to 48 hours back, the formatted date
    exactly when it is 8 days back or more, and a count of days otherwise.
    A date after now gets a negative count of days. *)
Theorem formatRelativeDate_cases (now date : Z) :
  (Views.formatRelativeDate now date = Views.Hoje
   <-> 0 <= now - date < JSDate.msPerDay)
  /\ (Views.formatRelativeDate now date = Views.Ontem
      <-> JSDate.msPerDay <= now - date < 2 * JSDate.msPerDay)
  /\ (Views.formatRelativeDate now date = Views.Formatted date
      <-> 8 * JSDate.msPerDay <= now - date)
  /\ (forall n,
        Views.formatRelativeDate now date = Views.DiasAtras n
        <-> n * JSDate.msPerDay <= now - date < (n + 1) * JSDate.msPerDay
            /\ n <= 7 /\ n <> 0 /\ n <> 1)
  /\ (now < date ->
      exists n, n < 0
                /\ Views.formatRelativeDate now date = Views.DiasAtras n).
Proof.
  unfold Views.formatRelativeDate, JSDate.msPerDay.
  change (1000 * 60 * 60 * 24) with 86400000.
  set (d := (now - date) / 86400000).
  assert (d * 86400000 <= now - date < (d + 1) * 86400000) as B
    by (unfold d; Z.to_euclidean_division_equations; lia).
  cbv zeta.
  destruct (d =? 0) eqn:E0; [apply Z.eqb_eq in E0|apply Z.eqb_neq in E0];
    [|destruct (d =? 1) eqn:E1;
        [apply Z.eqb_eq in E1|apply Z.eqb_neq in E1];
        [|destruct (d <=? 7) eqn:E7;
            [apply Z.leb_le in E7|apply Z.leb_gt in E7]]];
    (split; [|split; [|split; [|split]]]);
    try (split; intro H;
         solve [discriminate | lia | exfalso; lia | reflexivity]);
    try (intro n; split; intro H;
         solve [discriminate | inversion H; lia | exfalso; lia
               | f_equal; lia]);
    try (intro H; solve [exfalso; lia | exists d; split; [lia|reflexivity]]).
Qed.

(** X19: the "month" filter of the transaction list compares the month of
    the year only, not the year: with now in month [month] of [year], a
    transaction dated in month [month'] of [year'] is kept exactly when
    the two months are the same, whatever the two years. *)
Theorem month_filter_ignores_year (LocalTZA year year' month month' : Z)
    (now date : Z) (type : string) :
  1900 <= year -> 1900 <= year' ->
  1 <= month <= 12 -> 1 <= month' <= 12 ->
  JSDate.newDate LocalTZA year (month - 1) 1 0 0 0 0 <= now
    < JSDate.newDate LocalTZA year month 0 23 59 59 0 + 1000 ->
  JSDate.newDate LocalTZA year' (month' - 1) 1 0 0 0 0 <= date
    < JSDate.newDate LocalTZA year' month' 0 23 59 59 0 + 1000 ->
  Views.keepTransaction LocalTZA "month" now type date = (month =? month').
Proof.
  intros Hy Hy' Hm Hm' Hn Hd.
  assert (JSDate.getMonth LocalTZA now = month - 1) as En.
  { apply (proj2 (in_month_iff LocalTZA year month now
                    ltac:(right; lia) Hm)). lia. }
  assert (JSDate.getMonth LocalTZA date = month' - 1) as Ed.
  { apply (proj2 (in_month_iff LocalTZA year' month' date
                    ltac:(right; lia) Hm')). lia. }
  unfold Views.keepTransaction. cbn [String.eqb Ascii.eqb Bool.eqb].
  cbv zeta. rewrite En, Ed.
  destruct (Z.eqb_spec month month') as [->|N].
  - apply Z.eqb_refl.
  - apply Z.eqb_neq. lia.
Qed.

Lemma month_filter_ignores_year_witness :
  Views.keepTransaction Sample.tz "month" Sample.now "expense"
    SampleMore.lastYear
  = true.
Proof.
  refine (month_filter_ignores_year Sample.tz 2024 2023 3 3 Sample.now
            SampleMore.lastYear "expense" _ _ _ _ _ _);
    vm_compute; intuition discriminate.
Defined.

(** ** Spending of an alert *)

Lemma sumWhere_mono (p q : Transaction.t -> bool)
    (l : list Transaction.t) :
  (forall t, In t l -> (0 <= Transaction.amount t)%Q) ->
  (forall t, p t = true -> q t = true) ->
  (sumWhere p l <= sumWhere q l)%Q.
Proof.
  intros Hpos Himp.
  assert (sumWhere p l = sumWhere p (filter q l)) as ->.
  { rewrite sumWhere_filter. apply sumWhere_ext. intro t.
    destruct (p t) eqn:P, (q t) eqn:Q; try reflexivity.
    apply Himp in P. congruence. }
  unfold sumWhere. apply sumQ_filter_le.
  intros t Ht. apply filter_In in Ht. now apply Hpos.
Qed.

Lemma checkAlert_spending (LocalTZA : Z) (db : DB) (fg : string) (now : Z)
    (a : SpendingAlertWithCategory.t) :
  (AlertStatus.currentSpending (Storage.checkAlert LocalTZA db fg now a)
   == sumWhere
        (Storage.alertWhere fg a
           (Storage.periodStart LocalTZA
              (SpendingAlert.period (SpendingAlertWithCategory.alert a)) now)
           now)
        (transactions db))%Q.
Proof.
  unfold Storage.checkAlert. cbn [AlertStatus.currentSpending].
  apply numberOr0_sum.
Qed.

Lemma checkAlert_percentage (LocalTZA : Z) (db : DB) (fg : string) (now : Z)
    (a : SpendingAlertWithCategory.t) :
  AlertStatus.percentageUsed (Storage.checkAlert LocalTZA db fg now a)
  = if Qgtb (SpendingAlert.limitAmount (SpendingAlertWithCategory.alert a)) 0
    then (AlertStatus.currentSpending
            (Storage.checkAlert LocalTZA db fg now a)
          / SpendingAlert.limitAmount (SpendingAlertWithCategory.alert a)
          * 100)%Q
    else 0%Q.
Proof. reflexivity. Qed.

(** X20: on a ledger without negative amounts, no entry of
    [checkSpendingAlerts] has a negative [currentSpending] or a negative
    [percentageUsed]. *)
Theorem checkSpendingAlerts_nonneg (LocalTZA : Z) (db : DB)
    (familyGroupId : string) (clock : nat -> Z) (r : AlertStatus.t) :
  (forall t, In t (transactions db) -> (0 <= Transaction.amount t)%Q) ->
  In r (Storage.checkSpendingAlerts LocalTZA db familyGroupId clock) ->
  (0 <= AlertStatus.currentSpending r)%Q
  /\ (0 <= AlertStatus.percentageUsed r)%Q.
Proof.
  intros Hpos Hin. apply in_checkSpendingAlerts in Hin.
  destruct Hin as [j [a [_ [_ ->]]]].
  assert (0 <= AlertStatus.currentSpending
                 (Storage.checkAlert LocalTZA db familyGroupId (clock j) a))%Q
    as C.
  { rewrite checkAlert_spending. now apply sumWhere_nonneg. }
  split; [exact C|].
  rewrite checkAlert_percentage.
  destruct (Qgtb _ 0) eqn:G; [|lra].
  apply Qgtb_true in G.
  apply Qmult_le_0_compat; [|lra].
  apply Qle_shift_div_l; [exact G|]. lra.
Qed.

Lemma checkSpendingAlerts_nonneg_witness :
  (0 <= AlertStatus.currentSpending
          (Storage.checkAlert Sample.tz Sample.overspentLedger "g1"
             Sample.now SampleMore.overspentAlert))%Q.
Proof.
  refine (proj1
            (checkSpendingAlerts_nonneg Sample.tz Sample.overspentLedger "g1"
               (fun _ => Sample.now)
               (Storage.checkAlert Sample.tz Sample.overspentLedger "g1"
                  Sample.now SampleMore.overspentAlert)
               _ (or_introl eq_refl))).
  intros t Ht. cbn in Ht.
  repeat (destruct Ht as [<-|Ht]; [cbn; lra|]). destruct Ht.
Defined.

(** The start of the daily period is not before the start of any other
    period. *)
Lemma periodStart_daily_latest (LocalTZA now : Z) (period : string) :
  JSDate.getFullYear LocalTZA now < 0 \/ 99 < JSDate.getFullYear LocalTZA now ->
  Storage.periodStart LocalTZA period now
  <= Storage.periodStart LocalTZA "daily" now.
Proof.
  intro Hy.
  pose proof (periodStart_daily_local LocalTZA now Hy) as Ed.
  destruct (String.eqb period "daily") eqn:D.
  { apply String.eqb_eq in D. subst period. lia. }
  destruct (String.eqb period "weekly") eqn:W.
  - apply String.eqb_eq in W. subst period.
    destruct (weekly_start LocalTZA now) as [_ [Ht [_ HD]]].
    change (JSDate.setHours LocalTZA
              (now - JSDate.getDay LocalTZA now * 24 * 60 * 60 * 1000)
              0 0 0 0)
      with (Storage.periodStart LocalTZA "weekly" now) in Ht, HD.
    assert (0 <= JSDate.getDay LocalTZA now) as Hw
      by (unfold JSDate.getDay, JSDate.WeekDay;
          Z.to_euclidean_division_equations; lia).
    revert Ed Ht HD Hw.
    generalize (Storage.periodStart LocalTZA "weekly" now).
    generalize (Storage.periodStart LocalTZA "daily" now).
    generalize (JSDate.getDay LocalTZA now).
    unfold JSDate.LocalTime, JSDate.MakeDate, JSDate.TimeWithinDay,
      JSDate.Day, JSDate.msPerDay.
    intros wd sd sw Ed Ht HD Hw.
    Z.to_euclidean_division_equations; lia.
  - apply String.eqb_neq in D, W.
    pose proof (periodStart_monthly_local LocalTZA period now D W Hy) as Em.
    destruct (calendar_of_time (JSDate.LocalTime LocalTZA now))
      as [_ [Hdate HD]].
    fold (JSDate.getFullYear LocalTZA now) in HD.
    fold (JSDate.getMonth LocalTZA now) in HD.
    revert Ed Em Hdate HD.
    generalize (Storage.periodStart LocalTZA period now).
    generalize (Storage.periodStart LocalTZA "daily" now).
    unfold JSDate.MakeDay.
    generalize (JSDate.DayFromYear
                  (JSDate.getFullYear LocalTZA now
                   + JSDate.getMonth LocalTZA now / 12)
                + JSDate.daysBeforeMonth
                    (JSDate.isLeapYear
                       (JSDate.getFullYear LocalTZA now
                        + JSDate.getMonth LocalTZA now / 12))
                    (JSDate.getMonth LocalTZA now mod 12)).
    generalize (JSDate.DateFromTime (JSDate.LocalTime LocalTZA now)).
    generalize (JSDate.daysInMonth
                  (JSDate.InLeapYear (JSDate.LocalTime LocalTZA now))
                  (JSDate.MonthFromTime (JSDate.LocalTime LocalTZA now))).
    generalize (JSDate.Day (JSDate.LocalTime LocalTZA now)).
    unfold JSDate.LocalTime, JSDate.MakeDate, JSDate.msPerDay.
    intros. lia.
Qed.

(** X22: at one clock reading and on a ledger without negative amounts, a
    daily alert never reports more spending than an alert of any other
    period on the same category: the day's window lies within the week's
    and the month's. *)
Theorem daily_spending_least (LocalTZA : Z) (db : DB)
    (familyGroupId : string) (now : Z)
    (daily other : SpendingAlertWithCategory.t) :
  JSDate.getFullYear LocalTZA now < 0 \/ 99 < JSDate.getFullYear LocalTZA now ->
  (forall t, In t (transactions db) -> (0 <= Transaction.amount t)%Q) ->
  SpendingAlert.period (SpendingAlertWithCategory.alert daily)
  = "daily"%string ->
  SpendingAlert.categoryId (SpendingAlertWithCategory.alert daily)
  = SpendingAlert.categoryId (SpendingAlertWithCategory.alert other) ->
  (AlertStatus.currentSpending
     (Storage.checkAlert LocalTZA db familyGroupId now daily)
   <= AlertStatus.currentSpending
        (Storage.checkAlert LocalTZA db familyGroupId now other))%Q.
Proof.
  intros Hy Hpos Hd Hc.
  rewrite !checkAlert_spending. rewrite Hd.
  pose proof (periodStart_daily_latest LocalTZA now
                (SpendingAlert.period (SpendingAlertWithCategory.alert other))
                Hy) as L.
  revert L.
  generalize (Storage.periodStart LocalTZA
                (SpendingAlert.period
                   (SpendingAlertWithCategory.alert other)) now).
  generalize (Storage.periodStart LocalTZA "daily" now).
  intros sd so L.
  apply sumWhere_mono; [exact Hpos|].
  intro t. unfold Storage.alertWhere. rewrite Hc.
  rewrite !andb_true_iff, !Z.leb_le.
  intros [[[[H1 H2] H3] H4] H5]. repeat split; try assumption. lia.
Qed.

Lemma daily_spending_least_witness :
  (AlertStatus.currentSpending
     (Storage.checkAlert Sample.tz Sample.db "g1" Sample.now
        SampleMore.dailyAlert)
   <= AlertStatus.currentSpending
        (Storage.checkAlert Sample.tz Sample.db "g1" Sample.now
           SampleMore.weeklyAlert))%Q.
Proof.
  refine (daily_spending_least Sample.tz Sample.db "g1" Sample.now
            SampleMore.dailyAlert SampleMore.weeklyAlert
            (or_intror (eq_refl : 99 < JSDate.getFullYear Sample.tz Sample.now))
            _ eq_refl eq_refl).
  intros t Ht. cbn in Ht.
  repeat (destruct Ht as [<-|Ht]; [cbn; lra|]). destruct Ht.
Defined.

(** * The program on stored values *)

(** ** What the windows select among the stored dates *)

Lemma stored_date_range (a b date : Z) :
  a <= Drizzle.timestampToDriver date <= b
  <-> 1000 * a <= date <= 1000 * b + 999.
Proof.
  unfold Drizzle.timestampToDriver.
  split; intro H; Z.to_euclidean_division_equations; lia.
Qed.

Lemma stored_date_early (startDate bound date : Z) :
  date <= bound -> bound < 1000 * startDate ->
  Drizzle.timestampToDriver date < startDate.
Proof.
  intros H L. unfold Drizzle.timestampToDriver.
  Z.to_euclidean_division_equations; lia.
Qed.

(** From 1971 on, a month ends long before a thousand times its start. *)
Lemma month_end_early (LocalTZA year month : Z) :
  - JSDate.msPerDay <= LocalTZA <= JSDate.msPerDay ->
  1971 <= year -> 1 <= month <= 12 ->
  JSDate.newDate LocalTZA year month 0 23 59 59 0
  < 1000 * JSDate.newDate LocalTZA year (month - 1) 1 0 0 0 0.
Proof.
  intros Hz Hy Hm.
  rewrite (month_window_length LocalTZA year month) by lia.
  pose proof (newDate_LocalTime LocalTZA year (month - 1) 1 0 0 0 0
                ltac:(right; lia)) as E.
  pose proof (daysInMonth_pos (JSDate.isLeapYear year) (month - 1)) as HD.
  assert (365 <= JSDate.MakeDay year (month - 1) 1) as HM.
  { unfold JSDate.MakeDay.
    rewrite (Z.div_small (month - 1) 12), (Z.mod_small (month - 1) 12)
      by lia.
    replace (year + 0) with year by lia.
    pose proof (dayWithinYear_bound (JSDate.isLeapYear year) (month - 1) 1
                  ltac:(lia) ltac:(lia)) as B.
    pose proof (DayFromYear_mono 1971 year Hy) as M.
    change (JSDate.DayFromYear 1971) with 365 in M. lia. }
  revert E HD HM.
  generalize (JSDate.newDate LocalTZA year (month - 1) 1 0 0 0 0).
  generalize (JSDate.MakeDay year (month - 1) 1).
  generalize (JSDate.daysInMonth (JSDate.isLeapYear year) (month - 1)).
  unfold JSDate.LocalTime, JSDate.MakeDate, JSDate.MakeTime,
    JSDate.msPerDay, JSDate.msPerHour, JSDate.msPerMinute,
    JSDate.msPerSecond in *.
  intros dim day s E HD HM. lia.
Qed.

(** The window of an alert opens less than 31 days before the clock
    reading. *)
Lemma periodStart_recent (LocalTZA now : Z) (period : string) :
  JSDate.getFullYear LocalTZA now < 0 \/ 99 < JSDate.getFullYear LocalTZA now ->
  now - 31 * JSDate.msPerDay < Storage.periodStart LocalTZA period now <= now.
Proof.
  intro Hy.
  destruct (String.eqb period "daily") eqn:D.
  { apply String.eqb_eq in D. subst period.
    destruct (local_midnight LocalTZA now _
                (periodStart_daily_local LocalTZA now Hy))
      as [_ [_ [_ [_ B]]]].
    unfold JSDate.msPerDay in *. lia. }
  destruct (String.eqb period "weekly") eqn:W.
  - apply String.eqb_eq in W. subst period.
    destruct (weekly_start LocalTZA now) as [_ [_ [B _]]].
    change (JSDate.setHours LocalTZA
              (now - JSDate.getDay LocalTZA now * 24 * 60 * 60 * 1000)
              0 0 0 0)
      with (Storage.periodStart LocalTZA "weekly" now) in B.
    unfold JSDate.msPerDay in *. lia.
  - apply String.eqb_neq in D, W.
    pose proof (periodStart_monthly_local LocalTZA period now D W Hy) as Em.
    destruct (calendar_of_time (JSDate.LocalTime LocalTZA now))
      as [_ [Hdate HD]].
    fold (JSDate.getFullYear LocalTZA now) in HD.
    fold (JSDate.getMonth LocalTZA now) in HD, Hdate.
    pose proof (daysInMonth_pos
                  (JSDate.InLeapYear (JSDate.LocalTime LocalTZA now))
                  (JSDate.getMonth LocalTZA now)) as H31.
    pose proof (MakeDate_Day (JSDate.LocalTime LocalTZA now)) as R.
    pose proof (TimeWithinDay_bound (JSDate.LocalTime LocalTZA now)) as B.
    rewrite <- HD in R.
    assert (JSDate.MakeDay (JSDate.getFullYear LocalTZA now)
              (JSDate.getMonth LocalTZA now)
              (JSDate.DateFromTime (JSDate.LocalTime LocalTZA now))
            = JSDate.MakeDay (JSDate.getFullYear LocalTZA now)
                (JSDate.getMonth LocalTZA now) 1
              + (JSDate.DateFromTime (JSDate.LocalTime LocalTZA now) - 1))
      as EM by (unfold JSDate.MakeDay; lia).
    rewrite EM in R. clear EM HD.
    revert Em R B Hdate H31.
    generalize (Storage.periodStart LocalTZA period now).
    generalize (JSDate.MakeDay (JSDate.getFullYear LocalTZA now)
                  (JSDate.getMonth LocalTZA now) 1).
    generalize (JSDate.TimeWithinDay (JSDate.LocalTime LocalTZA now)).
    generalize (JSDate.DateFromTime (JSDate.LocalTime LocalTZA now)).
    generalize (JSDate.daysInMonth
                  (JSDate.InLeapYear (JSDate.LocalTime LocalTZA now))
                  (JSDate.getMonth LocalTZA now)).
    unfold JSDate.LocalTime, JSDate.MakeDate, JSDate.msPerDay.
    intros; nia.
Qed.

(** A transaction dated at or before the clock reading is stored with a
    value below the start of every alert window, from February 1970 on. *)
Lemma stored_date_before_period (LocalTZA now date : Z) (period : string) :
  JSDate.getFullYear LocalTZA now < 0 \/ 99 < JSDate.getFullYear LocalTZA now ->
  32 * JSDate.msPerDay <= now -> date <= now ->
  Drizzle.timestampToDriver date < Storage.periodStart LocalTZA period now.
Proof.
  intros Hy Hn Hd.
  pose proof (periodStart_recent LocalTZA now period Hy) as B.
  apply (stored_date_early _ now); [exact Hd|].
  unfold JSDate.msPerDay in *. lia.
Qed.

Lemma filter_last_out {A : Type} (p : A -> bool) (l : list A) (x : A) :
  p x = false -> filter p (l ++ [x]) = filter p l.
Proof.
  intro H. rewrite filter_app. cbn [filter]. rewrite H. apply app_nil_r.
Qed.

Lemma monthlyBalanceWhere_early (scope : string) (startDate endDate : Z)
    (t : Stored.Transaction.t) :
  Stored.Transaction.date t < startDate ->
  Stored.Storage.monthlyBalanceWhere scope startDate endDate t = false.
Proof.
  intro H. unfold Stored.Storage.monthlyBalanceWhere.
  apply Z.leb_gt in H. rewrite H. now rewrite andb_false_r.
Qed.

Lemma categoryExpensesWhere_early (scope : string) (startDate endDate : Z)
    (t : Stored.Transaction.t) :
  Stored.Transaction.date t < startDate ->
  Stored.Storage.categoryExpensesWhere scope startDate endDate t = false.
Proof.
  intro H. unfold Stored.Storage.categoryExpensesWhere.
  apply Z.leb_gt in H. rewrite H. now rewrite andb_false_r.
Qed.

Section Slip.
Variable SUM : list Binary64.double -> Binary64.double.
Variable LocalTZA : Z.

Lemma alertWhere_early (fg : string)
    (alert : Stored.SpendingAlertWithCategory.t) (startDate now : Z)
    (t : Stored.Transaction.t) :
  Stored.Transaction.date t < startDate ->
  Stored.Storage.alertWhere fg alert startDate now t = false.
Proof.
  intro H. unfold Stored.Storage.alertWhere.
  apply Z.leb_gt in H. rewrite H. now rewrite !andb_false_r.
Qed.

Lemma checkAlert_early (db : Stored.DB) (fg : string) (now : Z)
    (alert : Stored.SpendingAlertWithCategory.t) (t : Stored.Transaction.t) :
  Stored.Transaction.date t
  < Storage.periodStart LocalTZA
      (Stored.SpendingAlert.period
         (Stored.SpendingAlertWithCategory.alert alert)) now ->
  Stored.Storage.checkAlert SUM LocalTZA
    (Stored.mkDB (Stored.categories db) (Stored.transactions db ++ [t])
       (Stored.spendingAlerts db)) fg now alert
  = Stored.Storage.checkAlert SUM LocalTZA db fg now alert.
Proof.
  intro H. unfold Stored.Storage.checkAlert. cbn [Stored.transactions].
  now rewrite (filter_last_out _ _ t (alertWhere_early fg alert _ now t H)).
Qed.
End Slip.

(** C1: [getMonthlyBalance] leaves out the transactions of the month.  From
    1971 on, in a time zone at most a day from UTC, a transaction that
    [createTransaction] writes with a date up to the last second of a month
    (so every transaction dated in the month) changes nothing in the balance
    reported for that month, whatever its type, amount and owner: the
    window is compared in milliseconds with a column that holds seconds. *)
Theorem getMonthlyBalance_misses_month
    (SUM : list Binary64.double -> Binary64.double) (LocalTZA : Z)
    (db : Stored.DB) (newId : string) (now : Z)
    (familyGroupId userId : string)
    (transaction : Stored.InsertTransaction.t) (scope : string)
    (year month : Z) :
  - JSDate.msPerDay <= LocalTZA <= JSDate.msPerDay ->
  1971 <= year -> 1 <= month <= 12 ->
  Stored.InsertTransaction.date transaction
  <= JSDate.newDate LocalTZA year month 0 23 59 59 0 ->
  Stored.Storage.getMonthlyBalance SUM LocalTZA
    (fst (Stored.Storage.createTransaction db newId now familyGroupId userId
            transaction))
    scope year month
  = Stored.Storage.getMonthlyBalance SUM LocalTZA db scope year month.
Proof.
  intros Hz Hy Hm Hd.
  pose proof (month_end_early LocalTZA year month Hz Hy Hm) as L.
  pose proof (stored_date_early _ _ _ Hd L) as E.
  unfold Stored.Storage.getMonthlyBalance, Stored.Storage.createTransaction.
  cbn [fst Stored.transactions].
  now rewrite (filter_last_out _ _ _
                 (monthlyBalanceWhere_early scope _ _
                    (Stored.Storage.insertedRow newId now familyGroupId
                       userId transaction) E)).
Qed.

Lemma getMonthlyBalance_misses_month_witness :
  Stored.Storage.getMonthlyBalance Binary64.sumSeq Sample.tz
    SampleStored.march "u1" 2024 3
  = Stored.MonthlyBalance.mk Binary64.zero Binary64.zero Binary64.zero.
Proof.
  refine (eq_trans
            (getMonthlyBalance_misses_month Binary64.sumSeq Sample.tz
               SampleStored.empty "t1" Sample.now "g1" "u1"
               (SampleStored.spend "cat-a" (Binary64.ofZ 60)
                  SampleStored.monday)
               "u1" 2024 3 _ _ _ _)
            eq_refl);
    [vm_compute; split; discriminate | lia | lia | vm_compute; discriminate].
Defined.

Lemma categoryExpenses_last_out
    (SUM : list Binary64.double -> Binary64.double) (LocalTZA : Z)
    (ORDER : list ((string * string) * Binary64.double)
             -> list ((string * string) * Binary64.double))
    (db : Stored.DB) (t : Stored.Transaction.t) (scope : string)
    (year month : Z) :
  Stored.Storage.categoryExpensesWhere scope
    (JSDate.newDate LocalTZA year (month - 1) 1 0 0 0 0)
    (JSDate.newDate LocalTZA year month 0 23 59 59 0) t = false ->
  Stored.Storage.getCategoryExpenses SUM LocalTZA ORDER
    (Stored.mkDB (Stored.categories db) (Stored.transactions db ++ [t])
       (Stored.spendingAlerts db)) scope year month
  = Stored.Storage.getCategoryExpenses SUM LocalTZA ORDER db scope year month.
Proof.
  intro H.
  unfold Stored.Storage.getCategoryExpenses,
    Stored.Storage.categoryExpensesRows,
    Stored.Storage.categoryExpensesSelected,
    Stored.Storage.transactionsWithCategory.
  cbn [Stored.transactions Stored.categories].
  rewrite <- !(innerJoin_filter_left
                 (fun t c => String.eqb (Stored.Transaction.categoryId t)
                               (Category.id c))
                 (Stored.Storage.categoryExpensesWhere scope
                    (JSDate.newDate LocalTZA year (month - 1) 1 0 0 0 0)
                    (JSDate.newDate LocalTZA year month 0 23 59 59 0))).
  now rewrite (filter_last_out _ _ t H).
Qed.

(** C6: the window of the month reports opens with the first instant of the
    month and closes with 23:59:59 of its last day, local time, but it is
    not the transactions dated in it that are aggregated.  From 1971 on, in
    a time zone at a fixed offset of at most a day from UTC: the row
    [createTransaction] writes passes the two comparisons of the window
    exactly when the transaction is dated between 1000 times the start and
    1000 times the end plus 999, which lies after the month; so a
    transaction dated up to the end of the month is rejected by the [where]
    clause of both reports and changes nothing in [getCategoryExpenses] for
    that month. *)
Theorem month_window_reads_seconds (LocalTZA year month : Z) :
  - JSDate.msPerDay <= LocalTZA <= JSDate.msPerDay ->
  1971 <= year -> 1 <= month <= 12 ->
  let startDate := JSDate.newDate LocalTZA year (month - 1) 1 0 0 0 0 in
  let endDate := JSDate.newDate LocalTZA year month 0 23 59 59 0 in
  (JSDate.getFullYear LocalTZA startDate = year
   /\ JSDate.getMonth LocalTZA startDate = month - 1
   /\ JSDate.getDate LocalTZA startDate = 1
   /\ JSDate.TimeWithinDay (JSDate.LocalTime LocalTZA startDate) = 0)
  /\ (JSDate.getFullYear LocalTZA endDate = year
      /\ JSDate.getMonth LocalTZA endDate = month - 1
      /\ JSDate.getDate LocalTZA endDate
         = JSDate.daysInMonth (JSDate.isLeapYear year) (month - 1)
      /\ JSDate.TimeWithinDay (JSDate.LocalTime LocalTZA endDate)
         = JSDate.MakeTime 23 59 59 0)
  /\ endDate < 1000 * startDate
  /\ forall (newId : string) (now : Z) (familyGroupId userId : string)
       (transaction : Stored.InsertTransaction.t),
       let row :=
         Stored.Storage.insertedRow newId now familyGroupId userId
           transaction in
       (startDate <= Stored.Transaction.date row <= endDate
        <-> 1000 * startDate <= Stored.InsertTransaction.date transaction
            <= 1000 * endDate + 999)
       /\ (Stored.InsertTransaction.date transaction <= endDate ->
           forall scope,
             Stored.Storage.monthlyBalanceWhere scope startDate endDate row
             = false
             /\ Stored.Storage.categoryExpensesWhere scope startDate endDate
                  row = false
             /\ forall SUM ORDER db,
                  Stored.Storage.getCategoryExpenses SUM LocalTZA ORDER
                    (fst (Stored.Storage.createTransaction db newId now
                            familyGroupId userId transaction))
                    scope year month
                  = Stored.Storage.getCategoryExpenses SUM LocalTZA ORDER db
                      scope year month).
Proof.
  intros Hz Hy Hm startDate endDate.
  assert (year < 0 \/ 99 < year) as Hy' by (right; lia).
  split; [exact (month_window_start LocalTZA year month Hy' Hm)|].
  split; [exact (month_window_end LocalTZA year month Hy' Hm)|].
  pose proof (month_end_early LocalTZA year month Hz Hy Hm) as L.
  fold startDate endDate in L. split; [exact L|].
  intros newId now familyGroupId userId transaction row.
  split; [apply stored_date_range|].
  intros Hd scope.
  assert (Stored.Transaction.date row < startDate) as E
    by exact (stored_date_early _ _ _ Hd L).
  split; [now apply monthlyBalanceWhere_early|].
  split; [now apply categoryExpensesWhere_early|].
  intros SUM ORDER db. unfold Stored.Storage.createTransaction. cbn [fst].
  apply categoryExpenses_last_out. now apply categoryExpensesWhere_early.
Qed.

Lemma month_window_reads_seconds_witness :
  Stored.Storage.getCategoryExpenses Binary64.sumSeq Sample.tz
    Stored.Engine.inScanOrder SampleStored.march "u1" 2024 3
  = [].
Proof.
  refine (eq_trans
            (proj2 (proj2
               (proj2 (proj2 (proj2 (proj2
                  (month_window_reads_seconds Sample.tz 2024 3 _ _ _)))
                  "t1"%string Sample.now "g1"%string "u1"%string
                  (SampleStored.spend "cat-a" (Binary64.ofZ 60)
                     SampleStored.monday))
               _ "u1"%string))
               Binary64.sumSeq Stored.Engine.inScanOrder SampleStored.empty)
            eq_refl);
    [vm_compute; split; discriminate | lia | lia | vm_compute; discriminate].
Defined.

Lemma getSpendingAlerts_after_create (db : Stored.DB) (newId : string)
    (now : Z) (familyGroupId userId : string)
    (transaction : Stored.InsertTransaction.t) (scope : string) :
  Stored.Storage.getSpendingAlerts
    (fst (Stored.Storage.createTransaction db newId now familyGroupId userId
            transaction)) scope
  = Stored.Storage.getSpendingAlerts db scope.
Proof. reflexivity. Qed.

(** C5: [checkSpendingAlerts] leaves out the expenses of the window.  When
    every clock reading of the check is at least 32 days after the epoch, a
    transaction that [createTransaction] writes with a date not after those
    readings (so every expense dated in the window of an alert, of the
    alert's category or of any other) changes nothing in the statuses: each
    window is compared in milliseconds with a column that holds seconds. *)
Theorem checkSpendingAlerts_misses_window
    (SUM : list Binary64.double -> Binary64.double) (LocalTZA : Z)
    (db : Stored.DB) (newId : string) (now : Z)
    (familyGroupId userId : string)
    (transaction : Stored.InsertTransaction.t) (scope : string)
    (clock : nat -> Z) :
  (forall i,
     (JSDate.getFullYear LocalTZA (clock i) < 0
      \/ 99 < JSDate.getFullYear LocalTZA (clock i))
     /\ 32 * JSDate.msPerDay <= clock i
     /\ Stored.InsertTransaction.date transaction <= clock i) ->
  Stored.Storage.checkSpendingAlerts SUM LocalTZA
    (fst (Stored.Storage.createTransaction db newId now familyGroupId userId
            transaction))
    scope clock
  = Stored.Storage.checkSpendingAlerts SUM LocalTZA db scope clock.
Proof.
  intro H. unfold Stored.Storage.checkSpendingAlerts.
  rewrite getSpendingAlerts_after_create. cbv zeta.
  generalize (filter
                (fun a =>
                   Stored.SpendingAlert.isActive
                     (Stored.SpendingAlertWithCategory.alert a))
                (Stored.Storage.getSpendingAlerts db scope)).
  generalize 0%nat.
  intros i l. revert i. induction l as [|a l IH]; intro i; [reflexivity|].
  cbn [Stored.Storage.checkLoop]. rewrite IH. f_equal.
  unfold Stored.Storage.createTransaction. cbn [fst].
  apply checkAlert_early. cbn [Stored.Transaction.date
                                 Stored.Storage.insertedRow].
  destruct (H i) as [Hy [Hn Hd]].
  now apply stored_date_before_period.
Qed.

Lemma checkSpendingAlerts_misses_window_witness :
  map Stored.AlertStatus.currentSpending
    (Stored.Storage.checkSpendingAlerts Binary64.sumSeq Sample.tz
       SampleStored.march "g1" (fun _ => Sample.now))
  = [Binary64.zero; Binary64.zero].
Proof.
  refine (eq_trans
            (f_equal (map Stored.AlertStatus.currentSpending)
               (checkSpendingAlerts_misses_window Binary64.sumSeq Sample.tz
                  SampleStored.empty "t1" Sample.now "g1" "u1"
                  (SampleStored.spend "cat-a" (Binary64.ofZ 60)
                     SampleStored.monday)
                  "g1" (fun _ => Sample.now) _))
            eq_refl).
  intros _. vm_compute. repeat split; try discriminate.
  right. reflexivity.
Defined.

(** C7: a weekly alert leaves out the week's expenses.  At a clock reading
    at least 9 days after the epoch, the row [createTransaction] writes can
    pass the [where] clause of a weekly alert only if the transaction is
    dated between 1000 times the start of the week and 1000 times now plus
    999, which lies after now; a transaction dated up to now is rejected
    whichever instant of the last 8 days opens the window (the Sunday of
    the week, or the Saturday a change of daylight saving time can make of
    it), and changes nothing in the status of the alert. *)
Theorem weekly_window_reads_seconds (LocalTZA now : Z) (scope : string)
    (alert : Stored.SpendingAlertWithCategory.t) :
  9 * JSDate.msPerDay <= now ->
  Stored.SpendingAlert.period (Stored.SpendingAlertWithCategory.alert alert)
  = "weekly"%string ->
  let startDate := Storage.periodStart LocalTZA "weekly" now in
  now < 1000 * startDate
  /\ forall (newId : string) (created : Z) (familyGroupId userId : string)
       (transaction : Stored.InsertTransaction.t),
       let row :=
         Stored.Storage.insertedRow newId created familyGroupId userId
           transaction in
       (Stored.Storage.alertWhere scope alert startDate now row = true ->
        1000 * startDate <= Stored.InsertTransaction.date transaction
        <= 1000 * now + 999)
       /\ (Stored.InsertTransaction.date transaction <= now ->
           (forall start,
              now - 8 * JSDate.msPerDay <= start ->
              Stored.Storage.alertWhere scope alert start now row = false)
           /\ forall SUM db,
                Stored.Storage.checkAlert SUM LocalTZA
                  (fst (Stored.Storage.createTransaction db newId created
                          familyGroupId userId transaction))
                  scope now alert
                = Stored.Storage.checkAlert SUM LocalTZA db scope now alert).
Proof.
  intros Hn Hp startDate.
  assert (now - 8 * JSDate.msPerDay <= startDate) as B8.
  { destruct (weekly_start LocalTZA now) as [_ [_ [B _]]].
    change (JSDate.setHours LocalTZA
              (now - JSDate.getDay LocalTZA now * 24 * 60 * 60 * 1000)
              0 0 0 0)
      with startDate in B.
    unfold JSDate.msPerDay in *. lia. }
  assert (forall start, now - 8 * JSDate.msPerDay <= start ->
            now < 1000 * start) as L
    by (intros start Hs; unfold JSDate.msPerDay in *; lia).
  split; [exact (L startDate B8)|].
  intros newId created familyGroupId userId transaction row. split.
  - intro H. apply stored_date_range.
    unfold Stored.Storage.alertWhere in H.
    rewrite !andb_true_iff, !Z.leb_le in H. tauto.
  - intro Hd.
    assert (forall start, now - 8 * JSDate.msPerDay <= start ->
              Stored.Transaction.date row < start) as E
      by (intros start Hs; exact (stored_date_early _ _ _ Hd (L start Hs))).
    split; [intros start Hs; now apply alertWhere_early, E|].
    intros SUM db. unfold Stored.Storage.createTransaction. cbn [fst].
    apply checkAlert_early. rewrite Hp. now apply E.
Qed.

Lemma weekly_window_reads_seconds_witness :
  Stored.AlertStatus.currentSpending
    (Stored.Storage.checkAlert Binary64.sumSeq Sample.tz SampleStored.march
       "g1" Sample.now SampleStored.weekly)
  = Binary64.zero.
Proof.
  refine (eq_trans
            (f_equal Stored.AlertStatus.currentSpending
               (proj2 (proj2 (proj2
                  (weekly_window_reads_seconds Sample.tz Sample.now "g1"
                     SampleStored.weekly _ eq_refl)
                  "t1"%string Sample.now "g1"%string "u1"%string
                  (SampleStored.spend "cat-a" (Binary64.ofZ 60)
                     SampleStored.monday)) _)
                  Binary64.sumSeq SampleStored.empty))
            eq_refl);
    vm_compute; try split; discriminate.
Defined.

(** ** Percentages in binary64 *)

Section AlertEntries.
Variable SUM : list Binary64.double -> Binary64.double.
Variable LocalTZA : Z.

Lemma in_stored_checkLoop (db : Stored.DB) (fg : string) (clock : nat -> Z)
    (i : nat) (l : list Stored.SpendingAlertWithCategory.t)
    (r : Stored.AlertStatus.t) :
  In r (Stored.Storage.checkLoop SUM LocalTZA db fg clock i l) ->
  exists j a,
    In a l /\ r = Stored.Storage.checkAlert SUM LocalTZA db fg (clock j) a.
Proof.
  revert i. induction l as [|a l IH]; intro i; cbn [Stored.Storage.checkLoop];
    [intros []|].
  intros [E|H].
  - exists i, a. split; [now left|now symmetry].
  - destruct (IH _ H) as [j [a' [Ha E]]]. exists j, a'.
    split; [now right|exact E].
Qed.
End AlertEntries.

(** C3, amended: every entry of [checkSpendingAlerts] has [percentageUsed]
    equal to [(currentSpending / limitAmount) * 100] as binary64 arithmetic
    evaluates it, the quotient first and each operation rounded, when the
    alert's [limitAmount] is positive, and equal to 0 when it is not (zero,
    negative or [NaN]), so no division by that limit occurs; the value is
    not capped. *)
Theorem checkSpendingAlerts_percentageUsed_binary64
    (SUM : list Binary64.double -> Binary64.double) (LocalTZA : Z)
    (db : Stored.DB) (scope : string) (clock : nat -> Z)
    (r : Stored.AlertStatus.t) :
  In r (Stored.Storage.checkSpendingAlerts SUM LocalTZA db scope clock) ->
  let limitAmount :=
    Stored.SpendingAlert.limitAmount
      (Stored.SpendingAlertWithCategory.alert (Stored.AlertStatus.alert r)) in
  Stored.AlertStatus.percentageUsed r
  = if Binary64.ltb Binary64.zero limitAmount
    then Binary64.mul
           (Binary64.div (Stored.AlertStatus.currentSpending r) limitAmount)
           (Binary64.ofZ 100)
    else Binary64.zero.
Proof.
  unfold Stored.Storage.checkSpendingAlerts. intro H.
  apply in_stored_checkLoop in H. destruct H as [j [a [_ ->]]].
  reflexivity.
Qed.

Lemma checkSpendingAlerts_percentageUsed_binary64_witness :
  exists r,
    In r (Stored.Storage.checkSpendingAlerts Binary64.sumSeq Sample.tz
            SampleStored.overspent "g1" (fun _ => Sample.now))
    /\ Stored.AlertStatus.currentSpending r = Binary64.ofZ 150
    /\ Stored.SpendingAlert.limitAmount
         (Stored.SpendingAlertWithCategory.alert (Stored.AlertStatus.alert r))
       = Binary64.ofZ 100
    /\ Stored.AlertStatus.percentageUsed r = Binary64.ofZ 150.
Proof.
  eexists. split; [left; reflexivity|].
  split; [vm_compute; reflexivity|]. split; [vm_compute; reflexivity|].
  refine (eq_trans
            (checkSpendingAlerts_percentageUsed_binary64 Binary64.sumSeq
               Sample.tz SampleStored.overspent "g1" (fun _ => Sample.now) _
               (or_introl eq_refl))
            _).
  vm_compute. reflexivity.
Defined.

(** C3 as claimed fails: with 7 spent of a limit of 25 the program returns
    28.000000000000004, which is neither the number 28 nor what
    [100 * 7 / 25] gives in binary64, whichever way the database adds. *)
Lemma checkSpendingAlerts_percentageUsed_counterexample :
  map (fun SUM =>
         map (fun r =>
                (Stored.AlertStatus.currentSpending r,
                 Stored.SpendingAlert.limitAmount
                   (Stored.SpendingAlertWithCategory.alert
                      (Stored.AlertStatus.alert r)),
                 Binary64.exact (Stored.AlertStatus.percentageUsed r)))
           (Stored.Storage.checkSpendingAlerts SUM Sample.tz
              SampleStored.sevenOf25 "g1" (fun _ => Sample.now)))
    SampleStored.engines
  = [ [ (Binary64.ofZ 7, Binary64.ofZ 25,
         Some (7881299347898369 # 281474976710656)) ];
      [ (Binary64.ofZ 7, Binary64.ofZ 25,
         Some (7881299347898369 # 281474976710656)) ] ]
  /\ ~ (7881299347898369 # 281474976710656 == 100 * 7 / 25)%Q
  /\ Binary64.div (Binary64.mul (Binary64.ofZ 100) (Binary64.ofZ 7))
       (Binary64.ofZ 25)
     = Binary64.ofZ 28.
Proof.
  repeat split; try (vm_compute; reflexivity); vm_compute; discriminate.
Qed.

(** *** [Math.round] and division in binary64 *)

Lemma Qfloor_half (z : Z) : Qfloor (inject_Z z + (1 # 2)) = z.
Proof.
  pose proof (Qfloor_le (inject_Z z + (1 # 2))) as L.
  pose proof (Qlt_floor (inject_Z z + (1 # 2))) as U.
  rewrite inject_Z_plus in U. change (inject_Z 1) with 1%Q in U.
  set (f := Qfloor (inject_Z z + (1 # 2))) in *.
  assert (f < z + 1) as H1.
  { rewrite Zlt_Qlt, inject_Z_plus. change (inject_Z 1) with 1%Q. lra. }
  assert (z < f + 1) as H2.
  { rewrite Zlt_Qlt, inject_Z_plus. change (inject_Z 1) with 1%Q. lra. }
  lia.
Qed.

Lemma exact_ofInteger (negative : bool) (z : Z) :
  exists q,
    Binary64.exact (Binary64.ofInteger negative z) = Some q
    /\ (q == inject_Z z)%Q.
Proof.
  assert (forall s p,
            exists q,
              Binary64.exact
                (let k := 53 - Z.pos (digits2_pos p) in
                 if 0 <? k
                 then S754_finite s (Z.to_pos (Z.shiftl (Z.pos p) k)) (- k)
                 else S754_finite s p 0)
              = Some q
              /\ (q == inject_Z (if s then Z.neg p else Z.pos p))%Q) as N.
  { intros s p. cbv zeta.
    set (k := 53 - Z.pos (digits2_pos p)).
    destruct (0 <? k) eqn:K.
    - apply Z.ltb_lt in K. cbn [Binary64.exact].
      replace (0 <=? - k) with false by (symmetry; apply Z.leb_gt; lia).
      eexists. split; [reflexivity|].
      rewrite Z.opp_involutive.
      assert (0 < 2 ^ k) as P by (apply Z.pow_pos_nonneg; lia).
      assert (Z.shiftl (Z.pos p) k = Z.pos p * 2 ^ k) as S
        by (apply Z.shiftl_mul_pow2; lia).
      assert (0 < Z.shiftl (Z.pos p) k) as SP by (rewrite S; lia).
      unfold Qeq. cbn [Qnum Qden inject_Z].
      rewrite (Z2Pos.id (2 ^ k)) by exact P.
      destruct s.
      + change (Z.neg (Z.to_pos (Z.shiftl (Z.pos p) k)))
          with (- Z.pos (Z.to_pos (Z.shiftl (Z.pos p) k))).
        rewrite (Z2Pos.id (Z.shiftl (Z.pos p) k)) by exact SP.
        rewrite S. lia.
      + rewrite (Z2Pos.id (Z.shiftl (Z.pos p) k)) by exact SP.
        rewrite S. lia.
    - cbn [Binary64.exact]. change (0 <=? 0) with true. cbv iota.
      eexists. split; [reflexivity|].
      rewrite Z.pow_0_r, Z.mul_1_r. reflexivity. }
  destruct z as [|p|p]; cbn [Binary64.ofInteger].
  - exists 0%Q. split; reflexivity.
  - apply (N false p).
  - apply (N true p).
Qed.

(** [Math.round] returns the integer nearest to the number it is given, a
    half going up. *)
Lemma exact_Math_round (x : Binary64.double) (s : Q) :
  Binary64.exact x = Some s ->
  exists q,
    Binary64.exact (Binary64.Math_round x) = Some q
    /\ (q == inject_Z (Qfloor (s + (1 # 2))))%Q.
Proof.
  destruct x as [sx|sx| |sx m e]; cbn [Binary64.exact]; try discriminate.
  - intro E. inversion E. subst s. exists 0%Q. split; reflexivity.
  - intro E. cbn [Binary64.Math_round].
    destruct (0 <=? e) eqn:P.
    + cbn [Binary64.exact]. rewrite P. exists s. split; [exact E|].
      inversion E. now rewrite Qfloor_half.
    + inversion E. apply exact_ofInteger.
Qed.

(** A finite number divided by itself gives 1. *)
Lemma div_self (s : bool) (m : positive) (e : Z) :
  Binary64.div (S754_finite s m e) (S754_finite s m e) = Binary64.ofZ 1.
Proof.
  unfold Binary64.div, SFdiv, SFdiv_core_binary.
  rewrite Z.sub_diag.
  replace (Z.sub (Z.add (Zdigits2 (Zpos m)) e) (Z.add (Zdigits2 (Zpos m)) e))
    with 0 by lia.
  change (Z.min (fexp Binary64.prec Binary64.emax 0) 0) with (-53).
  change (Z.sub 0 (-53)) with 53.
  cbv iota.
  assert (Z.div_eucl (Z.shiftl (Z.pos m) 53) (Z.pos m) = (2 ^ 53, 0)) as D.
  { rewrite Z.shiftl_mul_pow2 by lia.
    pose proof (Z.div_eucl_eq (Z.pos m * 2 ^ 53) (Z.pos m) ltac:(lia)) as E.
    pose proof (Z.mod_pos_bound (Z.pos m * 2 ^ 53) (Z.pos m) ltac:(lia)) as B.
    unfold Z.modulo in B.
    pose proof (Z.div_mul (2 ^ 53) (Z.pos m) ltac:(lia)) as Q.
    rewrite Z.mul_comm in Q. unfold Z.div in Q.
    destruct (Z.div_eucl (Z.pos m * 2 ^ 53) (Z.pos m)) as [q r].
    cbn [fst snd] in *. subst q. f_equal. lia. }
  rewrite D.
  replace (new_location (Z.pos m) 0) with loc_Exact
    by (unfold new_location, new_location_even, new_location_odd;
        destruct (Z.even (Z.pos m)); reflexivity).
  rewrite xorb_nilpotent. reflexivity.
Qed.

(** *** The percentages of [getCategoryExpenses] *)

Lemma fold_left_over_map {A B C : Type} (g : A -> C -> A) (f : B -> C)
    (l : list B) (a : A) :
  fold_left g (map f l) a = fold_left (fun s b => g s (f b)) l a.
Proof.
  revert a. induction l as [|b l IH]; intro a; [reflexivity|].
  cbn [map fold_left]. apply IH.
Qed.

Lemma value_of_exact (x : Binary64.double) (q : Q) :
  Binary64.exact x = Some q ->
  Binary64.finite x = true /\ Binary64.value x = q.
Proof.
  intro E. unfold Binary64.finite, Binary64.value. now rewrite E.
Qed.

Lemma exact_of_finite (x : Binary64.double) :
  Binary64.finite x = true ->
  Binary64.exact x = Some (Binary64.value x).
Proof.
  unfold Binary64.finite, Binary64.value.
  destruct (Binary64.exact x); [reflexivity|discriminate].
Qed.

(** Integers each within 3/4 of a rational: their sum is within 3/4 a piece
    of the sum of the rationals. *)
Lemma near_sum {A : Type} (p : A -> Z) (c : A -> Q) (l : list A) :
  (forall a, In a l ->
     (- (3 # 4) <= inject_Z (p a) - c a <= 3 # 4)%Q) ->
  (- (3 # 4) * inject_Z (Z.of_nat (List.length l))
   <= inject_Z (sumZ (map p l)) - sumQ (map c l)
   <= (3 # 4) * inject_Z (Z.of_nat (List.length l)))%Q.
Proof.
  induction l as [|a l IH]; intro H.
  - cbn [map sumZ sumQ fold_right List.length Z.of_nat].
    change (inject_Z 0) with 0%Q. split; lra.
  - cbn [map sumZ sumQ fold_right List.length].
    fold (sumZ (map p l)). fold (sumQ (map c l)).
    rewrite Nat2Z.inj_succ, <- Z.add_1_r, !inject_Z_plus.
    change (inject_Z 1) with 1%Q.
    pose proof (H a (or_introl eq_refl)) as Ha.
    pose proof (IH (fun b Hb => H b (or_intror Hb))) as Hl.
    split; lra.
Qed.

Lemma stored_percentage
    (SUM : list Binary64.double -> Binary64.double) (LocalTZA : Z)
    (ORDER : list ((string * string) * Binary64.double)
             -> list ((string * string) * Binary64.double))
    (db : Stored.DB) (scope : string) (year month : Z)
    (e : Stored.CategoryExpense.t) :
  let result :=
    Stored.Storage.getCategoryExpenses SUM LocalTZA ORDER db scope year
      month in
  let totalExpenses :=
    fold_left
      (fun sum e => Binary64.add sum (Stored.CategoryExpense.total e))
      result Binary64.zero in
  In e result ->
  Stored.CategoryExpense.percentage e
  = if Binary64.ltb Binary64.zero totalExpenses
    then Binary64.Math_round
           (Binary64.mul
              (Binary64.div (Stored.CategoryExpense.total e) totalExpenses)
              (Binary64.ofZ 100))
    else Binary64.zero.
Proof.
  unfold Stored.Storage.getCategoryExpenses.
  cbv zeta. rewrite fold_left_over_map.
  cbn [Stored.CategoryExpense.total].
  intro H. apply in_map_iff in H. destruct H as [item [<- _]].
  reflexivity.
Qed.

(** C2, amended: each category [getCategoryExpenses] returns has
    [percentage] equal to [Math.round((total / totalExpenses) * 100)] as
    binary64 arithmetic evaluates it, the quotient first and each operation
    rounded, when [totalExpenses], the sum of the totals added one after
    the other in the order of the result, is positive, and 0 when it is
    not.  A single category with a positive finite total gets 100.  When
    [totalExpenses] is positive and every computed share
    [(total / totalExpenses) * 100] is finite and within 1/4 of the share
    [100 * total / (exact sum of the totals)], each percentage is an integer
    and the percentages add to 100 give or take the number of categories
    less one. *)
Theorem category_percentages_binary64
    (SUM : list Binary64.double -> Binary64.double) (LocalTZA : Z)
    (ORDER : list ((string * string) * Binary64.double)
             -> list ((string * string) * Binary64.double))
    (db : Stored.DB) (scope : string) (year month : Z) :
  let result :=
    Stored.Storage.getCategoryExpenses SUM LocalTZA ORDER db scope year
      month in
  let totalExpenses :=
    fold_left
      (fun sum e => Binary64.add sum (Stored.CategoryExpense.total e))
      result Binary64.zero in
  let share e :=
    Binary64.mul
      (Binary64.div (Stored.CategoryExpense.total e) totalExpenses)
      (Binary64.ofZ 100) in
  (forall e, In e result ->
     Stored.CategoryExpense.percentage e
     = if Binary64.ltb Binary64.zero totalExpenses
       then Binary64.Math_round (share e)
       else Binary64.zero)
  /\ (forall e m ex,
        result = [e] ->
        Stored.CategoryExpense.total e = S754_finite false m ex ->
        Stored.CategoryExpense.percentage e = Binary64.ofZ 100)
  /\ (let exactTotal :=
        sumQ (map (fun e => Binary64.value (Stored.CategoryExpense.total e))
                result) in
      let n := Z.of_nat (List.length result) in
      Binary64.ltb Binary64.zero totalExpenses = true ->
      (0 < exactTotal)%Q ->
      (forall e, In e result ->
         Binary64.finite (share e) = true
         /\ (Qabs (Binary64.value (share e)
                   - Binary64.value (Stored.CategoryExpense.total e)
                     / exactTotal * 100)
             <= 1 # 4)%Q) ->
      (forall e, In e result ->
         Binary64.finite (Stored.CategoryExpense.percentage e) = true
         /\ (Binary64.value (Stored.CategoryExpense.percentage e)
             == inject_Z
                  (Qfloor
                     (Binary64.value (Stored.CategoryExpense.percentage e))))%Q)
      /\ 100 - (n - 1)
         <= sumZ (map (fun e =>
                         Qfloor
                           (Binary64.value
                              (Stored.CategoryExpense.percentage e)))
                    result)
         <= 100 + (n - 1)).
Proof.
  intros result totalExpenses share.
  assert (forall e, In e result ->
            Stored.CategoryExpense.percentage e
            = if Binary64.ltb Binary64.zero totalExpenses
              then Binary64.Math_round (share e)
              else Binary64.zero) as F
    by (intros e He;
        exact (stored_percentage SUM LocalTZA ORDER db scope year month e
                 He)).
  split; [exact F|]. split.
  - intros e m ex E Ht.
    rewrite (F e) by (rewrite E; now left).
    unfold share, totalExpenses. rewrite E. cbn [fold_left]. rewrite Ht.
    change (Binary64.add Binary64.zero (S754_finite false m ex))
      with (S754_finite false m ex).
    change (Binary64.ltb Binary64.zero (S754_finite false m ex)) with true.
    cbv iota. rewrite div_self. reflexivity.
  - intros exactTotal n HT HS H.
    assert (forall e, In e result ->
              Binary64.finite (Stored.CategoryExpense.percentage e) = true
              /\ (Binary64.value (Stored.CategoryExpense.percentage e)
                  == inject_Z (Math_round (Binary64.value (share e))))%Q)
      as P.
    { intros e He. rewrite (F e He), HT.
      destruct (H e He) as [Hf _].
      destruct (exact_Math_round _ _ (exact_of_finite _ Hf)) as [q [Eq Hq]].
      destruct (value_of_exact _ _ Eq) as [Ff Fv].
      split; [exact Ff|]. rewrite Fv. exact Hq. }
    assert (forall e, In e result ->
              Qfloor (Binary64.value (Stored.CategoryExpense.percentage e))
              = Math_round (Binary64.value (share e))) as PZ.
    { intros e He. destruct (P e He) as [_ Hv].
      rewrite (Qfloor_comp _ _ Hv). apply Qfloor_Z. }
    split.
    + intros e He. destruct (P e He) as [Hf Hv]. split; [exact Hf|].
      now rewrite (PZ e He).
    + pose proof (near_sum
                    (fun e =>
                       Qfloor
                         (Binary64.value
                            (Stored.CategoryExpense.percentage e)))
                    (fun e =>
                       (Binary64.value (Stored.CategoryExpense.total e)
                        / exactTotal * 100)%Q)
                    result) as N.
      assert (forall a, In a result ->
                (- (3 # 4)
                 <= inject_Z
                      (Qfloor
                         (Binary64.value
                            (Stored.CategoryExpense.percentage a)))
                    - Binary64.value (Stored.CategoryExpense.total a)
                      / exactTotal * 100
                 <= 3 # 4)%Q) as B.
      { intros e He. rewrite (PZ e He).
        destruct (H e He) as [_ Hq].
        apply Qabs_Qle_condition in Hq.
        destruct (Math_round_bounds (Binary64.value (share e))) as [B1 B2].
        split; lra. }
      specialize (N B). clear B.
      rewrite <- (map_map
                    (fun e => Binary64.value (Stored.CategoryExpense.total e))
                    (fun x => (x / exactTotal * 100)%Q)) in N.
      rewrite shares_sum in N by (assumption || reflexivity).
      fold n in N.
      assert (1 <= n) as Hn.
      { subst n. destruct result as [|e l]; [|cbn [List.length]; lia].
        exfalso. unfold exactTotal in HS. cbn in HS. lra. }
      set (S := sumZ _) in *.
      destruct N as [N1 N2].
      assert (4 * (S - 100) <= 3 * n /\ - (3 * n) <= 4 * (S - 100)) as [L U].
      { unfold Z.sub. split; rewrite Zle_Qle;
          rewrite ?inject_Z_opp, ?inject_Z_mult, ?inject_Z_plus,
            ?inject_Z_opp;
          change (inject_Z 4) with 4%Q; change (inject_Z 3) with 3%Q;
          change (inject_Z 100) with 100%Q; lra. }
      lia.
Qed.

Lemma category_percentages_binary64_witness :
  100 - (2 - 1)
  <= sumZ (map (fun e =>
                  Qfloor
                    (Binary64.value (Stored.CategoryExpense.percentage e)))
             (Stored.Storage.getCategoryExpenses Binary64.sumSeq
                SampleStored.east Stored.Engine.inScanOrder
                SampleStored.shares "u1" 1970 1))
  <= 100 + (2 - 1).
Proof.
  refine (proj2
            (proj2 (proj2
               (category_percentages_binary64 Binary64.sumSeq
                  SampleStored.east Stored.Engine.inScanOrder
                  SampleStored.shares "u1" 1970 1))
               _ _ _)).
  - vm_compute. reflexivity.
  - vm_compute. reflexivity.
  - intros e He. vm_compute in He.
    destruct He as [<-|[<-|[]]]; vm_compute; split;
      solve [reflexivity | discriminate].
Defined.

(** C2 as claimed fails, on ledgers whose expenses are dated in the month
    reported and entered category after category, so that the groups come
    in the same order by first row and by key.  23 and 17 spent in two
    categories: the program gives the first 57 per cent, where
    [round(100 * 23 / 40)] is 58.  One expense of amount 0: its category,
    the only one, gets 0 per cent, not 100, and the percentages add to 0.
    Both whichever way the database adds. *)
Lemma category_percentages_counterexample :
  (SampleStored.inJanuary SampleStored.shares = true
   /\ SampleStored.inJanuary SampleStored.nothing = true)
  /\ (map (fun SUM =>
             map (fun e =>
                    (Stored.CategoryExpense.categoryId e,
                     option_map Qred
                       (Binary64.exact (Stored.CategoryExpense.total e)),
                     option_map Qred
                       (Binary64.exact
                          (Stored.CategoryExpense.percentage e))))
               (Stored.Storage.getCategoryExpenses SUM SampleStored.east
                  Stored.Engine.inScanOrder SampleStored.shares "u1" 1970
                  1))
        SampleStored.engines
      = [ [ ("cat-a"%string, Some 23%Q, Some 57%Q);
            ("cat-b"%string, Some 17%Q, Some 43%Q) ];
          [ ("cat-a"%string, Some 23%Q, Some 57%Q);
            ("cat-b"%string, Some 17%Q, Some 43%Q) ] ]
      /\ Math_round (100 * 23 / 40) = 58
      /\ Binary64.Math_round
           (Binary64.div
              (Binary64.mul (Binary64.ofZ 100) (Binary64.ofZ 23))
              (Binary64.ofZ 40))
         = Binary64.ofZ 58)
  /\ (List.length (Stored.transactions SampleStored.nothing) = 1%nat
      /\ map (fun SUM =>
                map (fun e =>
                       (Stored.CategoryExpense.categoryId e,
                        Stored.CategoryExpense.percentage e))
                  (Stored.Storage.getCategoryExpenses SUM SampleStored.east
                     Stored.Engine.inScanOrder SampleStored.nothing "u1"
                     1970 1))
           SampleStored.engines
         = [ [ ("cat-a"%string, Binary64.zero) ];
             [ ("cat-a"%string, Binary64.zero) ] ]).
Proof.
  repeat split; vm_compute; reflexivity.
Qed.

(** The bound on the sum of the percentages needs the computed shares to be
    close to the exact ones.  With totals of 1e16, 3 and -1e16 (the schema
    accepts a negative amount), the sum as the program adds them is
    positive and the three percentages add to 75. *)
Example category_percentages_cancelling :
  SampleStored.inJanuary SampleStored.cancelling = true
  /\ Binary64.ltb Binary64.zero
       (fold_left
          (fun sum e =>
             Binary64.add sum (Stored.CategoryExpense.total e))
          (Stored.Storage.getCategoryExpenses Binary64.sumSeq
             SampleStored.east Stored.Engine.inScanOrder
             SampleStored.cancelling "u1" 1970 1)
          Binary64.zero)
     = true
  /\ map (fun e =>
            Qfloor
              (Binary64.value (Stored.CategoryExpense.percentage e)))
       (Stored.Storage.getCategoryExpenses Binary64.sumSeq
          SampleStored.east Stored.Engine.inScanOrder
          SampleStored.cancelling "u1" 1970 1)
     = [ 250000000000000000; 75; -250000000000000000 ].
Proof.
  repeat split; vm_compute; reflexivity.
Qed.

(** ** The groups of the database *)

Lemma find_in_map {A B : Type} (p : B -> bool) (f : A -> B) (l : list A) :
  find p (map f l) = option_map f (find (fun a => p (f a)) l).
Proof.
  induction l as [|a l IH]; [reflexivity|]. cbn [map find].
  destruct (p (f a)); [reflexivity|exact IH].
Qed.

Section GroupByFacts.
Context {K : Type} (eqb : K -> K -> bool).
Hypothesis eqb_eq : forall a b, eqb a b = true <-> a = b.

Let group (k : K) (groups : list (K * list Binary64.double))
    : option (list Binary64.double) :=
  option_map snd (find (fun g => eqb (fst g) k) groups).

Let valuesOf (k : K) (rows : list (K * Binary64.double))
    : list Binary64.double :=
  map snd (filter (fun r => eqb (fst r) k) rows).

Let step (groups : list (K * list Binary64.double))
    (r : K * Binary64.double) : list (K * list Binary64.double) :=
  Stored.Engine.addRow eqb (fst r) (snd r) groups.

Lemma addRow_group_same (k : K) (v : Binary64.double)
    (g : list (K * list Binary64.double)) :
  group k (Stored.Engine.addRow eqb k v g)
  = Some (match group k g with Some vs => vs ++ [v] | None => [v] end).
Proof.
  unfold group. induction g as [|[k' vs] g IH]; cbn [Stored.Engine.addRow].
  - cbn [find fst]. rewrite (proj2 (eqb_eq k k) eq_refl). reflexivity.
  - destruct (eqb k' k) eqn:E; cbn [find fst]; rewrite E.
    + reflexivity.
    + exact IH.
Qed.

Lemma addRow_group_other (k k' : K) (v : Binary64.double)
    (g : list (K * list Binary64.double)) :
  eqb k k' = false -> group k' (Stored.Engine.addRow eqb k v g) = group k' g.
Proof.
  intro N. unfold group.
  induction g as [|[k0 vs] g IH]; cbn [Stored.Engine.addRow].
  - cbn [find fst]. now rewrite N.
  - destruct (eqb k0 k) eqn:E; cbn [find fst].
    + apply eqb_eq in E. subst k0. now rewrite N.
    + destruct (eqb k0 k'); [reflexivity|exact IH].
Qed.

Lemma fold_addRow_group (k : K) (rows : list (K * Binary64.double))
    (g : list (K * list Binary64.double)) :
  group k (fold_left step rows g)
  = match valuesOf k rows with
    | [] => group k g
    | vs => Some (match group k g with Some us => us ++ vs | None => vs end)
    end.
Proof.
  revert g. induction rows as [|[k1 v] rows IH]; intro g; [reflexivity|].
  cbn [fold_left]. rewrite IH. unfold step. cbn [fst snd].
  unfold valuesOf. cbn [filter fst].
  destruct (eqb k1 k) eqn:E.
  - apply eqb_eq in E. subst k1. rewrite addRow_group_same.
    cbn [map snd]. fold (valuesOf k rows).
    destruct (valuesOf k rows) as [|w ws]; destruct (group k g) as [us|];
      try reflexivity; now rewrite <- app_assoc.
  - rewrite (addRow_group_other k1 k v g E). reflexivity.
Qed.

(** The sum [find] picks from the grouped rows for key [k] is the sum of
    the engine over the values of the rows under [k], in their order;
    nothing when there is none. *)
Lemma groupSum_group (SUM : list Binary64.double -> Binary64.double) (k : K)
    (rows : list (K * Binary64.double)) :
  option_map snd
    (find (fun r => eqb (fst r) k) (Stored.Engine.groupSum SUM eqb rows))
  = Stored.Engine.sum SUM
      (map snd (filter (fun r => eqb (fst r) k) rows)).
Proof.
  unfold Stored.Engine.groupSum. rewrite find_in_map. cbn [fst].
  pose proof (fold_addRow_group k rows []) as F.
  unfold group, step, valuesOf in F. unfold Stored.Engine.groupBy.
  destruct (find (fun g => eqb (fst g) k)
              (fold_left
                 (fun groups r =>
                    Stored.Engine.addRow eqb (fst r) (snd r) groups)
                 rows [])) as [[k' vs]|];
    cbn [option_map snd find] in F |- *;
    destruct (map snd (filter (fun r => eqb (fst r) k) rows)) as [|w ws];
    try discriminate; try reflexivity.
  inversion F. reflexivity.
Qed.

Lemma addRow_values (k : K) (v : Binary64.double)
    (g : list (K * list Binary64.double)) :
  Permutation (List.concat (map snd (Stored.Engine.addRow eqb k v g)))
    (v :: List.concat (map snd g)).
Proof.
  induction g as [|[k' vs] g IH]; cbn [Stored.Engine.addRow].
  - apply Permutation_refl.
  - destruct (eqb k' k); cbn [map List.concat snd].
    + rewrite <- app_assoc. cbn [app].
      apply Permutation_sym, Permutation_middle.
    + apply perm_trans with (vs ++ v :: List.concat (map snd g)).
      * now apply Permutation_app_head.
      * apply Permutation_sym, Permutation_middle.
Qed.

(** Grouping only rearranges the values. *)
Lemma groupBy_values (rows : list (K * Binary64.double)) :
  Permutation (List.concat (map snd (Stored.Engine.groupBy eqb rows)))
    (map snd rows).
Proof.
  unfold Stored.Engine.groupBy.
  assert (forall g,
            Permutation
              (List.concat (map snd (fold_left step rows g)))
              (List.concat (map snd g) ++ map snd rows)) as H.
  { induction rows as [|[k v] rows IH]; intro g; cbn [fold_left map snd].
    - rewrite app_nil_r. apply Permutation_refl.
    - apply perm_trans with
        (List.concat (map snd (step g (k, v))) ++ map snd rows);
        [apply IH|].
      unfold step. cbn [fst snd].
      apply perm_trans with ((v :: List.concat (map snd g)) ++ map snd rows).
      + apply Permutation_app_tail, addRow_values.
      + cbn [app]. apply Permutation_middle. }
  exact (H []).
Qed.

Lemma addRow_keys_in (k k' : K) (v : Binary64.double)
    (g : list (K * list Binary64.double)) :
  In k' (map fst (Stored.Engine.addRow eqb k v g)) ->
  k' = k \/ In k' (map fst g).
Proof.
  induction g as [|[k0 vs] g IH]; cbn [Stored.Engine.addRow].
  - cbn [map fst In]. intros [<-|[]]. now left.
  - destruct (eqb k0 k); cbn [map fst In].
    + intros [<-|H]; right; [now left|now right].
    + intros [<-|H]; [right; now left|].
      destruct (IH H) as [->|H']; [now left|right; now right].
Qed.

Lemma addRow_keys_NoDup (k : K) (v : Binary64.double)
    (g : list (K * list Binary64.double)) :
  NoDup (map fst g) -> NoDup (map fst (Stored.Engine.addRow eqb k v g)).
Proof.
  induction g as [|[k0 vs] g IH]; cbn [Stored.Engine.addRow]; intro ND.
  - cbn [map fst]. constructor; [intros []|constructor].
  - destruct (eqb k0 k) eqn:E; cbn [map fst] in *; [exact ND|].
    inversion ND as [|? ? N ND']; subst. constructor; [|now apply IH].
    intro H. destruct (addRow_keys_in k k0 v g H) as [->|H']; [|now apply N].
    rewrite (proj2 (eqb_eq k k) eq_refl) in E. discriminate.
Qed.

(** No two groups share a key. *)
Lemma groupBy_keys_NoDup (rows : list (K * Binary64.double)) :
  NoDup (map fst (Stored.Engine.groupBy eqb rows)).
Proof.
  unfold Stored.Engine.groupBy.
  assert (forall g, NoDup (map fst g) ->
            NoDup (map fst (fold_left step rows g))) as H.
  { induction rows as [|r rows IH]; intros g ND; [exact ND|].
    cbn [fold_left]. apply IH. unfold step. now apply addRow_keys_NoDup. }
  apply H. constructor.
Qed.

(** Looking a key up among rows with distinct keys does not depend on their
    order. *)
Lemma find_key_any_order {V : Type} (k : K) (l l' : list (K * V)) :
  Permutation l l' -> NoDup (map fst l) ->
  find (fun r => eqb (fst r) k) l = find (fun r => eqb (fst r) k) l'.
Proof.
  induction 1 as [|x l l' P IH|x y l|l l' l'' P1 IH1 P2 IH2]; intro ND.
  - reflexivity.
  - cbn [find]. destruct (eqb (fst x) k); [reflexivity|].
    apply IH. cbn [map] in ND. now inversion ND.
  - cbn [find].
    destruct (eqb (fst y) k) eqn:Ey; destruct (eqb (fst x) k) eqn:Ex;
      try reflexivity.
    apply eqb_eq in Ey, Ex. cbn [map] in ND.
    inversion ND as [|? ? N _]; subst. exfalso. apply N.
    left. congruence.
  - rewrite IH1 by exact ND. apply IH2.
    apply (Permutation_NoDup (Permutation_map fst P1) ND).
Qed.
End GroupByFacts.

Lemma value_fromText (x : Binary64.double) :
  Binary64.value (Binary64.fromText x) = Binary64.value x
  /\ Binary64.finite (Binary64.fromText x) = Binary64.finite x.
Proof. destruct x; split; reflexivity. Qed.

Lemma sumQ_concat (groups : list (list Q)) :
  (sumQ (List.concat groups) == sumQ (map sumQ groups))%Q.
Proof.
  induction groups as [|g groups IH]; [reflexivity|].
  cbn [List.concat map]. rewrite sumQ_app.
  change (sumQ (sumQ g :: map sumQ groups))
    with (sumQ g + sumQ (map sumQ groups))%Q.
  now rewrite IH.
Qed.

Lemma sumQ_pointwise {A : Type} (f g : A -> Q) (l : list A) :
  (forall a, In a l -> (f a == g a)%Q) ->
  (sumQ (map f l) == sumQ (map g l))%Q.
Proof.
  induction l as [|a l IH]; intro H; [reflexivity|].
  cbn [map].
  change (sumQ (f a :: map f l)) with (f a + sumQ (map f l))%Q.
  change (sumQ (g a :: map g l)) with (g a + sumQ (map g l))%Q.
  rewrite (H a (or_introl eq_refl)), IH; [reflexivity|].
  intros b Hb. apply H. now right.
Qed.

(** The expense rows the two month reports select are the same: with
    categories keyed by [id] and every expense naming a stored category, the
    joined rows of [getCategoryExpenses] carry the amounts of the expenses
    [getMonthlyBalance] selects, in the same order. *)
Lemma categoryExpensesSelected_amounts (LocalTZA : Z) (db : Stored.DB)
    (scope : string) (year month : Z) :
  NoDup (map Category.id (Stored.categories db)) ->
  (forall t, In t (Stored.transactions db) ->
     Stored.Transaction.type t = "expense"%string ->
     In (Stored.Transaction.categoryId t)
       (map Category.id (Stored.categories db))) ->
  map snd
    (Stored.Storage.categoryExpensesSelected LocalTZA db scope year month)
  = map Stored.Transaction.amount
      (filter (fun t =>
                 Stored.Storage.monthlyBalanceWhere scope
                   (JSDate.newDate LocalTZA year (month - 1) 1 0 0 0 0)
                   (JSDate.newDate LocalTZA year month 0 23 59 59 0) t
                 && String.eqb (Stored.Transaction.type t) "expense")
         (Stored.transactions db)).
Proof.
  intros ND FK.
  unfold Stored.Storage.categoryExpensesSelected,
    Stored.Storage.transactionsWithCategory.
  rewrite map_map. cbn [snd].
  rewrite <- (map_map fst Stored.Transaction.amount).
  rewrite <- (innerJoin_filter_left
                (fun t c => String.eqb (Stored.Transaction.categoryId t)
                              (Category.id c))
                (Stored.Storage.categoryExpensesWhere scope
                   (JSDate.newDate LocalTZA year (month - 1) 1 0 0 0 0)
                   (JSDate.newDate LocalTZA year month 0 23 59 59 0))).
  rewrite innerJoin_unique.
  - f_equal. apply filter_ext. intro t.
    unfold Stored.Storage.categoryExpensesWhere,
      Stored.Storage.monthlyBalanceWhere.
    destruct (String.eqb (Stored.Transaction.userId t) scope),
      (String.eqb (Stored.Transaction.type t) "expense"),
      (JSDate.newDate LocalTZA year (month - 1) 1 0 0 0 0
       <=? Stored.Transaction.date t),
      (Stored.Transaction.date t
       <=? JSDate.newDate LocalTZA year month 0 23 59 59 0);
      reflexivity.
  - intros t Ht. apply filter_In in Ht. destruct Ht as [Ht Hw].
    apply keyed_filter_in; [exact ND|]. apply FK; [exact Ht|].
    unfold Stored.Storage.categoryExpensesWhere in Hw.
    rewrite !andb_true_iff in Hw. apply String.eqb_eq. tauto.
Qed.

(** C10, amended: on a ledger whose categories are keyed by [id] and whose
    expenses each name a stored category, the totals of
    [getCategoryExpenses] are, in whatever order the engine returns the
    groups, the sums the database forms over the groups of the expense
    amounts selected, these groups hold, between them, every
    amount that [getMonthlyBalance] adds into [expenses], each once, and
    [expenses] is the sum the database forms over all of them, 0 when there
    is none.  So the totals add up to [expenses] whenever those sums of the
    database are exact; in binary64 they need not be, and then the two can
    differ. *)
Theorem category_totals_and_expenses
    (SUM : list Binary64.double -> Binary64.double) (LocalTZA : Z)
    (ORDER : list ((string * string) * Binary64.double)
             -> list ((string * string) * Binary64.double))
    (db : Stored.DB) (scope : string) (year month : Z) :
  (forall rows, Permutation (ORDER rows) rows) ->
  NoDup (map Category.id (Stored.categories db)) ->
  (forall t, In t (Stored.transactions db) ->
     Stored.Transaction.type t = "expense"%string ->
     In (Stored.Transaction.categoryId t)
       (map Category.id (Stored.categories db))) ->
  let startDate := JSDate.newDate LocalTZA year (month - 1) 1 0 0 0 0 in
  let endDate := JSDate.newDate LocalTZA year month 0 23 59 59 0 in
  let spent :=
    map Stored.Transaction.amount
      (filter (fun t =>
                 Stored.Storage.monthlyBalanceWhere scope startDate endDate t
                 && String.eqb (Stored.Transaction.type t) "expense")
         (Stored.transactions db)) in
  let groups :=
    map snd
      (Stored.Engine.groupBy Storage.pairEqb
         (Stored.Storage.categoryExpensesSelected LocalTZA db scope year
            month)) in
  let result :=
    Stored.Storage.getCategoryExpenses SUM LocalTZA ORDER db scope year
      month in
  let expenses :=
    Stored.MonthlyBalance.expenses
      (Stored.Storage.getMonthlyBalance SUM LocalTZA db scope year month) in
  let exactOn l :=
    Binary64.finite (SUM l) = true
    /\ (Binary64.value (SUM l) == sumQ (map Binary64.value l))%Q in
  Permutation (map Stored.CategoryExpense.total result)
    (map (fun g => Binary64.fromText (SUM g)) groups)
  /\ Permutation (List.concat groups) spent
  /\ expenses = Stored.numberOr0 (Stored.Engine.sum SUM spent)
  /\ ((forall g, In g groups -> exactOn g) ->
      (spent <> [] -> exactOn spent) ->
      Binary64.finite expenses = true
      /\ (forall e, In e result ->
            Binary64.finite (Stored.CategoryExpense.total e) = true)
      /\ (sumQ (map (fun e =>
                       Binary64.value (Stored.CategoryExpense.total e))
                  result)
          == Binary64.value expenses)%Q).
Proof.
  intros HO ND FK startDate endDate spent groups result expenses exactOn.
  assert (Permutation (map Stored.CategoryExpense.total result)
            (map (fun g => Binary64.fromText (SUM g)) groups)) as T.
  { unfold result, groups, Stored.Storage.getCategoryExpenses,
      Stored.Storage.categoryExpensesRows, Stored.Engine.groupSum.
    cbv zeta. rewrite !map_map. cbn [Stored.CategoryExpense.total].
    rewrite <- (map_map snd Binary64.fromText).
    rewrite (Permutation_map snd (HO _)).
    rewrite !map_map. reflexivity. }
  assert (Permutation (List.concat groups) spent) as P.
  { unfold groups, spent, startDate, endDate.
    rewrite <- (categoryExpensesSelected_amounts LocalTZA db scope year month
                  ND FK).
    apply (groupBy_values Storage.pairEqb). }
  assert (expenses = Stored.numberOr0 (Stored.Engine.sum SUM spent)) as E.
  { unfold expenses, Stored.Storage.getMonthlyBalance.
    cbn [Stored.MonthlyBalance.expenses].
    rewrite (groupSum_group String.eqb String.eqb_eq SUM).
    rewrite filter_map_comm, map_map. cbn [fst snd].
    rewrite filter_filter. reflexivity. }
  split; [exact T|]. split; [exact P|]. split; [exact E|].
  intros HG HS.
  assert (Binary64.finite expenses = true
          /\ (Binary64.value expenses
              == sumQ (map Binary64.value spent))%Q) as [Fe Ve].
  { rewrite E. destruct spent as [|x l] eqn:S.
    - split; reflexivity.
    - cbn [Stored.Engine.sum Stored.numberOr0].
      destruct (value_fromText (SUM (x :: l))) as [-> ->].
      apply HS. discriminate. }
  split; [exact Fe|]. split.
  - intros e He.
    apply (in_map Stored.CategoryExpense.total) in He.
    apply (Permutation_in _ T) in He.
    apply in_map_iff in He. destruct He as [g [<- Hg]].
    destruct (value_fromText (SUM g)) as [_ ->]. apply (HG g Hg).
  - rewrite Ve.
    rewrite <- (map_map Stored.CategoryExpense.total Binary64.value).
    rewrite (sumQ_perm _ _ (Permutation_map Binary64.value T)).
    rewrite map_map.
    rewrite <- (sumQ_perm _ _ (Permutation_map Binary64.value P)).
    rewrite concat_map, sumQ_concat, map_map.
    apply sumQ_pointwise. intros g Hg.
    destruct (value_fromText (SUM g)) as [-> _]. apply (HG g Hg).
Qed.

Lemma category_totals_and_expenses_witness :
  (sumQ (map (fun e => Binary64.value (Stored.CategoryExpense.total e))
           (Stored.Storage.getCategoryExpenses Binary64.sumSeq
              SampleStored.east Stored.Engine.inScanOrder
              SampleStored.shares "u1" 1970 1))
   == Binary64.value
        (Stored.MonthlyBalance.expenses
           (Stored.Storage.getMonthlyBalance Binary64.sumSeq
              SampleStored.east SampleStored.shares "u1" 1970 1)))%Q.
Proof.
  refine (proj2 (proj2
            (proj2 (proj2 (proj2
               (category_totals_and_expenses Binary64.sumSeq
                  SampleStored.east Stored.Engine.inScanOrder
                  SampleStored.shares "u1" 1970 1 _ _ _)))
               _ _))).
  - intro rows. apply Permutation_refl.
  - cbn. repeat constructor; cbn; intuition discriminate.
  - intros t Ht _. vm_compute in Ht.
    repeat (destruct Ht as [<-|Ht]; [cbn; tauto|]). destruct Ht.
  - intros g Hg. vm_compute in Hg.
    repeat (destruct Hg as [<-|Hg]; [vm_compute; split; reflexivity|]).
    destruct Hg.
  - intros _. vm_compute. split; reflexivity.
Defined.

(** C10 as claimed fails: 0.1 spent in one category, 0.1 and 1 in another,
    all in the month reported and each naming a stored category.  Whichever
    way the database adds, the totals are 0.1 and 1.1 and [expenses] is
    1.2, which is neither their exact sum nor their sum in binary64,
    1.2000000000000002. *)
Lemma category_totals_and_expenses_counterexample :
  SampleStored.inJanuary SampleStored.tenths = true
  /\ map (fun SUM =>
            (map Stored.CategoryExpense.total
               (Stored.Storage.getCategoryExpenses SUM SampleStored.east
                  Stored.Engine.inScanOrder SampleStored.tenths "u1" 1970
                  1),
             Stored.MonthlyBalance.expenses
               (Stored.Storage.getMonthlyBalance SUM SampleStored.east
                  SampleStored.tenths "u1" 1970 1)))
       SampleStored.engines
     = [ ([ Binary64.decimal 1 1; Binary64.decimal 11 1 ],
          Binary64.decimal 12 1);
         ([ Binary64.decimal 1 1; Binary64.decimal 11 1 ],
          Binary64.decimal 12 1) ]
  /\ ~ (Binary64.value (Binary64.decimal 1 1)
        + Binary64.value (Binary64.decimal 11 1)
        == Binary64.value (Binary64.decimal 12 1))%Q
  /\ Binary64.add (Binary64.decimal 1 1) (Binary64.decimal 11 1)
     <> Binary64.decimal 12 1.
Proof.
  repeat split; try (vm_compute; reflexivity); vm_compute; discriminate.
Qed.

(** ** What the sums are taken over *)

Lemma monthlyBalance_engine
    (SUM : list Binary64.double -> Binary64.double)
    (rows : list Stored.Transaction.t) (selects : Stored.Transaction.t -> bool)
    (kind : string) :
  option_map snd
    (find (fun r => String.eqb (fst r) kind)
       (Stored.Engine.groupSum SUM String.eqb
          (map (fun t =>
                  (Stored.Transaction.type t, Stored.Transaction.amount t))
             (filter selects rows))))
  = Stored.Engine.sum SUM
      (map Stored.Transaction.amount
         (filter (fun t =>
                    selects t
                    && String.eqb (Stored.Transaction.type t) kind)
            rows)).
Proof.
  rewrite (groupSum_group String.eqb String.eqb_eq SUM).
  rewrite filter_map_comm, map_map. cbn [fst snd].
  now rewrite filter_filter.
Qed.

(** X24: the income and the expenses [getMonthlyBalance] returns are the
    sums the database forms over the amounts of the rows of type ["income"]
    and of type ["expense"] among those the [where] clause selects, in the
    order of the table, each 0 when there is no such row; the balance is
    their difference in binary64. *)
Theorem getMonthlyBalance_engine_sums
    (SUM : list Binary64.double -> Binary64.double) (LocalTZA : Z)
    (db : Stored.DB) (scope : string) (year month : Z) :
  let startDate := JSDate.newDate LocalTZA year (month - 1) 1 0 0 0 0 in
  let endDate := JSDate.newDate LocalTZA year month 0 23 59 59 0 in
  let selected kind :=
    map Stored.Transaction.amount
      (filter (fun t =>
                 Stored.Storage.monthlyBalanceWhere scope startDate endDate t
                 && String.eqb (Stored.Transaction.type t) kind)
         (Stored.transactions db)) in
  let r := Stored.Storage.getMonthlyBalance SUM LocalTZA db scope year month in
  Stored.MonthlyBalance.income r
  = Stored.numberOr0 (Stored.Engine.sum SUM (selected "income"%string))
  /\ Stored.MonthlyBalance.expenses r
     = Stored.numberOr0 (Stored.Engine.sum SUM (selected "expense"%string))
  /\ Stored.MonthlyBalance.balance r
     = Binary64.sub (Stored.MonthlyBalance.income r)
         (Stored.MonthlyBalance.expenses r).
Proof.
  intros startDate endDate selected r.
  unfold r, Stored.Storage.getMonthlyBalance.
  cbn [Stored.MonthlyBalance.income Stored.MonthlyBalance.expenses
       Stored.MonthlyBalance.balance].
  rewrite !monthlyBalance_engine. repeat split.
Qed.

(** X5: a row added to the table changes nothing in the balance of a month
    when it belongs to another id than the one queried, when the value of
    its [date] column lies outside the two bounds of the window, or when its
    type is neither ["income"] nor ["expense"]. *)
Theorem getMonthlyBalance_ignores
    (SUM : list Binary64.double -> Binary64.double) (LocalTZA : Z)
    (db : Stored.DB) (scope : string) (year month : Z)
    (t : Stored.Transaction.t) :
  let startDate := JSDate.newDate LocalTZA year (month - 1) 1 0 0 0 0 in
  let endDate := JSDate.newDate LocalTZA year month 0 23 59 59 0 in
  Stored.Transaction.userId t <> scope
  \/ Stored.Transaction.date t < startDate
  \/ endDate < Stored.Transaction.date t
  \/ (Stored.Transaction.type t <> "income"%string
      /\ Stored.Transaction.type t <> "expense"%string) ->
  Stored.Storage.getMonthlyBalance SUM LocalTZA
    (Stored.mkDB (Stored.categories db) (Stored.transactions db ++ [t])
       (Stored.spendingAlerts db))
    scope year month
  = Stored.Storage.getMonthlyBalance SUM LocalTZA db scope year month.
Proof.
  intros startDate endDate H.
  assert (forall kind,
            kind = "income"%string \/ kind = "expense"%string ->
            Stored.Storage.monthlyBalanceWhere scope startDate endDate t
            && String.eqb (Stored.Transaction.type t) kind = false) as F.
  { intros kind Hk. unfold Stored.Storage.monthlyBalanceWhere.
    destruct H as [H|[H|[H|[H1 H2]]]].
    - apply String.eqb_neq in H. now rewrite H.
    - apply Z.leb_gt in H. rewrite H. now rewrite andb_false_r.
    - apply Z.leb_gt in H. rewrite H. now rewrite andb_false_r.
    - apply String.eqb_neq in H1, H2.
      destruct Hk as [-> | ->]; rewrite ?H1, ?H2; apply andb_false_r. }
  unfold Stored.Storage.getMonthlyBalance. cbn [Stored.transactions].
  fold startDate endDate.
  rewrite !monthlyBalance_engine.
  rewrite (filter_last_out _ _ t (F "income"%string (or_introl eq_refl))).
  rewrite (filter_last_out _ _ t (F "expense"%string (or_intror eq_refl))).
  reflexivity.
Qed.

Lemma getMonthlyBalance_ignores_witness :
  Stored.Storage.getMonthlyBalance Binary64.sumSeq SampleStored.east
    (Stored.mkDB (Stored.categories SampleStored.shares)
       (Stored.transactions SampleStored.shares
        ++ [Stored.Storage.insertedRow "t9" 0 "g1" "u1"
              (Stored.InsertTransaction.mk "cat-a" "" (Binary64.ofZ 5)
                 "transfer" SampleStored.january2 None None)])
       (Stored.spendingAlerts SampleStored.shares))
    "u1" 1970 1
  = Stored.Storage.getMonthlyBalance Binary64.sumSeq SampleStored.east
      SampleStored.shares "u1" 1970 1.
Proof.
  apply getMonthlyBalance_ignores.
  right. right. right. split; discriminate.
Defined.

(** X21: a row added to the table changes nothing in the status of an alert
    when it belongs to another family group, when it is not an expense, when
    the value of its [date] column lies before the start of the alert's
    window or after the clock reading, or, for an alert with a category,
    when it belongs to another category. *)
Theorem checkAlert_ignores
    (SUM : list Binary64.double -> Binary64.double) (LocalTZA : Z)
    (db : Stored.DB) (familyGroupId : string) (now : Z)
    (alert : Stored.SpendingAlertWithCategory.t)
    (t : Stored.Transaction.t) :
  let a := Stored.SpendingAlertWithCategory.alert alert in
  let startDate :=
    Storage.periodStart LocalTZA (Stored.SpendingAlert.period a) now in
  Stored.Transaction.familyGroupId t <> familyGroupId
  \/ Stored.Transaction.type t <> "expense"%string
  \/ Stored.Transaction.date t < startDate
  \/ now < Stored.Transaction.date t
  \/ (exists cid,
        Stored.SpendingAlert.categoryId a = Some cid
        /\ cid <> ""%string
        /\ Stored.Transaction.categoryId t <> cid) ->
  Stored.Storage.checkAlert SUM LocalTZA
    (Stored.mkDB (Stored.categories db) (Stored.transactions db ++ [t])
       (Stored.spendingAlerts db))
    familyGroupId now alert
  = Stored.Storage.checkAlert SUM LocalTZA db familyGroupId now alert.
Proof.
  intros a startDate H.
  assert (Stored.Storage.alertWhere familyGroupId alert startDate now t
          = false) as F.
  { unfold Stored.Storage.alertWhere. fold a.
    destruct H as [H|[H|[H|[H|[cid [Hc [Hne H]]]]]]].
    - apply String.eqb_neq in H. now rewrite H.
    - apply String.eqb_neq in H. rewrite H. now rewrite andb_false_r.
    - apply Z.leb_gt in H. rewrite H. now rewrite !andb_false_r.
    - apply Z.leb_gt in H. rewrite H. now rewrite !andb_false_r.
    - rewrite Hc. cbn [truthy].
      apply String.eqb_neq in Hne, H. rewrite Hne, H. cbn [negb].
      apply andb_false_r. }
  unfold Stored.Storage.checkAlert. cbn [Stored.transactions].
  fold a. fold startDate.
  now rewrite (filter_last_out _ _ t F).
Qed.

Lemma checkAlert_ignores_witness :
  Stored.Storage.checkAlert Binary64.sumSeq Sample.tz
    (Stored.mkDB (Stored.categories SampleStored.overspent)
       (Stored.transactions SampleStored.overspent
        ++ [Stored.Storage.insertedRow "t9" 0 "g2" "u2"
              (SampleStored.spend "cat-a" (Binary64.ofZ 30)
                 SampleStored.farAhead)])
       (Stored.spendingAlerts SampleStored.overspent))
    "g1" Sample.now
    (Stored.SpendingAlertWithCategory.mk
       (SampleStored.alert "a" None (Binary64.ofZ 100) "monthly" true
          1700000100) None)
  = Stored.Storage.checkAlert Binary64.sumSeq Sample.tz
      SampleStored.overspent "g1" Sample.now
      (Stored.SpendingAlertWithCategory.mk
         (SampleStored.alert "a" None (Binary64.ofZ 100) "monthly" true
            1700000100) None).
Proof.
  apply checkAlert_ignores. left. discriminate.
Defined.

(** X25: [getMonthlyBalance] looks its two sums up by type among the rows of
    the grouped query, and no two of these rows have the same type: in
    whatever order the engine returns them, the row found for a type is the
    same. *)
Theorem getMonthlyBalance_any_group_order
    (SUM : list Binary64.double -> Binary64.double)
    (rows : list (string * Binary64.double))
    (results : list (string * Binary64.double)) (kind : string) :
  Permutation results (Stored.Engine.groupSum SUM String.eqb rows) ->
  find (fun r => String.eqb (fst r) kind) results
  = find (fun r => String.eqb (fst r) kind)
      (Stored.Engine.groupSum SUM String.eqb rows).
Proof.
  intro P. symmetry.
  apply (find_key_any_order String.eqb String.eqb_eq kind _ _
           (Permutation_sym P)).
  unfold Stored.Engine.groupSum. rewrite map_map. cbn [fst].
  apply (groupBy_keys_NoDup String.eqb String.eqb_eq).
Qed.

Lemma getMonthlyBalance_any_group_order_witness :
  find (fun r => String.eqb (fst r) "expense")
    [ ("income"%string, Binary64.ofZ 7);
      ("expense"%string, Binary64.ofZ 5) ]
  = Some ("expense"%string, Binary64.ofZ 5).
Proof.
  refine (eq_trans
            (getMonthlyBalance_any_group_order Binary64.sumSeq
               [ ("expense"%string, Binary64.ofZ 2);
                 ("income"%string, Binary64.ofZ 7);
                 ("expense"%string, Binary64.ofZ 3) ]
               [ ("income"%string, Binary64.ofZ 7);
                 ("expense"%string, Binary64.ofZ 5) ]
               "expense" _)
            eq_refl).
  vm_compute. apply perm_swap.
Defined.
